(** * PestiScan: the risk scoring engine and the leaf photo analyzer

    A shallow embedding of [shared/risk.js], of the scan endpoint of
    [server/index.js] and of [client/src/utils/leafVision.js].

    Numbers.  A JavaScript number is modelled as an extended real: a
    finite real, one of the two infinities, or NaN.  Rounding of binary64
    arithmetic, underflow and the sign of zero are not represented;
    [Math.exp], [Math.tanh] and [Math.log] are the real functions.  An
    equation proved here holds of the code up to the rounding of its
    operations.  A strict inequality can be lost to rounding
    ([Math.tanh(19.2)] is exactly 1), and a bound or a rounded
    percentage can be crossed by one unit in the last place: where a
    statement gives a bound with a margin (0.089 for 0.09, 26 points
    for 25), the margin covers this rounding.

    Values.  A JavaScript value is [undefined], [null], a boolean, a
    number, a string or a plain object (a list of fields, first match
    wins); arrays, functions and big integers are not represented.  The
    host conversion of a string to a number is a parameter of the
    development ([Host]): nothing below depends on how strings are
    read.

    Errors.  The conversion of an object to a number throws a TypeError
    when the object has an own [toString] field, since a field holds no
    function here.  [conversion_throws] recognises these values.  The
    scan handler catches the error and answers 500, which [Server.scan]
    follows, and [computeAiContribution_checked] has the error of the
    three conversions of the AI contribution.  [Number] itself answers
    NaN on every object, so the other statements on the scoring engine
    that are about the conversion of a value ask for a value on which
    it does not throw. *)

From Stdlib Require Import Reals Lra Lia ZArith List String Bool.
Import ListNotations.

Open Scope R_scope.

(** ** Numbers *)

Inductive num : Type :=
| Fin (r : R)
| PInf
| NInf
| NaN.

Arguments Fin r%_R.

Declare Scope js_scope.
Delimit Scope js_scope with js.
Bind Scope js_scope with num.

Definition isFinite (x : num) : bool :=
  match x with Fin _ => true | _ => false end.

Definition Rleb (x y : R) : bool := if Rle_dec x y then true else false.
Definition Rltb (x y : R) : bool := if Rlt_dec x y then true else false.
Definition Reqb (x y : R) : bool := if Req_dec_T x y then true else false.

(** Sign of a real as a number: used by products and quotients that
    involve an infinity. *)
Definition signed_inf (r : R) : num :=
  if Rltb 0 r then PInf else if Rltb r 0 then NInf else NaN.

Definition nneg (x : num) : num :=
  match x with
  | Fin r => Fin (- r)
  | PInf => NInf
  | NInf => PInf
  | NaN => NaN
  end.

Definition nadd (x y : num) : num :=
  match x, y with
  | NaN, _ | _, NaN => NaN
  | Fin a, Fin b => Fin (a + b)
  | PInf, NInf | NInf, PInf => NaN
  | PInf, _ | _, PInf => PInf
  | NInf, _ | _, NInf => NInf
  end.

Definition nsub (x y : num) : num := nadd x (nneg y).

Definition nmul (x y : num) : num :=
  match x, y with
  | NaN, _ | _, NaN => NaN
  | Fin a, Fin b => Fin (a * b)
  | Fin a, PInf | PInf, Fin a => signed_inf a
  | Fin a, NInf | NInf, Fin a => signed_inf (- a)
  | PInf, PInf | NInf, NInf => PInf
  | PInf, NInf | NInf, PInf => NaN
  end.

(** A zero divisor is read as [+0]. *)
Definition ndiv (x y : num) : num :=
  match x, y with
  | NaN, _ | _, NaN => NaN
  | Fin a, Fin b => if Reqb b 0 then signed_inf a else Fin (a / b)
  | Fin _, _ => Fin 0
  | PInf, Fin b => if Rltb b 0 then NInf else PInf
  | NInf, Fin b => if Rltb b 0 then PInf else NInf
  | _, _ => NaN
  end.

Infix "+" := nadd : js_scope.
Infix "-" := nsub : js_scope.
Infix "*" := nmul : js_scope.
Infix "/" := ndiv : js_scope.
Notation "- x" := (nneg x) : js_scope.

(** Comparisons: every comparison with NaN is false. *)
Definition nle (x y : num) : bool :=
  match x, y with
  | NaN, _ | _, NaN => false
  | Fin a, Fin b => Rleb a b
  | NInf, _ | _, PInf => true
  | _, _ => false
  end.

Definition nlt (x y : num) : bool :=
  match x, y with
  | NaN, _ | _, NaN => false
  | Fin a, Fin b => Rltb a b
  | PInf, _ | _, NInf => false
  | _, _ => true
  end.

Definition nge (x y : num) : bool := nle y x.
Definition ngt (x y : num) : bool := nlt y x.

Infix "<=?" := nle (at level 70) : js_scope.
Infix "<?" := nlt (at level 70) : js_scope.
Infix ">=?" := nge (at level 70) : js_scope.
Infix ">?" := ngt (at level 70) : js_scope.

(** [Math.min] and [Math.max]: NaN if either argument is NaN. *)
Definition Math_min (x y : num) : num :=
  match x, y with
  | NaN, _ | _, NaN => NaN
  | _, _ => if nle x y then x else y
  end.

Definition Math_max (x y : num) : num :=
  match x, y with
  | NaN, _ | _, NaN => NaN
  | _, _ => if nle x y then y else x
  end.

Definition Math_abs (x : num) : num :=
  match x with
  | Fin r => Fin (Rabs r)
  | PInf | NInf => PInf
  | NaN => NaN
  end.

Definition Math_exp (x : num) : num :=
  match x with
  | Fin r => Fin (exp r)
  | PInf => PInf
  | NInf => Fin 0
  | NaN => NaN
  end.

Definition Math_tanh (x : num) : num :=
  match x with
  | Fin r => Fin (tanh r)
  | PInf => Fin 1
  | NInf => Fin (-1)
  | NaN => NaN
  end.

(** [Math.log] at a positive finite argument, and at the other ones. *)
Definition Math_log (x : num) : num :=
  match x with
  | Fin r => if Rltb 0 r then Fin (ln r) else if Reqb r 0 then NInf else NaN
  | PInf => PInf
  | NInf | NaN => NaN
  end.

(** [Math.round]: the nearest integer, halves upwards. *)
Definition Math_round (x : num) : num :=
  match x with
  | Fin r => Fin (IZR (Zfloor (r + 0.5)))
  | _ => x
  end.

(** ** Values *)

#[warnings="-register-all"]
Inductive value : Type :=
| VUndef
| VNull
| VBool (b : bool)
| VNum (x : num)
| VStr (s : string)
| VObj (fields : list (string * value)).

Fixpoint lookup (k : string) (fields : list (string * value)) : value :=
  match fields with
  | [] => VUndef
  | (k', v) :: rest => if String.eqb k k' then v else lookup k rest
  end.

(** [o.k] for an [o] that is neither [undefined] nor [null]: a missing
    field, and any of the fields read here on a primitive, is
    [undefined]. *)
Definition get (o : value) (k : string) : value :=
  match o with
  | VObj fields => lookup k fields
  | _ => VUndef
  end.

(** [o?.k]: as [o.k], and [undefined] for an [o] that is [undefined] or
    [null]. *)
Definition getq (o : value) (k : string) : value :=
  match o with
  | VUndef | VNull => VUndef
  | _ => get o k
  end.

(** [k] is an own field of the object. *)
Definition has_field (k : string) (fields : list (string * value)) : bool :=
  existsb (fun kv => String.eqb k (fst kv)) fields.

(** [Number(v)], [v / 100] and every other conversion of [v] to a number
    throw a TypeError: [v] is an object with an own [toString] field.
    The field holds no function, and the inherited [valueOf] answers the
    object itself, so no primitive is found.  Any other object is
    converted through the inherited [toString] and reads as NaN. *)
Definition conversion_throws (v : value) : bool :=
  match v with
  | VObj fields => has_field "toString" fields
  | _ => false
  end.

(** No object in [v], at any depth, has an own [toString] field: no
    conversion of [v] or of a value read from it throws. *)
Fixpoint no_own_toString (v : value) : bool :=
  match v with
  | VObj fields =>
      negb (has_field "toString" fields)
      && forallb (fun kv => match kv with (_, x) => no_own_toString x end)
           fields
  | _ => true
  end.

Definition nullish (v : value) : bool :=
  match v with VUndef | VNull => true | _ => false end.

(** [a ?? b] *)
Definition coalesce (a b : value) : value := if nullish a then b else a.

Definition truthy (v : value) : bool :=
  match v with
  | VUndef | VNull => false
  | VBool b => b
  | VNum (Fin r) => negb (Reqb r 0)
  | VNum NaN => false
  | VNum _ => true
  | VStr s => negb (String.eqb s "")
  | VObj _ => true
  end.

(** [a || b] *)
Definition or_else (a b : value) : value := if truthy a then a else b.

(** [Number.isFinite(v)]: no conversion, a non-number is not finite. *)
Definition Number_isFinite (v : value) : bool :=
  match v with VNum x => isFinite x | _ => false end.

Infix "??" := coalesce (at level 45, left associativity).

(** ** shared/risk.js *)

Record Breakdown : Type := mkBreakdown {
  bd_doseScore : num;
  bd_decayScore : num;
  bd_weatherScore : num;
  bd_moistureScore : num;
  bd_phScore : num;
  bd_aiContribution : num;
  bd_baseScore : num;
  bd_totalScore : num
}.

Record RiskAssessment : Type := mkRisk {
  riskPercent : num;
  level : string;
  breakdown : Breakdown;
  tips : list string
}.

(** The host: its reading of a string as a number ([Number("12.5")]) and
    [JSON.parse], which answers [None] where it throws. *)
Class Host : Type := {
  StringToNumber : string -> num;
  JSON_parse : string -> option value
}.

(** A host for concrete evaluations: it reads no string as a number and
    parses no text. *)
Definition nan_host : Host :=
  {| StringToNumber := fun _ => NaN; JSON_parse := fun _ => None |}.

Section Risk.

Context {host : Host}.

(** [Number(v)], where it answers: on an object with an own [toString]
    field the code throws instead ([conversion_throws]), and the NaN
    given here is not a result of the code. *)
Definition Number (v : value) : num :=
  match v with
  | VUndef => NaN
  | VNull => Fin 0
  | VBool true => Fin 1
  | VBool false => Fin 0
  | VNum x => x
  | VStr s => StringToNumber s
  | VObj _ => NaN
  end.

(** The conversion with its error: [None] where it throws. *)
Definition ToNumber (v : value) : option num :=
  if conversion_throws v then None else Some (Number v).

(** [v / c] for a value [v] and a numeric literal [c]. *)
Definition vdiv (v : value) (c : num) : num := (Number v / c)%js.

(** Every call passes a number, which [Number(n)] leaves as it is. *)
Definition clamp (n : num) (min max : num) : num :=
  let x := n in
  if negb (isFinite x) then min
  else Math_min (Math_max x min) max.

Definition clampNum (n : value) (fallback : num) : num :=
  let x := Number n in
  if isFinite x then x else fallback.

Definition pct (x01 : num) : num :=
  Math_round (clamp x01 (Fin 0) (Fin 1) * Fin 100)%js.

Definition labelFromPercent (p : num) : string :=
  let x := clampNum (VNum p) (Fin 0) in
  if (x <=? Fin 30)%js then "Low"%string
  else if (x <=? Fin 60)%js then "Medium"%string
  else "High"%string.

Definition decayScore (daysSinceSpray halfLifeDays : value) : num :=
  let d := clampNum daysSinceSpray (Fin 0) in
  let h := clampNum halfLifeDays (Fin 0) in
  if (h <=? Fin 0)%js then clamp (Fin 0.5) (Fin 0) (Fin 1)
  else
    let ln2 := Math_log (Fin 2) in
    let fraction := Math_exp (- (ln2 * d) / h)%js in
    clamp fraction (Fin 0) (Fin 1).

Definition doseScore (appliedDose recommendedDose : value) : num :=
  let applied := clampNum appliedDose (Fin 0) in
  let rec := clampNum recommendedDose (Fin 0) in
  if (rec <=? Fin 0)%js then Fin 0
  else
    let ratio := (applied / rec)%js in
    let s :=
      if (ratio <=? Fin 0)%js then Fin 0
      else if (ratio <=? Fin 1)%js then (Fin 0.15 + Fin 0.55 * ratio)%js
      else (Fin 0.70 + Fin 0.30 * Math_tanh ((ratio - Fin 1) * Fin 1.2))%js in
    clamp s (Fin 0) (Fin 1).

Definition phScore (leafPh soilPh : value) : num :=
  let lp := clampNum leafPh NaN in
  let sp := clampNum soilPh NaN in
  if negb (isFinite lp) && negb (isFinite sp) then Fin 0.25
  else
    let leafDist :=
      if isFinite lp then Math_min (Math_abs (lp - Fin 7) / Fin 3) (Fin 1)
      else Fin 0.25 in
    let soilDist :=
      if isFinite sp then Math_min (Math_abs (sp - Fin 7) / Fin 3) (Fin 1)
      else Fin 0.25 in
    clamp (Fin 0.2 + Fin 0.6 * (Fin 0.5 * leafDist + Fin 0.5 * soilDist))
          (Fin 0) (Fin 1).

Definition moistureScore (moisture : value) : num :=
  let m := clampNum moisture NaN in
  if negb (isFinite m) then Fin 0.35
  else
    let x := clamp (m / Fin 100) (Fin 0) (Fin 1) in
    clamp (Fin 0.25 + Fin 0.55 * x) (Fin 0) (Fin 1).

Definition weatherScore (weather0 : value) : num :=
  let weather := match weather0 with VUndef => VObj [] | w => w end in
  let tempC :=
    clampNum (get weather "tempC" ?? get weather "temperatureC"
                ?? get weather "temperature") NaN in
  let humidity :=
    clampNum (get weather "humidity" ?? get weather "humidityPct") NaN in
  let rainfallMm :=
    clampNum (get weather "rainfallMm" ?? get weather "rainMm"
                ?? get weather "rain") NaN in
  let windKph :=
    clampNum (get weather "windKph" ?? get weather "windSpeedKph"
                ?? get weather "wind") NaN in
  let score := Fin 0.35 in
  let score :=
    if isFinite tempC then
      let score :=
        if (tempC >=? Fin 18)%js && (tempC <=? Fin 35)%js
        then (score + Fin 0.10)%js else score in
      let score :=
        if (tempC >? Fin 35)%js then (score + Fin 0.12)%js else score in
      if (tempC <? Fin 12)%js then (score - Fin 0.06)%js else score
    else score in
  let score :=
    if isFinite humidity then
      let h := clamp (humidity / Fin 100) (Fin 0) (Fin 1) in
      (score + Fin 0.18 * h)%js
    else score in
  let score :=
    if isFinite rainfallMm then
      let wash := Math_min (rainfallMm / Fin 20) (Fin 1) in
      (score - Fin 0.20 * wash)%js
    else score in
  let score :=
    if isFinite windKph then
      let w := clamp (windKph / Fin 35) (Fin 0) (Fin 1) in
      (score + Fin 0.06 * w)%js
    else score in
  clamp score (Fin 0) (Fin 1).

(** [conf] of [computeAiContribution]: the confidence as a factor. *)
Definition confFactor (confidence : value) : num :=
  clamp (vdiv confidence (Fin 100)) (Fin 0.3) (Fin 1).

(** [timeFactor] of [computeAiContribution]. *)
Definition timeFactor (daysSinceSpray : value) : num :=
  let d := clampNum daysSinceSpray (Fin 0) in
  if (d >=? Fin 14)%js then Fin 0.4
  else if (d >=? Fin 7)%js then Fin 0.65
  else Fin 1.

(** [softenedStress] of [computeAiContribution]. *)
Definition softenedStress (stress : num) : num :=
  if (stress <? Fin 0.4)%js then (stress * Fin 0.7)%js
  else if (stress <? Fin 0.7)%js then (stress * Fin 0.85)%js
  else (stress * Fin 1.0)%js.

(** The argument object [{ stressScore, confidence = 50, daysSinceSpray }]
    is passed field by field; the default applies to [undefined] only. *)
Definition computeAiContribution
    (stressScore confidence0 daysSinceSpray : value) : num :=
  let confidence :=
    match confidence0 with VUndef => VNum (Fin 50) | c => c end in
  if nullish stressScore then Fin 0
  else
    let stress := clamp (vdiv stressScore (Fin 100)) (Fin 0) (Fin 1) in
    let conf := confFactor confidence in
    let timeFactor := timeFactor daysSinceSpray in
    let softenedStress := softenedStress stress in
    let aiScore := (softenedStress * conf * timeFactor)%js in
    Math_min (aiScore * Fin 0.25)%js (Fin 0.25).

(** [computeAiContribution] with the TypeErrors of its three conversions,
    in the order of the source: [stressScore / 100], [confidence / 100]
    and [Number(daysSinceSpray)].  [None] is a thrown TypeError. *)
Definition computeAiContribution_checked
    (stressScore confidence0 daysSinceSpray : value) : option num :=
  let confidence :=
    match confidence0 with VUndef => VNum (Fin 50) | c => c end in
  if nullish stressScore then Some (Fin 0)
  else
    match ToNumber stressScore with
    | None => None
    | Some s =>
        let stress := clamp (s / Fin 100)%js (Fin 0) (Fin 1) in
        match ToNumber confidence with
        | None => None
        | Some c =>
            let conf := clamp (c / Fin 100)%js (Fin 0.3) (Fin 1) in
            match ToNumber daysSinceSpray with
            | None => None
            | Some x =>
                let d := if isFinite x then x else Fin 0 in
                let timeFactor :=
                  if (d >=? Fin 14)%js then Fin 0.4
                  else if (d >=? Fin 7)%js then Fin 0.65
                  else Fin 1 in
                let softenedStress := softenedStress stress in
                let aiScore := (softenedStress * conf * timeFactor)%js in
                Some (Math_min (aiScore * Fin 0.25)%js (Fin 0.25))
            end
        end
    end.

Definition tip_high : string :=
  "High risk: follow label intervals and consider waiting before harvest.".
Definition tip_recent : string :=
  "Recent spray: residue is likely higher in the first few days.".
Definition tip_dose : string :=
  "Applied dose looks higher than recommended. Verify dilution and nozzle calibration.".
Definition tip_humidity : string :=
  "High humidity can increase plant stress; confirm with field conditions.".
Definition tip_stress : string :=
  "Leaf stress detected: inspect for pests, disease, or nutrient stress too.".

(** [cond ? [tip] : []], the effect of a guarded [tips.push(tip)]. *)
Definition push_if (cond : bool) (tip : string) : list string :=
  if cond then [tip] else [].

(** Sanity 1: long after the spray the AI alone cannot keep it very high. *)
Definition sanity1 (d aiContribution riskPercent : num) : num :=
  if (d >=? Fin 20)%js && (riskPercent >? Fin 60)%js
     && (aiContribution >? Fin 0.15)%js
  then Math_min riskPercent (Fin 55) else riskPercent.

(** Sanity 2: very low dose and strong decay cannot be High. *)
Definition sanity2 (sDose sDecay riskPercent : num) : num :=
  if (sDose <? Fin 0.2)%js && (sDecay <? Fin 0.2)%js
  then Math_min riskPercent (Fin 45) else riskPercent.

(** Sanity 3: high AI stress with low confidence is downgraded. *)
Definition sanity3 (aiStress aiConfidence : value) (riskPercent : num) : num :=
  if (clampNum aiStress (Fin 0) >? Fin 80)%js
     && (clampNum aiConfidence (Fin 0) <? Fin 40)%js
  then Math_max (riskPercent - Fin 10)%js (Fin 0) else riskPercent.

(** The three optional groups of the payload and the AI fields read
    from them. *)
Definition inputs_of (payload : value) : value :=
  or_else (or_else (get payload "inputs") payload) (VObj []).
Definition weather_of (payload : value) : value :=
  or_else (get payload "weather") (VObj []).
Definition ai_of (payload : value) : value :=
  or_else (get payload "ai") (VObj []).

Definition daysSinceSpray_of (payload : value) : value :=
  get (inputs_of payload) "daysSinceSpray" ?? get (inputs_of payload) "days"
    ?? get (inputs_of payload) "sprayDays".

Definition aiStress_of (payload : value) : value :=
  get (ai_of payload) "stressScore" ?? get (ai_of payload) "imageStress"
    ?? get (inputs_of payload) "imageStress".
Definition aiConfidence_of (payload : value) : value :=
  get (ai_of payload) "confidence" ?? VNum (Fin 50).

(** The body of [calculateRisk] once [payload] is known not to be
    [null] or [undefined]. *)
Definition calculateRisk_body (payload : value) : RiskAssessment :=
  let inputs := inputs_of payload in
  let weather := weather_of payload in

  let appliedDose :=
    get inputs "appliedDose" ?? get inputs "dose" ?? get inputs "userDose" in
  let recommendedDose :=
    get inputs "recommendedDose" ?? get inputs "recDose"
      ?? get inputs "recommended" in
  let daysSinceSpray := daysSinceSpray_of payload in
  let halfLifeDays :=
    get inputs "halfLifeDays" ?? get inputs "halfLife"
      ?? get inputs "halflife" in

  let leafPh := get inputs "leafPh" ?? get inputs "leafPH" in
  let soilPh := get inputs "soilPh" ?? get inputs "soilPH" in
  let moisture := get inputs "moisture" in

  let aiStress := aiStress_of payload in
  let aiConfidence := aiConfidence_of payload in

  let sDose := doseScore appliedDose recommendedDose in
  let sDecay := decayScore daysSinceSpray halfLifeDays in
  let sPh := phScore leafPh soilPh in
  let sMoist := moistureScore moisture in
  let sWeather := weatherScore weather in

  let aiContribution :=
    computeAiContribution aiStress aiConfidence daysSinceSpray in

  let W_DOSE := Fin 0.22 in
  let W_DECAY := Fin 0.28 in
  let W_WEATHER := Fin 0.18 in
  let W_MOIST := Fin 0.14 in
  let W_PH := Fin 0.10 in

  let base :=
    (W_DOSE * sDose + W_DECAY * sDecay + W_WEATHER * sWeather
     + W_MOIST * sMoist + W_PH * sPh)%js in
  let base := clamp base (Fin 0) (Fin 1) in

  let total01 := clamp (base + aiContribution)%js (Fin 0) (Fin 1) in
  let riskPercent := pct total01 in

  let d := clampNum daysSinceSpray (Fin 0) in

  let riskPercent := sanity1 d aiContribution riskPercent in
  let riskPercent := sanity2 sDose sDecay riskPercent in
  let riskPercent := sanity3 aiStress aiConfidence riskPercent in

  let level := labelFromPercent riskPercent in

  let breakdown :=
    {| bd_doseScore := sDose;
       bd_decayScore := sDecay;
       bd_weatherScore := sWeather;
       bd_moistureScore := sMoist;
       bd_phScore := sPh;
       bd_aiContribution := aiContribution;
       bd_baseScore := base;
       bd_totalScore := clamp (riskPercent / Fin 100)%js (Fin 0) (Fin 1) |} in

  let tips :=
    push_if (riskPercent >=? Fin 61)%js tip_high
    ++ push_if (d <? Fin 3)%js tip_recent
    ++ (if Number_isFinite recommendedDose && Number_isFinite appliedDose
           && (Number recommendedDose >? Fin 0)%js
        then
          let ratio := (Number appliedDose / Number recommendedDose)%js in
          push_if (ratio >? Fin 1.05)%js tip_dose
        else [])
    ++ push_if (clampNum (get weather "humidity") (Fin 0) >=? Fin 80)%js
         tip_humidity
    ++ push_if (negb (nullish aiStress)
                && (clampNum aiStress (Fin 0) >=? Fin 75)%js) tip_stress in

  {| riskPercent := riskPercent;
     level := level;
     breakdown := breakdown;
     tips := tips |}.

(** [calculateRisk(payload = {})]: the default applies to [undefined];
    reading [payload.inputs] of [null] throws a TypeError, which is
    [None] here. *)
Definition calculateRisk (payload0 : value) : option RiskAssessment :=
  let payload := match payload0 with VUndef => VObj [] | p => p end in
  match payload with
  | VNull => None
  | _ => Some (calculateRisk_body payload)
  end.

Definition computeAiScoreForDebug
    (stressScore confidence daysSinceSpray : value) : num :=
  computeAiContribution stressScore confidence daysSinceSpray.

End Risk.

(** ** server/index.js *)

Module Server.

Record Breakdown : Type := mkBreakdown {
  doseScore : num;
  residueFactor : num;
  leafPhScore : num;
  soilPhScore : num;
  moistureScore : num;
  weatherScore : num;
  imageStressScore : num
}.

(** The object [computeRisk] returns. *)
Record Result : Type := mkResult {
  riskPercent : num;
  level : string;
  breakdown : Breakdown;
  tips : list string
}.

(** [req.file] as multer leaves it. *)
Record File : Type := mkFile {
  mimetype : string;
  size : num
}.

Record Request : Type := mkRequest {
  file : option File;
  (** [req.body?.inputs] *)
  body_inputs : value
}.

Record Meta : Type := mkMeta {
  received_crop : value;
  received_pesticide : value;
  received_recommendedDose : value;
  file_mimetype : string;
  file_size : num
}.

(** What [res.status(..).json(..)] sends: status 400 with an error, the
    result with status 200, or status 500 with an error. *)
Inductive Response : Type :=
| BadRequest (error : string)
| Scanned (out : Result) (meta : Meta)
| ServerError (error : string).

Section Endpoint.

Context {host : Host}.

Definition toNumber (v : value) : num :=
  let n := Number v in
  if isFinite n then n else NaN.

Definition riskLevelFromPercent (p : num) : string :=
  if negb (isFinite p) then "—"%string
  else if (p >=? Fin 70)%js then "High"%string
  else if (p >=? Fin 35)%js then "Medium"%string
  else "Low"%string.

Definition clamp01 (x : num) : num := Math_min (Fin 1) (Math_max (Fin 0) x).

Definition tip_high : string :=
  "High risk detected: avoid immediate harvest and consider expert guidance.".
Definition tip_moderate : string :=
  "Moderate risk: monitor plant response and avoid over-application.".
Definition tip_low : string :=
  "Low risk: continue monitoring and follow label instructions.".
Definition tip_dose : string :=
  "Dose seems high relative to recommended. Reduce dose next spray if possible.".
Definition tip_recent : string :=
  "Recent spray detected. Risk may drop after a few more days.".
Definition tip_weather : string :=
  "Weather stress is high (heat/humidity/rain). Prefer spraying in cooler, calmer conditions.".
Definition tip_leaf : string :=
  "Leaf appears stressed. Avoid additional stress (over-spraying, midday spraying).".
Definition tip_always : string :=
  "Always follow label safety intervals and wear protection while spraying.".

Definition buildTips
    (riskPercent doseScore residueFactor weatherScore imageStressScore : num)
    : list string :=
  let tips :=
    push_if (riskPercent >=? Fin 70)%js tip_high
    ++ push_if ((riskPercent >=? Fin 35)%js && (riskPercent <? Fin 70)%js)
         tip_moderate
    ++ push_if (riskPercent <? Fin 35)%js tip_low
    ++ push_if (doseScore >? Fin 0.65)%js tip_dose
    ++ push_if (residueFactor >? Fin 0.65)%js tip_recent
    ++ push_if (weatherScore >? Fin 0.6)%js tip_weather
    ++ push_if (imageStressScore >? Fin 0.6)%js tip_leaf
    ++ [tip_always] in
  firstn 8 tips.

(** "Very simple v1 placeholder scoring (so your Scan UI works
    end-to-end).  Replace later with your real formula from
    shared/risk.js."  The handler calls it on inputs whose
    [recommendedDose] is above 0, hence on an object. *)
Definition computeRisk (inputs : value) : Result :=
  let recommendedDose := toNumber (get inputs "recommendedDose") in
  let daysSinceSpray := toNumber (get inputs "daysSinceSpray") in
  let halfLifeDays := toNumber (get inputs "halfLifeDays") in
  let leafPh := toNumber (get inputs "leafPh") in
  let soilPh := toNumber (get inputs "soilPh") in
  let soilMoisture := toNumber (get inputs "soilMoisture") in
  let imageStress := toNumber (get inputs "imageStress") in

  let tempC := toNumber (getq (getq inputs "weather") "tempC") in
  let humidity := toNumber (getq (getq inputs "weather") "humidity") in
  let rainMm24h := toNumber (getq (getq inputs "weather") "rainMm24h") in

  let doseScore := clamp01 ((recommendedDose - Fin 1) / Fin 3 + Fin 0.4)%js in

  let residueFactor := Fin 0.6 in
  let residueFactor :=
    if isFinite daysSinceSpray && isFinite halfLifeDays
       && (halfLifeDays >? Fin 0)%js
    then
      let residueFactor :=
        Math_exp (- Math_log (Fin 2) * (daysSinceSpray / halfLifeDays))%js in
      clamp01 residueFactor
    else residueFactor in

  let leafPhScore :=
    if isFinite leafPh
    then clamp01 (Math_abs (Fin 6.5 - leafPh) / Fin 3)%js else Fin 0.2 in
  let soilPhScore :=
    if isFinite soilPh
    then clamp01 (Math_abs (Fin 6.8 - soilPh) / Fin 3)%js else Fin 0.2 in

  let moistureScore := Fin 0.2 in
  let moistureScore :=
    if isFinite soilMoisture then
      let ideal := Fin 55 in
      clamp01 (Math_abs (ideal - soilMoisture) / Fin 55)%js
    else moistureScore in

  let weatherScore := Fin 0.2 in
  let weatherScore :=
    if isFinite tempC || isFinite humidity || isFinite rainMm24h then
      let t :=
        if isFinite tempC then clamp01 ((tempC - Fin 25) / Fin 15)%js
        else Fin 0.2 in
      let h :=
        if isFinite humidity then clamp01 ((humidity - Fin 55) / Fin 40)%js
        else Fin 0.2 in
      let r :=
        if isFinite rainMm24h then clamp01 (rainMm24h / Fin 80)%js
        else Fin 0.0 in
      clamp01 (Fin 0.55 * t + Fin 0.35 * h + Fin 0.10 * r)%js
    else weatherScore in

  let imageStressScore :=
    if isFinite imageStress then clamp01 (imageStress / Fin 100)%js
    else Fin 0.25 in

  let risk01 :=
    (Fin 0.22 * doseScore + Fin 0.24 * residueFactor
     + Fin 0.14 * leafPhScore + Fin 0.10 * soilPhScore
     + Fin 0.10 * moistureScore + Fin 0.10 * weatherScore
     + Fin 0.10 * imageStressScore)%js in

  let riskPercent := Math_round (clamp01 risk01 * Fin 100)%js in

  {| riskPercent := riskPercent;
     level := riskLevelFromPercent riskPercent;
     breakdown :=
       {| doseScore := doseScore;
          residueFactor := residueFactor;
          leafPhScore := leafPhScore;
          soilPhScore := soilPhScore;
          moistureScore := moistureScore;
          weatherScore := weatherScore;
          imageStressScore := imageStressScore |};
     tips := buildTips riskPercent doseScore residueFactor weatherScore
               imageStressScore |}.

Definition err_image_required : string := "Leaf image is required.".
Definition err_file_type : string :=
  "Invalid file type. Please upload an image.".
Definition err_inputs_required : string := "inputs is required.".
Definition err_inputs_json : string := "Invalid inputs JSON.".
Definition err_recommendedDose : string :=
  "recommendedDose is required and must be > 0".

Definition err_server : string := "Server error while scanning.".

(** One of the ten conversions of [computeRisk] throws. *)
Definition computeRisk_throws (inputs : value) : bool :=
  existsb conversion_throws
    [get inputs "recommendedDose"; get inputs "daysSinceSpray";
     get inputs "halfLifeDays"; get inputs "leafPh"; get inputs "soilPh";
     get inputs "soilMoisture"; get inputs "imageStress";
     getq (getq inputs "weather") "tempC";
     getq (getq inputs "weather") "humidity";
     getq (getq inputs "weather") "rainMm24h"].

(** Steps 3 and 4 of the handler, on the parsed [inputs].  A TypeError
    of a conversion, in the guard or in [computeRisk], is caught by the
    handler, which answers 500. *)
Definition scan_inputs (f : File) (inputs : value) : Response :=
  if conversion_throws (getq inputs "recommendedDose")
  then ServerError err_server
  else
    let recommendedDose := toNumber (getq inputs "recommendedDose") in
    if negb (recommendedDose >? Fin 0)%js then BadRequest err_recommendedDose
    else if computeRisk_throws inputs then ServerError err_server
    else
      let out := computeRisk inputs in
      Scanned out
        {| received_crop := get inputs "crop";
           received_pesticide := get inputs "pesticide";
           received_recommendedDose := get inputs "recommendedDose";
           file_mimetype := mimetype f;
           file_size := size f |}.

(** The handler of [app.post("/api/scan")]: the [try] block, with the
    [catch] branch reached from [scan_inputs]. *)
Definition scan (req : Request) : Response :=
  match file req with
  | None => BadRequest err_image_required
  | Some f =>
      if negb (String.prefix "image/" (mimetype f))
      then BadRequest err_file_type
      else
        let inputs := body_inputs req in
        if negb (truthy inputs) then BadRequest err_inputs_required
        else
          match inputs with
          | VStr text =>
              match JSON_parse text with
              | None => BadRequest err_inputs_json
              | Some parsed => scan_inputs f parsed
              end
          | _ => scan_inputs f inputs
          end
  end.

End Endpoint.

End Server.

(** ** client/src/utils/leafVision.js *)

Module LeafVision.

Definition of_nat (n : nat) : num := Fin (INR n).
Definition of_Z (z : Z) : num := Fin (IZR z).

(** [x === y] on numbers. *)
Definition neqb (x y : num) : bool :=
  match x, y with
  | Fin a, Fin b => Reqb a b
  | PInf, PInf | NInf, NInf => true
  | _, _ => false
  end.

(** The integer part of a real, towards zero. *)
Definition Ztrunc (r : R) : Z := if Rleb 0 r then Zfloor r else Zceil r.

(** [x % y]: the remainder has the sign of the dividend. *)
Definition nrem (x y : num) : num :=
  match x, y with
  | Fin a, Fin b => if Reqb b 0 then NaN else Fin (a - b * IZR (Ztrunc (a / b)))
  | Fin a, (PInf | NInf) => Fin a
  | _, _ => NaN
  end.

(** [Math.round] of a finite number that is not negative, as a natural
    number. *)
Definition round_nat (x : num) : nat :=
  match x with
  | Fin r => Z.to_nat (Zfloor (r + 0.5))
  | _ => 0%nat
  end.

(** [Number(x.toFixed(digits))]: [x] rounded to that many decimals,
    halves away from zero.  The half is read on the real number; the
    code reads it on the binary64 value, so the two can differ by one
    unit of the last decimal at a decimal tie that binary64 does not
    hold exactly. *)
Definition toFixed (digits : nat) (x : num) : num :=
  match x with
  | Fin r =>
      let scaled := r * 10 ^ digits in
      let n := if Rleb 0 scaled then Zfloor (scaled + 0.5)
               else (- Zfloor (- scaled + 0.5))%Z in
      Fin (IZR n / 10 ^ digits)
  | _ => x
  end.

Definition clamp (n a b : num) : num := Math_min b (Math_max a n).

(** The two properties of a browser [File] the analyzer reads. *)
Record File : Type := mkFile {
  type : string;
  size : num
}.

(** A decoded image: its size, and the RGBA bytes
    [ctx.getImageData(0, 0, w, h).data] of a [w] by [h] canvas on which it
    has been drawn ([ctx.drawImage(img, 0, 0, w, h)]), by index.  The
    canvas holds [4 * w * h] bytes and no index beyond them is read. *)
Record Image : Type := mkImage {
  width : nat;
  height : nat;
  drawn : nat -> nat -> nat -> Z
}.

Record Opts : Type := mkOpts {
  minWidth : num;
  minHeight : num;
  maxFileMB : num;
  minLeafCoverage : num;
  minDetail : num;
  maxAspect : num
}.

(** [opts = {}] *)
Definition default_opts : Opts :=
  {| minWidth := Fin 480;
     minHeight := Fin 480;
     maxFileMB := Fin 8;
     minLeafCoverage := Fin 0.18;
     minDetail := Fin 35;
     maxAspect := Fin 2.3 |}.

(** The reasons pushed, by the message each stands for. *)
Inductive Reason : Type :=
| NotAPhoto       (* "Please upload a real photo (JPG/PNG/WebP)." *)
| TooLarge (maxFileMB : num)
                  (* "Image too large (max ${maxFileMB}MB)." *)
| Unreadable      (* "Could not read image. Try another photo." *)
| TooSmall (minWidth minHeight : num)
                  (* "Image too small. Use at least ${minWidth}x${minHeight}." *)
| WeirdAspect     (* "Weird aspect ratio. Avoid screenshots/collages." *)
| LeafNotVisible  (* "Leaf not clearly visible. Move closer and fill the
                     frame with the leaf." *)
| TooBlurry       (* "Photo looks too blurry. Hold steady and use better
                     lighting." *)
| LooksSynthetic. (* "Photo looks like a screenshot/graphic. Upload a real
                     leaf photo." *)

Record Metrics : Type := mkMetrics {
  m_w : nat;
  m_h : nat;
  m_aspect : num;
  (** the number the string [fileMB] reads as *)
  m_fileMB : num;
  m_leafCoverage : num;
  m_greenRatio : num;
  m_yellowRatio : num;
  m_brownRatio : num;
  m_darkSpotRatio : num;
  m_edgeBurnRatio : num;
  m_satLowRatio : num;
  m_detail : num
}.

Record Result : Type := mkResult {
  ok : bool;
  reasons : list Reason;
  (** [None] is the empty object [{}] *)
  metrics : option Metrics;
  imageStress : num;
  symptoms : list string
}.

Record ImageData : Type := mkImageData {
  data : nat -> Z;
  id_w : nat;
  id_h : nat
}.

Definition getImageData (img : Image) (maxSide : num) : ImageData :=
  let scale :=
    Math_min (Fin 1)
      (maxSide / Math_max (of_nat (width img)) (of_nat (height img)))%js in
  let w := Nat.max 1 (round_nat (of_nat (width img) * scale)%js) in
  let h := Nat.max 1 (round_nat (of_nat (height img) * scale)%js) in
  {| data := drawn img w h; id_w := w; id_h := h |}.

Record HSV : Type := mkHSV { hsv_h : num; hsv_s : num; hsv_v : num }.

Definition rgbToHsv (r g b : num) : HSV :=
  let r := (r / Fin 255)%js in
  let g := (g / Fin 255)%js in
  let b := (b / Fin 255)%js in
  let max := Math_max (Math_max r g) b in
  let min := Math_min (Math_min r g) b in
  let d := (max - min)%js in
  let h := Fin 0 in
  let h :=
    if negb (neqb d (Fin 0)) then
      let h :=
        if neqb max r then nrem ((g - b) / d)%js (Fin 6)
        else if neqb max g then ((b - r) / d + Fin 2)%js
        else ((r - g) / d + Fin 4)%js in
      let h := (h * Fin 60)%js in
      if (h <? Fin 0)%js then (h + Fin 360)%js else h
    else h in
  let s := if neqb max (Fin 0) then Fin 0 else (d / max)%js in
  let v := max in
  {| hsv_h := h; hsv_s := s; hsv_v := v |}.

(** A [Float32Array]: zero until written; only written cells are read. *)
Definition Float32Array : Type := nat -> num.

Definition new_Float32Array : Float32Array := fun _ => Fin 0.

Definition store (a : Float32Array) (k : nat) (v : num) : Float32Array :=
  fun k' => if Nat.eqb k' k then v else a k'.

Record LapAcc : Type := mkLapAcc { sum : num; sumSq : num; count : nat }.

Definition laplacian_step (gray : Float32Array) (w : nat) (y x : nat)
    (acc : LapAcc) : LapAcc :=
  let idx (x y : nat) : nat := (y * w + x)%nat in
  let c := gray (idx x y) in
  let n := gray (idx x (y - 1)%nat) in
  let s := gray (idx x (y + 1)%nat) in
  let e := gray (idx (x + 1)%nat y) in
  let wv := gray (idx (x - 1)%nat y) in
  let lap := (Fin 4 * c - (n + s + e + wv))%js in
  {| sum := (sum acc + lap)%js;
     sumSq := (sumSq acc + lap * lap)%js;
     count := S (count acc) |}.

(** [for (let y = 1; y < h - 1; y++) for (let x = 1; x < w - 1; x++)] *)
Definition laplacianVariance (gray : Float32Array) (w h : nat) : num :=
  let acc :=
    fold_left
      (fun acc y =>
         fold_left (fun acc x => laplacian_step gray w y x acc)
           (seq 1 (w - 2)) acc)
      (seq 1 (h - 2))
      {| sum := Fin 0; sumSq := Fin 0; count := 0 |} in
  let mean := (sum acc / Math_max (Fin 1) (of_nat (count acc)))%js in
  let varr :=
    (sumSq acc / Math_max (Fin 1) (of_nat (count acc)) - mean * mean)%js in
  varr.

(** The counters of the pixel scan, and the grayscale buffer it fills. *)
Record Scan : Type := mkScan {
  gray : Float32Array;
  leafLike : nat;
  green : nat;
  yellow : nat;
  brown : nat;
  darkSpot : nat;
  satLowCount : nat;
  edgeBrown : nat;
  edgeTotal : nat
}.

Definition incr_if (cond : bool) (n : nat) : nat := if cond then S n else n.

(** The body of the scan at the pixel [(x, y)]. *)
Definition scan_pixel (data : nat -> Z) (w h : nat) (edgeBand : num)
    (y x : nat) (st : Scan) : Scan :=
  let i := ((y * w + x) * 4)%nat in
  let r := of_Z (data i) in
  let g := of_Z (data (i + 1)%nat) in
  let b := of_Z (data (i + 2)%nat) in

  let gr := (Fin 0.2126 * r + Fin 0.7152 * g + Fin 0.0722 * b)%js in

  let hsv := rgbToHsv r g b in
  let hh := hsv_h hsv in
  let s := hsv_s hsv in
  let v := hsv_v hsv in

  let isLeafLike :=
    ((hh >=? Fin 55)%js && (hh <=? Fin 170)%js)
    && (s >? Fin 0.18)%js && (v >? Fin 0.12)%js in
  let isGreen :=
    ((hh >=? Fin 70)%js && (hh <=? Fin 160)%js)
    && (s >? Fin 0.22)%js && (v >? Fin 0.14)%js in
  let isYellow :=
    ((hh >=? Fin 35)%js && (hh <? Fin 70)%js)
    && (s >? Fin 0.18)%js && (v >? Fin 0.18)%js in
  let isBrown :=
    (((hh >=? Fin 10)%js && (hh <? Fin 35)%js)
     || ((hh >=? Fin 0)%js && (hh <? Fin 10)%js))
    && (s >? Fin 0.16)%js && (v >? Fin 0.10)%js in
  let isDark := (v <? Fin 0.22)%js && (s >? Fin 0.12)%js in
  let isEdge :=
    (of_nat x <? edgeBand)%js || (of_nat y <? edgeBand)%js
    || (of_nat x >=? of_nat w - edgeBand)%js
    || (of_nat y >=? of_nat h - edgeBand)%js in

  {| gray := store (gray st) (y * w + x)%nat gr;
     satLowCount := incr_if (s <? Fin 0.08)%js (satLowCount st);
     leafLike := incr_if isLeafLike (leafLike st);
     green := incr_if isGreen (green st);
     yellow := incr_if isYellow (yellow st);
     brown := incr_if isBrown (brown st);
     darkSpot := incr_if (isLeafLike && isDark) (darkSpot st);
     edgeTotal := incr_if isEdge (edgeTotal st);
     edgeBrown := incr_if (isEdge && isBrown) (edgeBrown st) |}.

(** [for (let y = 0; y < h; y++) for (let x = 0; x < w; x++)] *)
Definition scan_pixels (data : nat -> Z) (w h : nat) (edgeBand : num) : Scan :=
  fold_left
    (fun st y =>
       fold_left (fun st x => scan_pixel data w h edgeBand y x st)
         (seq 0 w) st)
    (seq 0 h)
    {| gray := new_Float32Array;
       leafLike := 0; green := 0; yellow := 0; brown := 0; darkSpot := 0;
       satLowCount := 0; edgeBrown := 0; edgeTotal := 0 |}.

Definition symptom_yellowing : string := "Yellowing (chlorosis)".
Definition symptom_browning : string := "Browning / necrosis".
Definition symptom_edge_burn : string := "Edge burn".
Definition symptom_spots : string := "Spots / lesions".
Definition symptom_healthy : string := "Mostly healthy green".

Definition is_empty {A : Type} (l : list A) : bool :=
  match l with [] => true | _ => false end.

(** What the analyzer answers when the image cannot be read. *)
Definition unreadable : Result :=
  {| ok := false;
     reasons := [Unreadable];
     metrics := None;
     imageStress := Fin 50;
     symptoms := [] |}.

Section Analyzer.

(** The browser's decoding of a file into an image; [None] when the
    image element reports an error. *)
Variable decode : File -> option Image.

(** Without a file, [URL.createObjectURL] throws inside the promise,
    which is then rejected. *)
Definition loadImageFromFile (file : option File) : option Image :=
  match file with
  | None => None
  | Some f => decode f
  end.

(** The analysis of a file that has been read as [img]. *)
Definition analyze_image (f : File) (opts : Opts) (reasons : list Reason)
    (img : Image) : Result :=
  let reasons :=
    reasons
    ++ (if (of_nat (width img) <? minWidth opts)%js
           || (of_nat (height img) <? minHeight opts)%js
        then [TooSmall (minWidth opts) (minHeight opts)] else []) in
  let aspect := (of_nat (width img) / of_nat (height img))%js in
  let reasons :=
    reasons
    ++ (if (aspect >? maxAspect opts)%js
           || (aspect <? Fin 1 / maxAspect opts)%js
        then [WeirdAspect] else []) in

  let idata := getImageData img (Fin 360) in
  let w := id_w idata in
  let h := id_h idata in

  let edgeBand :=
    Math_max (Fin 2)
      (Math_round (Math_min (of_nat w) (of_nat h) * Fin 0.10)%js) in
  let total := (of_nat w * of_nat h)%js in

  let st := scan_pixels (data idata) w h edgeBand in

  let leafCoverage := (of_nat (leafLike st) / Math_max (Fin 1) total)%js in
  let greenRatio := (of_nat (green st) / Math_max (Fin 1) total)%js in
  let yellowRatio := (of_nat (yellow st) / Math_max (Fin 1) total)%js in
  let brownRatio := (of_nat (brown st) / Math_max (Fin 1) total)%js in
  let darkSpotRatio := (of_nat (darkSpot st) / Math_max (Fin 1) total)%js in
  let edgeBurnRatio :=
    (of_nat (edgeBrown st) / Math_max (Fin 1) (of_nat (edgeTotal st)))%js in
  let satLowRatio :=
    (of_nat (satLowCount st) / Math_max (Fin 1) total)%js in

  let detail := laplacianVariance (gray st) w h in

  let reasons :=
    reasons
    ++ (if (leafCoverage <? minLeafCoverage opts)%js
        then [LeafNotVisible] else []) in
  let reasons :=
    reasons ++ (if (detail <? minDetail opts)%js then [TooBlurry] else []) in
  let reasons :=
    reasons
    ++ (if (satLowRatio >? Fin 0.65)%js then [LooksSynthetic] else []) in

  let ok := is_empty reasons in

  let stress01 :=
    (Fin 1.8 * yellowRatio + Fin 2.2 * brownRatio + Fin 1.6 * darkSpotRatio
     + Fin 1.8 * edgeBurnRatio - Fin 0.8 * greenRatio)%js in
  let stress01 := clamp stress01 (Fin 0) (Fin 1) in
  let stress01 :=
    if (detail <? minDetail opts * Fin 1.6)%js
    then clamp (stress01 + Fin 0.08)%js (Fin 0) (Fin 1) else stress01 in

  let imageStress := Math_round (stress01 * Fin 100)%js in

  let symptoms :=
    push_if (yellowRatio >? Fin 0.08)%js symptom_yellowing
    ++ push_if (brownRatio >? Fin 0.05)%js symptom_browning
    ++ push_if (edgeBurnRatio >? Fin 0.08)%js symptom_edge_burn
    ++ push_if (darkSpotRatio >? Fin 0.03)%js symptom_spots in
  let symptoms :=
    symptoms
    ++ push_if ((greenRatio >? Fin 0.20)%js && is_empty symptoms)
         symptom_healthy in

  {| ok := ok;
     reasons := reasons;
     metrics :=
       Some {| m_w := w;
               m_h := h;
               m_aspect := aspect;
               m_fileMB := toFixed 2 (size f / (Fin 1024 * Fin 1024))%js;
               m_leafCoverage := toFixed 3 leafCoverage;
               m_greenRatio := toFixed 3 greenRatio;
               m_yellowRatio := toFixed 3 yellowRatio;
               m_brownRatio := toFixed 3 brownRatio;
               m_darkSpotRatio := toFixed 3 darkSpotRatio;
               m_edgeBurnRatio := toFixed 3 edgeBurnRatio;
               m_satLowRatio := toFixed 3 satLowRatio;
               m_detail := toFixed 1 detail |};
     imageStress := imageStress;
     symptoms := symptoms |}.

(** [analyzeLeafPhoto(file, opts)], with the value its promise resolves
    to. *)
Definition analyzeLeafPhoto (file : option File) (opts : Opts) : Result :=
  let reasons :=
    if negb (match file with
             | Some f => String.prefix "image/" (type f)
             | None => false
             end)
    then [NotAPhoto] else [] in
  let reasons :=
    reasons
    ++ (if (match file with Some f => size f | None => NaN end
            >? maxFileMB opts * Fin 1024 * Fin 1024)%js
        then [TooLarge (maxFileMB opts)] else []) in
  match file, loadImageFromFile file with
  | Some f, Some img => analyze_image f opts reasons img
  | _, _ => unreadable
  end.

End Analyzer.

End LeafVision.

(** ** The formulas of the specification, over the reals *)

(** [clamp(x, [lo, hi])] *)
Definition clampR (lo hi x : R) : R := Rmin hi (Rmax lo x).

(** "exp(-ln2 * days / halfLife), clamped [0,1]" *)
Definition decay_spec (days halfLife : R) : R :=
  clampR 0 1 (exp (- ln 2 * days / halfLife)).

(** "for ratio in [0,1]: 0.15 + 0.55 * ratio" *)
Definition dose_low_spec (ratio : R) : R := 0.15 + 0.55 * ratio.

(** "for ratio > 1: 0.70 + 0.30 * tanh(1.2 * (ratio - 1))" *)
Definition dose_high_spec (ratio : R) : R :=
  0.70 + 0.30 * tanh (1.2 * (ratio - 1)).

(** "timeFactor: 1.0 if days < 7; 0.65 if 7 <= days < 14; 0.4 if days >= 14" *)
Definition timeFactor_spec (days : R) : R :=
  if Rlt_dec days 7 then 1.0
  else if Rlt_dec days 14 then 0.65
  else 0.4.

(** "stress < 0.4 => x 0.7; 0.4 <= stress < 0.7 => x 0.85; else x 1.0" *)
Definition soften_spec (stress : R) : R :=
  if Rlt_dec stress 0.4 then stress * 0.7
  else if Rlt_dec stress 0.7 then stress * 0.85
  else stress * 1.0.

(** "contribution = min(stress_softened * conf * timeFactor * 0.25, 0.25)"
    with "stress = clamp(stressScore/100)" and
    "conf = clamp(confidence/100, [0.3, 1])" *)
Definition aiContribution_spec (stressScore confidence days : R) : R :=
  let stress := clampR 0 1 (stressScore / 100) in
  let conf := clampR 0.3 1 (confidence / 100) in
  Rmin (soften_spec stress * conf * timeFactor_spec days * 0.25) 0.25.

(** "min(stress_softened * conf * timeFactor * 0.25, 0.25)" for a given
    confidence factor [conf]. *)
Definition aiContribution_with (conf stressScore days : R) : R :=
  Rmin (soften_spec (clampR 0 1 (stressScore / 100)) * conf
        * timeFactor_spec days * 0.25) 0.25.

(** The integer [pct] answers with at a finite argument:
    round(clamp(t, [0,1]) * 100). *)
Definition percentZ (t : R) : Z := Zfloor (clampR 0 1 t * 100 + 0.5).

(** ** Payloads of the specification's scenarios *)

(** "appliedDose=0, recommendedDose=10, daysSinceSpray=60, halfLifeDays=3",
    with an [ai] group holding the two given values. *)
Definition decayed_payload (stressScore confidence : value) : value :=
  VObj [("inputs"%string,
         VObj [("appliedDose"%string, VNum (Fin 0));
               ("recommendedDose"%string, VNum (Fin 10));
               ("daysSinceSpray"%string, VNum (Fin 60));
               ("halfLifeDays"%string, VNum (Fin 3))]);
        ("ai"%string,
         VObj [("stressScore"%string, stressScore);
               ("confidence"%string, confidence)])].

(** "inputs={appliedDose:1, recommendedDose:1, daysSinceSpray:0,
    halfLifeDays:5}, no weather/ai" *)
Definition fresh_inputs : value :=
  VObj [("appliedDose"%string, VNum (Fin 1));
        ("recommendedDose"%string, VNum (Fin 1));
        ("daysSinceSpray"%string, VNum (Fin 0));
        ("halfLifeDays"%string, VNum (Fin 5))].

Definition fresh_payload : value := VObj [("inputs"%string, fresh_inputs)].

(** A scan request: a PNG upload with the flat inputs of the end-to-end
    scenario, as the scan form posts them. *)
Definition fresh_request : Server.Request :=
  {| Server.file :=
       Some {| Server.mimetype := "image/png"; Server.size := Fin 204800 |};
     Server.body_inputs := fresh_inputs |}.

(** ** Uniform gray images *)

(** Every colour byte the canvas holds for the image is [c]: index
    [4k + 3] is the alpha channel, the other three are red, green and
    blue. *)
Definition uniform_gray (img : LeafVision.Image) (c : Z) : Prop :=
  forall w h i : nat,
    (i mod 4 <> 3)%nat -> LeafVision.drawn img w h i = c.

(** A synthetic mid-gray image, 640 by 480. *)
Definition gray_image : LeafVision.Image :=
  {| LeafVision.width := 640;
     LeafVision.height := 480;
     LeafVision.drawn := fun _ _ _ => 128%Z |}.

Definition gray_file : LeafVision.File :=
  {| LeafVision.type := "image/png"; LeafVision.size := Fin 204800 |}.

(** The counters of a scan in which no pixel has been classified, after
    [n] pixels all of luminance [lum]. *)
Definition blank_scan (lum : R) (n : nat) (st : LeafVision.Scan) : Prop :=
  LeafVision.leafLike st = 0%nat
  /\ LeafVision.green st = 0%nat
  /\ LeafVision.yellow st = 0%nat
  /\ LeafVision.brown st = 0%nat
  /\ LeafVision.darkSpot st = 0%nat
  /\ LeafVision.edgeBrown st = 0%nat
  /\ LeafVision.satLowCount st = n
  /\ (forall k : nat, (k < n)%nat -> LeafVision.gray st k = Fin lum).

(** The luminance of a gray pixel of level [c]. *)
Definition gray_lum (c : Z) : R :=
  0.2126 * IZR c + 0.7152 * IZR c + 0.0722 * IZR c.

(** The sums of a Laplacian pass over a buffer without detail. *)
Definition flat_acc (acc : LeafVision.LapAcc) : Prop :=
  LeafVision.sum acc = Fin 0 /\ LeafVision.sumSq acc = Fin 0.

(** A fresh full-dose spray with no half-life given, and a photo read as
    fully stressed with confidence 0: the third sanity rule applies. *)
Definition doubtful_payload : value :=
  VObj [("inputs"%string,
         VObj [("appliedDose"%string, VNum (Fin 1));
               ("recommendedDose"%string, VNum (Fin 1));
               ("daysSinceSpray"%string, VNum (Fin 0))]);
        ("ai"%string,
         VObj [("stressScore"%string, VNum (Fin 100));
               ("confidence"%string, VNum (Fin 0))])].

(** The fresh spray with a photo read as stressed at 80 and no
    confidence given. *)
Definition unsure_payload : value :=
  VObj [("inputs"%string, fresh_inputs);
        ("ai"%string, VObj [("stressScore"%string, VNum (Fin 80))])].

(** ** Ranges and orderings of numbers *)

(** [x] is a finite number between [lo] and [hi]. *)
Definition in_range (x : num) (lo hi : R) : Prop :=
  exists r : R, x = Fin r /\ lo <= r <= hi.

(** [x] and [y] are finite numbers and [x] is at most [y]. *)
Definition num_le (x y : num) : Prop :=
  exists a b : R, x = Fin a /\ y = Fin b /\ a <= b.

(** "Low iff <= 30, Medium iff 31-60, High iff > 60", on an integer. *)
Definition level_of_percent (q : Z) : string :=
  if (q <=? 30)%Z then "Low"%string
  else if (q <=? 60)%Z then "Medium"%string
  else "High"%string.

Section WeatherFields.

Context {host : Host}.

(** The rainfall [weatherScore] reads from its argument: the first of
    [rainfallMm], [rainMm], [rain] that is present, as a number, NaN
    when it is not a finite number. *)
Definition rainfall_of (weather : value) : num :=
  clampNum (get weather "rainfallMm" ?? get weather "rainMm"
              ?? get weather "rain") NaN.

End WeatherFields.

Section ScanInputs.

Context {host : Host}.

(** The inputs the scan handler works on: a string body is parsed as
    JSON ([None] when that throws), any other body is taken as it is. *)
Definition parsed_inputs (body : value) : option value :=
  match body with
  | VStr text => JSON_parse text
  | _ => Some body
  end.

End ScanInputs.

(** The level [riskLevelFromPercent] gives to an integer percentage. *)
Definition server_level_of_percent (q : Z) : string :=
  if (70 <=? q)%Z then "High"%string
  else if (35 <=? q)%Z then "Medium"%string
  else "Low"%string.

(** The first tip [buildTips] gives for an integer percentage. *)
Definition server_risk_tip (q : Z) : string :=
  if (70 <=? q)%Z then Server.tip_high
  else if (35 <=? q)%Z then Server.tip_moderate
  else Server.tip_low.

(** What the counters of a scan satisfy after [n] pixels. *)
Definition scan_counts (n : nat) (st : LeafVision.Scan) : Prop :=
  (LeafVision.green st <= LeafVision.leafLike st)%nat
  /\ (LeafVision.darkSpot st <= LeafVision.leafLike st)%nat
  /\ (LeafVision.satLowCount st + LeafVision.leafLike st <= n)%nat
  /\ (LeafVision.satLowCount st + LeafVision.green st
      + LeafVision.yellow st + LeafVision.brown st <= n)%nat
  /\ (LeafVision.edgeBrown st <= LeafVision.brown st)%nat
  /\ (LeafVision.edgeBrown st <= LeafVision.edgeTotal st)%nat
  /\ (LeafVision.edgeTotal st <= n)%nat.

(** ** Inputs of the concrete instances *)

(** A small gray image, 200 by 100: it is scanned at its own size. *)
Definition small_image : LeafVision.Image :=
  {| LeafVision.width := 200;
     LeafVision.height := 100;
     LeafVision.drawn := fun _ _ _ => 128%Z |}.

(** A file that is not an image. *)
Definition text_file : LeafVision.File :=
  {| LeafVision.type := "text/plain"; LeafVision.size := Fin 1024 |}.

(** A weather group with 5 mm of rain. *)
Definition rainy_weather : value :=
  VObj [("rainfallMm"%string, VNum (Fin 5))].

(** The fields of the end-to-end scenario, as a flat payload. *)
Definition fresh_fields : list (string * value) :=
  [("appliedDose"%string, VNum (Fin 1));
   ("recommendedDose"%string, VNum (Fin 1));
   ("daysSinceSpray"%string, VNum (Fin 0));
   ("halfLifeDays"%string, VNum (Fin 5))].

(** A buffer without two equal cells. *)
Definition ramp_buffer : LeafVision.Float32Array := fun k => Fin (INR k).

(** A scan request whose inputs hold a leaf pH that cannot be converted
    to a number: [{recommendedDose: 1, leafPh: {toString: 1}}]. *)
Definition throwing_inputs : value :=
  VObj [("recommendedDose"%string, VNum (Fin 1));
        ("leafPh"%string, VObj [("toString"%string, VNum (Fin 1))])].

Definition throwing_request : Server.Request :=
  {| Server.file :=
       Some {| Server.mimetype := "image/png"; Server.size := Fin 204800 |};
     Server.body_inputs := throwing_inputs |}.

(** * Proofs *)

(** ** Numbers and clamping *)

Lemma Rleb_true (x y : R) : x <= y -> Rleb x y = true.
Proof. intros H; unfold Rleb; destruct (Rle_dec x y); [reflexivity | contradiction]. Qed.

Lemma Rleb_false (x y : R) : y < x -> Rleb x y = false.
Proof. intros H; unfold Rleb; destruct (Rle_dec x y); [lra | reflexivity]. Qed.

Lemma Rltb_true (x y : R) : x < y -> Rltb x y = true.
Proof. intros H; unfold Rltb; destruct (Rlt_dec x y); [reflexivity | contradiction]. Qed.

Lemma Rltb_false (x y : R) : y <= x -> Rltb x y = false.
Proof. intros H; unfold Rltb; destruct (Rlt_dec x y); [lra | reflexivity]. Qed.

Lemma Reqb_true (x y : R) : x = y -> Reqb x y = true.
Proof. intros H; unfold Reqb; destruct (Req_dec_T x y); [reflexivity | contradiction]. Qed.

Lemma Reqb_false (x y : R) : x <> y -> Reqb x y = false.
Proof. intros H; unfold Reqb; destruct (Req_dec_T x y); [contradiction | reflexivity]. Qed.

(** Decide one comparison of reals in the goal, both ways, and keep the
    fact learnt. *)
Ltac cmp_step :=
  match goal with
  | |- context [Rleb ?x ?y] =>
      let H := fresh "Hc" in
      destruct (Rle_lt_dec x y) as [H | H];
      [rewrite (Rleb_true x y H) | rewrite (Rleb_false x y H)]
  | |- context [Rltb ?x ?y] =>
      let H := fresh "Hc" in
      destruct (Rlt_le_dec x y) as [H | H];
      [rewrite (Rltb_true x y H) | rewrite (Rltb_false x y H)]
  | |- context [Reqb ?x ?y] =>
      let H := fresh "Hc" in
      destruct (Req_dec_T x y) as [H | H];
      [rewrite (Reqb_true x y H) | rewrite (Reqb_false x y H)]
  end.

Ltac cmp := repeat (cmp_step; try lra; cbn [negb andb orb]).

Lemma clamp_Fin (x lo hi : R) :
  lo <= hi -> clamp (Fin x) (Fin lo) (Fin hi) = Fin (clampR lo hi x).
Proof.
  intros Hlh. unfold clamp, clampR, Math_min, Math_max, Rmin, Rmax; cbn.
  destruct (Rle_dec lo x), (Rle_dec x lo); cmp;
    repeat match goal with
    | |- context [Rle_dec ?a ?b] => destruct (Rle_dec a b)
    end; cbn; cmp; try (f_equal; lra); try lra.
Qed.

Lemma clampR_range (lo hi x : R) : lo <= hi -> lo <= clampR lo hi x <= hi.
Proof.
  intros H. unfold clampR, Rmin, Rmax.
  destruct (Rle_dec lo x); destruct (Rle_dec _ _); lra.
Qed.

Lemma clampR_id (lo hi x : R) : lo <= x <= hi -> clampR lo hi x = x.
Proof.
  intros H. unfold clampR, Rmin, Rmax.
  destruct (Rle_dec lo x); destruct (Rle_dec _ _); lra.
Qed.

(** [clamp] always answers with a finite number between its bounds. *)
Lemma clamp_range (n : num) (lo hi : R) :
  lo <= hi -> exists r, clamp n (Fin lo) (Fin hi) = Fin r /\ lo <= r <= hi.
Proof.
  intros H. destruct n as [x | | |].
  - exists (clampR lo hi x). split; [now apply clamp_Fin | now apply clampR_range].
  - exists lo. split; [reflexivity | lra].
  - exists lo. split; [reflexivity | lra].
  - exists lo. split; [reflexivity | lra].
Qed.

Section RiskProofs.

Context {host : Host}.

Lemma clampNum_Fin (v : value) (f : R) : exists r, clampNum v (Fin f) = Fin r.
Proof.
  unfold clampNum. destruct (Number v) as [x | | |]; cbn; eauto.
Qed.

Lemma clampNum_num (x f : R) : clampNum (VNum (Fin x)) (Fin f) = Fin x.
Proof. reflexivity. Qed.

(** ** decayScore *)

Lemma Math_log_2 : Math_log (Fin 2) = Fin (ln 2).
Proof. unfold Math_log. cmp. reflexivity. Qed.

Lemma decayScore_pos (d : value) (h : R) :
  0 < h ->
  decayScore d (VNum (Fin h)) =
  clamp (Math_exp (- (Fin (ln 2) * clampNum d (Fin 0)) / Fin h)%js) (Fin 0) (Fin 1).
Proof.
  intros Hh. unfold decayScore. rewrite clampNum_num, Math_log_2.
  cbn [nle]. now rewrite Rleb_false.
Qed.

Lemma decayScore_formula (days halfLife : R) :
  0 < halfLife ->
  decayScore (VNum (Fin days)) (VNum (Fin halfLife))
  = Fin (decay_spec days halfLife).
Proof.
  intros Hh. rewrite decayScore_pos by assumption. rewrite clampNum_num.
  cbn [nmul nneg ndiv]. rewrite Reqb_false by lra. cbn [Math_exp].
  rewrite clamp_Fin by lra. unfold decay_spec.
  do 3 f_equal. field. lra.
Qed.

Lemma decayScore_no_half_life (days : value) (halfLife : R) :
  halfLife <= 0 -> decayScore days (VNum (Fin halfLife)) = Fin 0.5.
Proof.
  intros Hh. unfold decayScore. rewrite clampNum_num.
  cbn [nle]. rewrite Rleb_true by assumption.
  rewrite clamp_Fin by lra. f_equal. apply clampR_id. lra.
Qed.

Lemma exp_neg_ln2 : exp (- ln 2) = 0.5.
Proof. rewrite exp_Ropp, exp_ln by lra. lra. Qed.

(** C4. [decayScore] is exp(-ln2 * days / halfLife) clamped to [0,1] for
    every halfLife > 0 and days >= 0; it is the fixed value 0.5 whenever
    halfLife <= 0; it is 1 at days = 0 and 0.5 at days = halfLife, for
    every positive half-life. *)
Theorem decayScore_correct :
  (forall days halfLife : R, 0 < halfLife -> 0 <= days ->
     decayScore (VNum (Fin days)) (VNum (Fin halfLife))
     = Fin (decay_spec days halfLife))
  /\ (forall (days : value) (halfLife : R), halfLife <= 0 ->
       decayScore days (VNum (Fin halfLife)) = Fin 0.5)
  /\ (forall H : R, 0 < H ->
       decayScore (VNum (Fin 0)) (VNum (Fin H)) = Fin 1)
  /\ (forall H : R, 0 < H ->
       decayScore (VNum (Fin H)) (VNum (Fin H)) = Fin 0.5).
Proof.
  repeat split.
  - intros days halfLife Hh _. now apply decayScore_formula.
  - intros days halfLife Hh. now apply decayScore_no_half_life.
  - intros H HH. rewrite decayScore_formula by assumption.
    unfold decay_spec. replace (- ln 2 * 0 / H) with 0 by (field; lra).
    rewrite exp_0. f_equal. apply clampR_id. lra.
  - intros H HH. rewrite decayScore_formula by assumption.
    unfold decay_spec. replace (- ln 2 * H / H) with (- ln 2) by (field; lra).
    rewrite exp_neg_ln2. f_equal. apply clampR_id. lra.
Qed.

(** ** doseScore *)

Lemma tanh_split (x : R) : tanh x = 1 - 2 * exp (- x) * / (exp x + exp (- x)).
Proof.
  unfold tanh, sinh, cosh.
  pose proof (exp_pos x). pose proof (exp_pos (- x)).
  field. lra.
Qed.

Lemma tanh_lt_1 (x : R) : tanh x < 1.
Proof.
  rewrite tanh_split.
  pose proof (exp_pos x) as Ha. pose proof (exp_pos (- x)) as Hb.
  assert (Hq : 0 < / (exp x + exp (- x))) by (apply Rinv_0_lt_compat; lra).
  assert (0 < exp (- x) * / (exp x + exp (- x)))
    by now apply Rmult_lt_0_compat.
  lra.
Qed.

Lemma tanh_pos (x : R) : 0 < x -> 0 < tanh x.
Proof.
  intros Hx. rewrite tanh_split.
  pose proof (exp_pos x) as Ha. pose proof (exp_pos (- x)) as Hb.
  assert (Hab : exp (- x) < exp x) by (apply exp_increasing; lra).
  assert (Hq : 0 < / (exp x + exp (- x))) by (apply Rinv_0_lt_compat; lra).
  assert (Hone : (exp x + exp (- x)) * / (exp x + exp (- x)) = 1)
    by (apply Rinv_r; lra).
  assert (0 < (exp x - exp (- x)) * / (exp x + exp (- x)))
    by (apply Rmult_lt_0_compat; lra).
  lra.
Qed.

Lemma doseScore_no_recommendation (applied : value) (rec : R) :
  rec <= 0 -> doseScore applied (VNum (Fin rec)) = Fin 0.
Proof.
  intros Hr. unfold doseScore. rewrite clampNum_num.
  cbn [nle]. now rewrite Rleb_true.
Qed.

(** The three branches of the curve, in terms of the finite ratio. *)
Lemma doseScore_ratio (applied rec : R) :
  0 < rec ->
  doseScore (VNum (Fin applied)) (VNum (Fin rec)) =
  let ratio := applied / rec in
  clamp (if Rleb ratio 0 then Fin 0
         else if Rleb ratio 1 then Fin (0.15 + 0.55 * ratio)
         else Fin (0.70 + 0.30 * tanh ((ratio - 1) * 1.2)))
        (Fin 0) (Fin 1).
Proof.
  intros Hr. unfold doseScore. rewrite !clampNum_num.
  cbn [nle ndiv]. rewrite Rleb_false by assumption.
  rewrite Reqb_false by lra. cbn [nle].
  cbv zeta. destruct (Rleb (applied / rec) 0); [reflexivity |].
  destruct (Rleb (applied / rec) 1); reflexivity.
Qed.

Lemma doseScore_zero_ratio (applied rec : R) :
  0 < rec -> applied / rec <= 0 ->
  doseScore (VNum (Fin applied)) (VNum (Fin rec)) = Fin 0.
Proof.
  intros Hr H0. rewrite doseScore_ratio by assumption. cbv zeta.
  rewrite Rleb_true by assumption.
  rewrite clamp_Fin by lra. f_equal. apply clampR_id. lra.
Qed.

Lemma doseScore_low (applied rec : R) :
  0 < rec -> 0 < applied / rec <= 1 ->
  doseScore (VNum (Fin applied)) (VNum (Fin rec))
  = Fin (dose_low_spec (applied / rec)).
Proof.
  intros Hr [H0 H1]. rewrite doseScore_ratio by assumption. cbv zeta.
  rewrite Rleb_false, Rleb_true by assumption.
  rewrite clamp_Fin by lra. f_equal. unfold dose_low_spec.
  apply clampR_id. lra.
Qed.

Lemma dose_high_spec_range (ratio : R) :
  1 < ratio -> 0.70 < dose_high_spec ratio < 1.
Proof.
  intros H. unfold dose_high_spec.
  pose proof (tanh_lt_1 (1.2 * (ratio - 1))).
  pose proof (tanh_pos (1.2 * (ratio - 1))).
  lra.
Qed.

Lemma doseScore_high (applied rec : R) :
  0 < rec -> 1 < applied / rec ->
  doseScore (VNum (Fin applied)) (VNum (Fin rec))
  = Fin (dose_high_spec (applied / rec)).
Proof.
  intros Hr H1. rewrite doseScore_ratio by assumption. cbv zeta.
  rewrite !Rleb_false by lra.
  rewrite clamp_Fin by lra. f_equal.
  replace ((applied / rec - 1) * 1.2) with (1.2 * (applied / rec - 1)) by ring.
  fold (dose_high_spec (applied / rec)).
  apply clampR_id. pose proof (dose_high_spec_range _ H1). lra.
Qed.

(** C2, as the code has it.  [doseScore] is 0 whenever recommendedDose <= 0.
    For recommendedDose > 0 and ratio = appliedDose / recommendedDose it is
    0 at ratio = 0, 0.15 + 0.55 * ratio for every ratio in (0, 1] (0.70 at
    appliedDose = recommendedDose), and 0.70 + 0.30 * tanh(1.2 * (ratio - 1))
    for every ratio > 1, which never exceeds 1. *)
Theorem doseScore_curve (applied rec : R) :
  (rec <= 0 -> doseScore (VNum (Fin applied)) (VNum (Fin rec)) = Fin 0)
  /\ (0 < rec -> applied = 0 ->
       doseScore (VNum (Fin applied)) (VNum (Fin rec)) = Fin 0)
  /\ (0 < rec -> 0 < applied / rec <= 1 ->
       doseScore (VNum (Fin applied)) (VNum (Fin rec))
       = Fin (0.15 + 0.55 * (applied / rec)))
  /\ (0 < rec -> applied = rec ->
       doseScore (VNum (Fin applied)) (VNum (Fin rec)) = Fin 0.70)
  /\ (0 < rec -> 1 < applied / rec ->
       doseScore (VNum (Fin applied)) (VNum (Fin rec))
       = Fin (0.70 + 0.30 * tanh (1.2 * (applied / rec - 1)))
       /\ 0.70 + 0.30 * tanh (1.2 * (applied / rec - 1)) <= 1).
Proof.
  repeat split.
  - now apply doseScore_no_recommendation.
  - intros Hr Ha. apply doseScore_zero_ratio; [assumption |].
    subst applied. unfold Rdiv. lra.
  - intros Hr H. now apply doseScore_low.
  - intros Hr Ha. subst applied.
    assert (Hratio : rec / rec = 1) by (field; lra).
    rewrite doseScore_low by (rewrite ?Hratio; lra).
    unfold dose_low_spec. rewrite Hratio. f_equal. lra.
  - now apply doseScore_high.
  - apply Rlt_le. apply (dose_high_spec_range (applied / rec)). assumption.
Qed.

(** ** computeAiContribution *)

Lemma vdiv_num (x c : R) : c <> 0 -> vdiv (VNum (Fin x)) (Fin c) = Fin (x / c).
Proof. intros Hc. unfold vdiv. cbn. now rewrite Reqb_false. Qed.

Lemma confFactor_num (c : R) :
  confFactor (VNum (Fin c)) = Fin (clampR 0.3 1 (c / 100)).
Proof.
  unfold confFactor. rewrite vdiv_num by lra. apply clamp_Fin. lra.
Qed.

Lemma confFactor_range (c : value) :
  exists r, confFactor c = Fin r /\ 0.3 <= r <= 1.
Proof. unfold confFactor. apply clamp_range. lra. Qed.

Lemma timeFactor_num (d : R) :
  timeFactor (VNum (Fin d)) = Fin (timeFactor_spec d).
Proof.
  unfold timeFactor, timeFactor_spec. rewrite clampNum_num.
  unfold nge. cbn [nle].
  destruct (Rlt_dec d 7), (Rlt_dec d 14); cmp; f_equal; lra.
Qed.

Lemma timeFactor_range (d : value) :
  exists r, timeFactor d = Fin r /\ 0 <= r <= 1.
Proof.
  unfold timeFactor. destruct (clampNum_Fin d 0) as [x ->].
  unfold nge. cbn [nle].
  destruct (Rleb 14 x); [exists 0.4; split; [reflexivity | lra] |].
  destruct (Rleb 7 x); [exists 0.65 | exists 1]; (split; [reflexivity | lra]).
Qed.

Lemma softenedStress_Fin (s : R) : softenedStress (Fin s) = Fin (soften_spec s).
Proof.
  unfold softenedStress, soften_spec. cbn [nlt].
  destruct (Rlt_dec s 0.4), (Rlt_dec s 0.7); cmp; reflexivity.
Qed.

Lemma soften_spec_range (s : R) : 0 <= s <= 1 -> 0 <= soften_spec s <= 1.
Proof.
  intros H. unfold soften_spec.
  destruct (Rlt_dec s 0.4), (Rlt_dec s 0.7); lra.
Qed.

Lemma Math_min_Fin (x y : R) : Math_min (Fin x) (Fin y) = Fin (Rmin x y).
Proof.
  unfold Math_min, Rmin. cbn [nle]. unfold Rleb.
  destruct (Rle_dec x y); reflexivity.
Qed.

Lemma Math_max_Fin (x y : R) : Math_max (Fin x) (Fin y) = Fin (Rmax x y).
Proof.
  unfold Math_max, Rmax. cbn [nle]. unfold Rleb.
  destruct (Rle_dec x y); reflexivity.
Qed.

Lemma computeAiContribution_absent (stressScore confidence days : value) :
  nullish stressScore = true ->
  computeAiContribution stressScore confidence days = Fin 0.
Proof. intros H. unfold computeAiContribution. now rewrite H. Qed.

Lemma computeAiContribution_num (s c d : R) :
  computeAiContribution (VNum (Fin s)) (VNum (Fin c)) (VNum (Fin d))
  = Fin (aiContribution_spec s c d).
Proof.
  unfold computeAiContribution. cbn [nullish].
  rewrite vdiv_num by lra. rewrite clamp_Fin by lra.
  rewrite confFactor_num, timeFactor_num, softenedStress_Fin.
  cbn [nmul]. rewrite Math_min_Fin. reflexivity.
Qed.

(** A product of factors in [0,1], scaled by 0.25 and capped at 0.25. *)
Lemma capped_product_range (a b c : R) :
  0 <= a <= 1 -> 0 <= b <= 1 -> 0 <= c <= 1 ->
  0 <= Rmin (a * b * c * 0.25) 0.25 <= 0.25.
Proof.
  intros Ha Hb Hc.
  assert (0 <= a * b) by (apply Rmult_le_pos; lra).
  assert (0 <= a * b * c) by (apply Rmult_le_pos; lra).
  unfold Rmin. destruct (Rle_dec _ _); lra.
Qed.

Lemma aiContribution_spec_range (s c d : R) :
  0 <= aiContribution_spec s c d <= 0.25.
Proof.
  unfold aiContribution_spec. apply capped_product_range.
  - apply soften_spec_range. apply clampR_range. lra.
  - pose proof (clampR_range 0.3 1 (c / 100)). lra.
  - unfold timeFactor_spec. destruct (Rlt_dec d 7), (Rlt_dec d 14); lra.
Qed.

(** Whatever the three values are, the contribution is a finite number
    in [0, 0.25]. *)
Lemma computeAiContribution_range (stressScore confidence days : value) :
  exists r, computeAiContribution stressScore confidence days = Fin r
            /\ 0 <= r <= 0.25.
Proof.
  unfold computeAiContribution.
  destruct (nullish stressScore); [exists 0; split; [reflexivity | lra] |].
  destruct (clamp_range (vdiv stressScore (Fin 100)) 0 1) as (st & -> & Hst);
    [lra |].
  destruct (confFactor_range
              match confidence with VUndef => VNum (Fin 50) | c => c end)
    as (cf & -> & Hcf).
  destruct (timeFactor_range days) as (tf & -> & Htf).
  rewrite softenedStress_Fin. cbn [nmul]. rewrite Math_min_Fin.
  eexists; split; [reflexivity |].
  apply capped_product_range; [now apply soften_spec_range | lra | lra].
Qed.

(** C3. For every stressScore and confidence in [0,100] the AI
    contribution is min(stress_softened * conf * timeFactor * 0.25, 0.25),
    with conf = clamp(confidence/100, [0.3, 1]), the three time factors and
    the three softening factors of the specification, and it lies in
    [0, 0.25]; it is exactly 0 when stressScore is absent. *)
Theorem aiContribution_correct :
  (forall s c d : R, 0 <= s <= 100 -> 0 <= c <= 100 ->
     computeAiContribution (VNum (Fin s)) (VNum (Fin c)) (VNum (Fin d))
     = Fin (aiContribution_spec s c d)
     /\ 0 <= aiContribution_spec s c d <= 0.25)
  /\ (forall confidence days : value,
       computeAiContribution VUndef confidence days = Fin 0
       /\ computeAiContribution VNull confidence days = Fin 0).
Proof.
  split.
  - intros s c d _ _. split.
    + apply computeAiContribution_num.
    + apply aiContribution_spec_range.
  - intros confidence days.
    split; now apply computeAiContribution_absent.
Qed.

(** The contribution for a numeric stress score and number of days, in
    terms of the confidence factor. *)
Lemma computeAiContribution_conf (confidence : value) (conf s d : R) :
  confFactor match confidence with VUndef => VNum (Fin 50) | c => c end
  = Fin conf ->
  computeAiContribution (VNum (Fin s)) confidence (VNum (Fin d))
  = Fin (aiContribution_with conf s d).
Proof.
  intros Hc. unfold computeAiContribution. cbn [nullish].
  rewrite vdiv_num by lra. rewrite clamp_Fin by lra.
  rewrite Hc, timeFactor_num, softenedStress_Fin.
  cbn [nmul]. rewrite Math_min_Fin. reflexivity.
Qed.

(** Where no conversion throws, the contribution is the one of
    [computeAiContribution]. *)
Lemma computeAiContribution_checked_some (stressScore confidence days : value) :
  conversion_throws stressScore = false ->
  conversion_throws
    match confidence with VUndef => VNum (Fin 50) | c => c end = false ->
  conversion_throws days = false ->
  computeAiContribution_checked stressScore confidence days
  = Some (computeAiContribution stressScore confidence days).
Proof.
  intros Hs Hc Hd.
  unfold computeAiContribution_checked, computeAiContribution, ToNumber.
  rewrite Hs, Hc, Hd.
  destruct (nullish stressScore); reflexivity.
Qed.

Lemma confFactor_50 : confFactor (VNum (Fin 50)) = Fin 0.5.
Proof.
  rewrite confFactor_num. f_equal.
  replace (50 / 100) with 0.5 by lra. apply clampR_id. lra.
Qed.

(** C9, as the code has it.  When [ai.confidence] is absent the engine
    takes 50, and the AI contribution is then computed with the
    confidence factor 0.5: min(stress_softened * 0.5 * timeFactor * 0.25,
    0.25).  For every confidence that converts to a number without a
    TypeError (0, negative and non-numeric included), the AI contribution
    is computed with a confidence factor that lies in [0.3, 1]. *)
Theorem confidence_default_and_floor :
  (forall payload : value,
     no_own_toString payload = true ->
     nullish (get (ai_of payload) "confidence") = true ->
     aiConfidence_of payload = VNum (Fin 50)
     /\ bd_aiContribution (breakdown (calculateRisk_body payload))
        = computeAiContribution (aiStress_of payload) (VNum (Fin 50))
            (daysSinceSpray_of payload)
     /\ (forall s d : R,
          aiStress_of payload = VNum (Fin s) ->
          daysSinceSpray_of payload = VNum (Fin d) ->
          bd_aiContribution (breakdown (calculateRisk_body payload))
          = Fin (aiContribution_with 0.5 s d)))
  /\ (forall s d : R,
       computeAiContribution_checked
         (VNum (Fin s)) (VNum (Fin 50)) (VNum (Fin d))
       = Some (Fin (aiContribution_with 0.5 s d))
       /\ computeAiContribution_checked (VNum (Fin s)) VUndef (VNum (Fin d))
          = Some (Fin (aiContribution_with 0.5 s d)))
  /\ (forall confidence : value,
       conversion_throws confidence = false ->
       exists conf : R,
         0.3 <= conf <= 1
         /\ forall s d : R,
              computeAiContribution_checked
                (VNum (Fin s)) confidence (VNum (Fin d))
              = Some (Fin (aiContribution_with conf s d))).
Proof.
  split; [| split].
  - intros payload _ Habs.
    assert (Hc : aiConfidence_of payload = VNum (Fin 50))
      by (unfold aiConfidence_of, coalesce; now rewrite Habs).
    assert (Hai : bd_aiContribution (breakdown (calculateRisk_body payload))
                  = computeAiContribution (aiStress_of payload)
                      (VNum (Fin 50)) (daysSinceSpray_of payload)).
    { unfold calculateRisk_body. cbn [breakdown bd_aiContribution].
      now rewrite Hc. }
    split; [exact Hc |]. split; [exact Hai |].
    intros s d Hs Hd. rewrite Hai, Hs, Hd.
    apply computeAiContribution_conf. apply confFactor_50.
  - intros s d.
    split; (rewrite computeAiContribution_checked_some by reflexivity);
      f_equal; apply computeAiContribution_conf; apply confFactor_50.
  - intros confidence Hconv.
    destruct (confFactor_range
                match confidence with VUndef => VNum (Fin 50) | c => c end)
      as (conf & Hconf & Hrange).
    exists conf. split; [exact Hrange |].
    intros s d.
    rewrite computeAiContribution_checked_some;
      [| reflexivity | now destruct confidence | reflexivity].
    f_equal. now apply computeAiContribution_conf.
Qed.

(** ** Percentages and the sanity rules *)

Lemma pct_Fin (t : R) : pct (Fin t) = Fin (IZR (percentZ t)).
Proof.
  unfold pct, percentZ. rewrite clamp_Fin by lra. reflexivity.
Qed.

Lemma percentZ_range (t : R) : (0 <= percentZ t <= 100)%Z.
Proof.
  unfold percentZ. pose proof (clampR_range 0 1 t) as Hc.
  set (x := clampR 0 1 t * 100 + 0.5).
  assert (Hx : 0.5 <= x <= 100.5) by (unfold x; lra).
  pose proof (Zfloor_bound x) as [Hlo Hhi].
  split.
  - apply Zfloor_lub. cbn. lra.
  - assert (IZR (Zfloor x) < IZR 101) by (cbn; lra).
    apply lt_IZR in H. lia.
Qed.

(** Rounding to the nearest integer moves a value by at most a half. *)
Lemma percentZ_near (t : R) :
  0 <= t <= 1 -> IZR (percentZ t) - 0.5 <= t * 100 < IZR (percentZ t) + 0.5.
Proof.
  intros Ht. unfold percentZ. rewrite clampR_id by assumption.
  pose proof (Zfloor_bound (t * 100 + 0.5)). lra.
Qed.

Lemma Rmin_IZR (p q : Z) : Rmin (IZR p) (IZR q) = IZR (Z.min p q).
Proof.
  unfold Rmin. destruct (Rle_dec (IZR p) (IZR q)) as [H | H].
  - apply le_IZR in H. now rewrite Z.min_l.
  - apply Rnot_le_lt, lt_IZR in H. rewrite Z.min_r by lia. reflexivity.
Qed.

Lemma Rmax_IZR (p q : Z) : Rmax (IZR p) (IZR q) = IZR (Z.max p q).
Proof.
  unfold Rmax. destruct (Rle_dec (IZR p) (IZR q)) as [H | H].
  - apply le_IZR in H. now rewrite Z.max_r.
  - apply Rnot_le_lt, lt_IZR in H. rewrite Z.max_l by lia. reflexivity.
Qed.

Lemma sanity1_Z (d ai : num) (p : Z) :
  exists q, sanity1 d ai (Fin (IZR p)) = Fin (IZR q)
            /\ (q <= p)%Z /\ (0 <= p -> 0 <= q)%Z.
Proof.
  unfold sanity1. destruct (_ && _).
  - exists (Z.min p 55). rewrite Math_min_Fin, Rmin_IZR. repeat split; lia.
  - exists p. repeat split; lia.
Qed.

Lemma sanity2_Z (sDose sDecay : num) (p : Z) :
  exists q, sanity2 sDose sDecay (Fin (IZR p)) = Fin (IZR q)
            /\ (q <= p)%Z /\ (0 <= p -> 0 <= q)%Z
            /\ ((sDose <? Fin 0.2)%js = true -> (sDecay <? Fin 0.2)%js = true ->
                (q <= 45)%Z).
Proof.
  unfold sanity2. destruct (sDose <? Fin 0.2)%js, (sDecay <? Fin 0.2)%js;
    cbn [andb].
  - exists (Z.min p 45). rewrite Math_min_Fin, Rmin_IZR. repeat split; lia.
  - exists p. repeat split; try lia; discriminate.
  - exists p. repeat split; try lia; discriminate.
  - exists p. repeat split; try lia; discriminate.
Qed.

Lemma sanity3_Z (aiStress aiConfidence : value) (p : Z) :
  exists q, sanity3 aiStress aiConfidence (Fin (IZR p)) = Fin (IZR q)
            /\ (0 <= p -> q <= p)%Z /\ (0 <= p -> 0 <= q)%Z.
Proof.
  unfold sanity3. destruct (_ && _).
  - exists (Z.max (p - 10) 0). cbn [nsub nneg nadd].
    rewrite Math_max_Fin.
    replace (IZR p + - (10)) with (IZR (p - 10)) by (rewrite minus_IZR; lra).
    rewrite Rmax_IZR. repeat split; lia.
  - exists p. repeat split; lia.
Qed.

(** ** calculateRisk *)

Lemma calculateRisk_some (payload : value) :
  payload <> VNull ->
  calculateRisk payload
  = Some (calculateRisk_body
            match payload with VUndef => VObj [] | p => p end).
Proof.
  intros Hn. unfold calculateRisk. destruct payload; congruence.
Qed.

(** The percentage is the fused total rounded, then lowered by the
    sanity rules; the reported total is that final percentage over 100. *)
Lemma riskPercent_shape (payload : value) :
  let r := calculateRisk_body payload in
  let b := breakdown r in
  exists (t : R) (q : Z),
    clamp (bd_baseScore b + bd_aiContribution b)%js (Fin 0) (Fin 1) = Fin t
    /\ 0 <= t <= 1
    /\ riskPercent r = Fin (IZR q)
    /\ (0 <= q <= percentZ t)%Z
    /\ bd_totalScore b = Fin (IZR q / 100)
    /\ ((bd_doseScore b <? Fin 0.2)%js = true ->
        (bd_decayScore b <? Fin 0.2)%js = true -> (q <= 45)%Z).
Proof.
  intros r b.
  destruct (clamp_range (bd_baseScore b + bd_aiContribution b)%js 0 1)
    as (t & Ht & Hrange); [lra |].
  pose proof (percentZ_range t) as Hp.
  assert (Hr : riskPercent r =
               sanity3 (aiStress_of payload) (aiConfidence_of payload)
                 (sanity2 (bd_doseScore b) (bd_decayScore b)
                    (sanity1 (clampNum (daysSinceSpray_of payload) (Fin 0))
                       (bd_aiContribution b)
                       (pct (clamp (bd_baseScore b + bd_aiContribution b)%js
                               (Fin 0) (Fin 1))))))
    by reflexivity.
  assert (Ht' : bd_totalScore b
                = clamp (riskPercent r / Fin 100)%js (Fin 0) (Fin 1))
    by reflexivity.
  rewrite Ht, pct_Fin in Hr.
  destruct (sanity1_Z (clampNum (daysSinceSpray_of payload) (Fin 0))
              (bd_aiContribution b) (percentZ t)) as (q1 & E1 & L1 & P1).
  destruct (sanity2_Z (bd_doseScore b) (bd_decayScore b) q1)
    as (q2 & E2 & L2 & P2 & C2).
  destruct (sanity3_Z (aiStress_of payload) (aiConfidence_of payload) q2)
    as (q3 & E3 & L3 & P3).
  rewrite E1, E2, E3 in Hr.
  exists t, q3. repeat split; try assumption; try lia; try lra.
  - rewrite Ht', Hr. cbn [ndiv]. rewrite Reqb_false by lra.
    rewrite clamp_Fin by lra. f_equal. apply clampR_id.
    assert (0 <= IZR q3 <= 100).
    { split; [apply (IZR_le 0) | apply (IZR_le q3 100)]; lia. }
    lra.
  - intros Hd Hy. specialize (C2 Hd Hy). lia.
Qed.

(** C10. In every result, [breakdown.totalScore] is [riskPercent / 100]
    taken after the sanity rules, it lies in [0,1], and whenever the
    sanity rules have lowered [riskPercent] below the rounded fused total,
    [totalScore] is strictly below clamp(baseScore + aiContribution). *)
Theorem totalScore_follows_percent (payload : value) :
  payload <> VNull ->
  exists r, calculateRisk payload = Some r /\
    let b := breakdown r in
    let fused := clamp (bd_baseScore b + bd_aiContribution b)%js
                   (Fin 0) (Fin 1) in
    exists (q : Z) (t : R),
      riskPercent r = Fin (IZR q)
      /\ bd_totalScore b = Fin (IZR q / 100)
      /\ 0 <= IZR q / 100 <= 1
      /\ fused = Fin t
      /\ ((riskPercent r <? pct fused)%js = true -> IZR q / 100 < t).
Proof.
  intros Hn. eexists. split; [now apply calculateRisk_some |].
  set (p := match payload with VUndef => VObj [] | p => p end).
  destruct (riskPercent_shape p) as (t & q & Ht & Hrange & Hq & Hqp & Htot & _).
  cbv zeta. exists q, t.
  pose proof (percentZ_range t) as Hp.
  assert (Hq100 : 0 <= IZR q <= 100).
  { split; [apply (IZR_le 0) | apply (IZR_le q 100)]; lia. }
  repeat split; try assumption; try lra.
  rewrite Hq, Ht, pct_Fin. cbn [nlt]. unfold Rltb.
  destruct (Rlt_dec (IZR q) (IZR (percentZ t))) as [Hlt | Hlt];
    [intros _ | discriminate].
  apply lt_IZR in Hlt.
  assert (Hle : IZR q <= IZR (percentZ t - 1)) by (apply IZR_le; lia).
  rewrite minus_IZR in Hle.
  pose proof (percentZ_near t Hrange). lra.
Qed.

(** ** The scenarios *)

Lemma decayed_residue_small : decay_spec 60 3 < 0.2.
Proof.
  unfold decay_spec.
  replace (- ln 2 * 60 / 3) with (- (20 * ln 2)) by field.
  rewrite exp_Ropp.
  pose proof (exp_ineq1_le (20 * ln 2)) as He.
  pose proof ln_lt_2 as Hl.
  assert (H11 : 11 <= exp (20 * ln 2)) by lra.
  assert (Hinv : / exp (20 * ln 2) <= / 11)
    by (apply Rinv_le_contravar; lra).
  assert (0 < / exp (20 * ln 2)) by (apply Rinv_0_lt_compat; lra).
  rewrite clampR_id; lra.
Qed.

Lemma decayed_payload_scores (stressScore confidence : value) :
  let b := breakdown
             (calculateRisk_body (decayed_payload stressScore confidence)) in
  (bd_doseScore b <? Fin 0.2)%js = true
  /\ (bd_decayScore b <? Fin 0.2)%js = true.
Proof.
  intros b.
  assert (Hdose : bd_doseScore b = doseScore (VNum (Fin 0)) (VNum (Fin 10)))
    by reflexivity.
  assert (Hdecay : bd_decayScore b
                   = decayScore (VNum (Fin 60)) (VNum (Fin 3)))
    by reflexivity.
  rewrite doseScore_zero_ratio in Hdose by lra.
  rewrite decayScore_formula in Hdecay by lra.
  rewrite Hdose, Hdecay. cbn [nlt].
  pose proof decayed_residue_small.
  rewrite !Rltb_true by lra. now split.
Qed.

(** C5. Whenever doseScore < 0.2 and decayScore < 0.2 the final
    riskPercent is at most 45; in particular it is for appliedDose=0,
    recommendedDose=10, daysSinceSpray=60, halfLifeDays=3, whatever the AI
    stressScore and confidence are. *)
Theorem low_dose_strong_decay_cap :
  (forall payload : value, payload <> VNull ->
     exists r, calculateRisk payload = Some r /\
       ((bd_doseScore (breakdown r) <? Fin 0.2)%js = true ->
        (bd_decayScore (breakdown r) <? Fin 0.2)%js = true ->
        exists q : Z, riskPercent r = Fin (IZR q) /\ (0 <= q <= 45)%Z))
  /\ (forall stressScore confidence : value,
       exists (r : RiskAssessment) (q : Z),
         calculateRisk (decayed_payload stressScore confidence) = Some r
         /\ riskPercent r = Fin (IZR q) /\ (0 <= q <= 45)%Z).
Proof.
  split.
  - intros payload Hn. eexists. split; [now apply calculateRisk_some |].
    set (p := match payload with VUndef => VObj [] | p => p end).
    destruct (riskPercent_shape p) as (t & q & _ & _ & Hq & Hqp & _ & Hcap).
    intros Hd Hy. exists q. split; [exact Hq |]. specialize (Hcap Hd Hy). lia.
  - intros s c.
    set (p := decayed_payload s c).
    destruct (riskPercent_shape p) as (t & q & _ & _ & Hq & Hqp & _ & Hcap).
    exists (calculateRisk_body p), q.
    split; [reflexivity |]. split; [exact Hq |].
    destruct (decayed_payload_scores s c) as [Hdose Hdecay].
    specialize (Hcap Hdose Hdecay). lia.
Qed.

Lemma moistureScore_missing : moistureScore VUndef = Fin 0.35.
Proof. reflexivity. Qed.

Lemma phScore_missing : phScore VUndef VUndef = Fin 0.25.
Proof. reflexivity. Qed.

Lemma weatherScore_missing : weatherScore (VObj []) = Fin 0.35.
Proof.
  unfold weatherScore. cbn [get lookup coalesce nullish].
  unfold clampNum. cbn [Number isFinite].
  rewrite clamp_Fin by lra. f_equal. apply clampR_id. lra.
Qed.

Lemma percentZ_fresh : percentZ 0.571 = 57%Z.
Proof.
  unfold percentZ. rewrite clampR_id by lra.
  apply Zfloor_eq. cbn. lra.
Qed.

(** The engine reads its payload through the three groups only. *)
Lemma calculateRisk_body_groups (p p' : value) :
  inputs_of p = inputs_of p' -> weather_of p = weather_of p' ->
  ai_of p = ai_of p' ->
  calculateRisk_body p = calculateRisk_body p'.
Proof.
  intros Hi Hw Ha.
  unfold calculateRisk_body, daysSinceSpray_of, aiStress_of, aiConfidence_of.
  rewrite Hi, Hw, Ha. reflexivity.
Qed.

Lemma fresh_payload_result :
  let r := calculateRisk_body fresh_payload in
  let b := breakdown r in
  bd_decayScore b = Fin 1
  /\ bd_doseScore b = Fin 0.70
  /\ bd_moistureScore b = Fin 0.35
  /\ bd_phScore b = Fin 0.25
  /\ bd_weatherScore b = Fin 0.35
  /\ bd_baseScore b = Fin 0.571
  /\ riskPercent r = Fin 57
  /\ level r = "Medium"%string.
Proof.
  intros r b.
  assert (Hdecay : bd_decayScore b = Fin 1).
  { change (bd_decayScore b)
      with (decayScore (VNum (Fin 0)) (VNum (Fin 5))).
    rewrite decayScore_formula by lra. unfold decay_spec.
    replace (- ln 2 * 0 / 5) with 0 by field.
    rewrite exp_0. f_equal. apply clampR_id. lra. }
  assert (Hdose : bd_doseScore b = Fin 0.70).
  { change (bd_doseScore b) with (doseScore (VNum (Fin 1)) (VNum (Fin 1))).
    replace (1 / 1) with 1 in * by field.
    rewrite doseScore_low by lra. unfold dose_low_spec. f_equal. lra. }
  assert (Hmoist : bd_moistureScore b = Fin 0.35) by reflexivity.
  assert (Hph : bd_phScore b = Fin 0.25) by reflexivity.
  assert (Hweather : bd_weatherScore b = Fin 0.35).
  { change (bd_weatherScore b) with (weatherScore (VObj [])).
    apply weatherScore_missing. }
  assert (Hai : bd_aiContribution b = Fin 0) by reflexivity.
  assert (Hbase : bd_baseScore b = Fin 0.571).
  { change (bd_baseScore b)
      with (clamp (Fin 0.22 * bd_doseScore b + Fin 0.28 * bd_decayScore b
                   + Fin 0.18 * bd_weatherScore b
                   + Fin 0.14 * bd_moistureScore b
                   + Fin 0.10 * bd_phScore b)%js (Fin 0) (Fin 1)).
    rewrite Hdecay, Hdose, Hmoist, Hph, Hweather. cbn [nmul nadd].
    rewrite clamp_Fin by lra. f_equal. rewrite clampR_id; lra. }
  assert (Hpercent : riskPercent r = Fin 57).
  { change (riskPercent r)
      with (sanity3 VUndef (VNum (Fin 50))
              (sanity2 (bd_doseScore b) (bd_decayScore b)
                 (sanity1 (Fin 0) (bd_aiContribution b)
                    (pct (clamp (bd_baseScore b + bd_aiContribution b)%js
                            (Fin 0) (Fin 1)))))).
    rewrite Hbase, Hai, Hdose, Hdecay. cbn [nadd].
    rewrite clamp_Fin by lra. rewrite clampR_id by lra.
    replace (0.571 + 0) with 0.571 by lra.
    rewrite pct_Fin, percentZ_fresh.
    unfold sanity1, sanity2, sanity3, nge, ngt, clampNum.
    cbn [Number isFinite nle nlt].
    rewrite (Rleb_false 20 0) by lra. cbn [andb].
    rewrite (Rltb_false 0.70 0.2) by lra. cbn [andb].
    rewrite (Rltb_false 80 0) by lra. cbn [andb].
    reflexivity. }
  assert (Hlevel : level r = "Medium"%string).
  { change (level r) with (labelFromPercent (riskPercent r)).
    rewrite Hpercent. unfold labelFromPercent, clampNum.
    cbn [Number isFinite nle].
    rewrite (Rleb_false 57 30), (Rleb_true 57 60) by lra. reflexivity. }
  repeat split; assumption.
Qed.

(** C6. For inputs = {appliedDose:1, recommendedDose:1, daysSinceSpray:0,
    halfLifeDays:5} with no weather and no ai group: decayScore = 1,
    doseScore = 0.70, moistureScore = 0.35, phScore = 0.25,
    weatherScore = 0.35, base = 0.571, riskPercent = 57, level = Medium. *)
Theorem fresh_spray_scenario :
  exists r, calculateRisk fresh_payload = Some r
    /\ bd_decayScore (breakdown r) = Fin 1
    /\ bd_doseScore (breakdown r) = Fin 0.70
    /\ bd_moistureScore (breakdown r) = Fin 0.35
    /\ bd_phScore (breakdown r) = Fin 0.25
    /\ bd_weatherScore (breakdown r) = Fin 0.35
    /\ bd_baseScore (breakdown r)
       = Fin (0.22 * 0.70 + 0.28 * 1 + 0.18 * 0.35 + 0.14 * 0.35 + 0.10 * 0.25)
    /\ bd_baseScore (breakdown r) = Fin 0.571
    /\ riskPercent r = Fin 57
    /\ level r = "Medium"%string.
Proof.
  destruct fresh_payload_result
    as (Hdecay & Hdose & Hmoist & Hph & Hweather & Hbase & Hpercent & Hlevel).
  exists (calculateRisk_body fresh_payload).
  repeat split; try assumption.
  rewrite Hbase. f_equal. lra.
Qed.

Lemma aiContribution_spec_doubtful : aiContribution_spec 100 0 0 = 0.075.
Proof.
  unfold aiContribution_spec, soften_spec, timeFactor_spec, clampR, Rmin, Rmax.
  repeat (destruct (Rle_dec _ _) || destruct (Rlt_dec _ _)); lra.
Qed.

Lemma percentZ_doubtful : percentZ 0.506 = 51%Z.
Proof.
  unfold percentZ. rewrite clampR_id by lra.
  apply Zfloor_eq. cbn. lra.
Qed.

Lemma doubtful_payload_result :
  let r := calculateRisk_body doubtful_payload in
  let b := breakdown r in
  bd_baseScore b = Fin 0.431
  /\ bd_aiContribution b = Fin 0.075
  /\ riskPercent r = Fin 41
  /\ pct (clamp (bd_baseScore b + bd_aiContribution b)%js (Fin 0) (Fin 1))
     = Fin 51.
Proof.
  intros r b.
  assert (Hdecay : bd_decayScore b = Fin 0.5).
  { change (bd_decayScore b) with (decayScore (VNum (Fin 0)) VUndef).
    unfold decayScore, clampNum. cbn [Number isFinite nle].
    rewrite Rleb_true by lra. rewrite clamp_Fin by lra.
    f_equal. apply clampR_id. lra. }
  assert (Hdose : bd_doseScore b = Fin 0.70).
  { change (bd_doseScore b) with (doseScore (VNum (Fin 1)) (VNum (Fin 1))).
    replace (1 / 1) with 1 in * by field.
    rewrite doseScore_low by lra. unfold dose_low_spec. f_equal. lra. }
  assert (Hmoist : bd_moistureScore b = Fin 0.35) by reflexivity.
  assert (Hph : bd_phScore b = Fin 0.25) by reflexivity.
  assert (Hweather : bd_weatherScore b = Fin 0.35).
  { change (bd_weatherScore b) with (weatherScore (VObj [])).
    apply weatherScore_missing. }
  assert (Hai : bd_aiContribution b = Fin 0.075).
  { change (bd_aiContribution b)
      with (computeAiContribution (VNum (Fin 100)) (VNum (Fin 0))
              (VNum (Fin 0))).
    now rewrite computeAiContribution_num, aiContribution_spec_doubtful. }
  assert (Hbase : bd_baseScore b = Fin 0.431).
  { change (bd_baseScore b)
      with (clamp (Fin 0.22 * bd_doseScore b + Fin 0.28 * bd_decayScore b
                   + Fin 0.18 * bd_weatherScore b
                   + Fin 0.14 * bd_moistureScore b
                   + Fin 0.10 * bd_phScore b)%js (Fin 0) (Fin 1)).
    rewrite Hdecay, Hdose, Hmoist, Hph, Hweather. cbn [nmul nadd].
    rewrite clamp_Fin by lra. f_equal. rewrite clampR_id; lra. }
  assert (Hpct : pct (clamp (bd_baseScore b + bd_aiContribution b)%js
                        (Fin 0) (Fin 1)) = Fin 51).
  { rewrite Hbase, Hai. cbn [nadd].
    rewrite clamp_Fin by lra. rewrite clampR_id by lra.
    replace (0.431 + 0.075) with 0.506 by lra.
    now rewrite pct_Fin, percentZ_doubtful. }
  repeat split; try assumption.
  change (riskPercent r)
    with (sanity3 (VNum (Fin 100)) (VNum (Fin 0))
            (sanity2 (bd_doseScore b) (bd_decayScore b)
               (sanity1 (Fin 0) (bd_aiContribution b)
                  (pct (clamp (bd_baseScore b + bd_aiContribution b)%js
                          (Fin 0) (Fin 1)))))).
  rewrite Hpct, Hai, Hdose, Hdecay.
  unfold sanity1, sanity2, sanity3, nge, ngt, clampNum.
  cbn [Number isFinite nle nlt].
  rewrite (Rleb_false 20 0) by lra. cbn [andb].
  rewrite (Rltb_false 0.70 0.2) by lra. cbn [andb].
  rewrite (Rltb_true 80 100), (Rltb_true 0 40) by lra. cbn [andb].
  cbn [nsub nneg nadd]. rewrite Math_max_Fin. f_equal.
  rewrite Rmax_left; lra.
Qed.

End RiskProofs.
(** ** The scan endpoint *)

Section EndpointProofs.

Context {host : Host}.

Lemma clamp01_Fin (x : R) : Server.clamp01 (Fin x) = Fin (clampR 0 1 x).
Proof.
  unfold Server.clamp01, clampR. now rewrite Math_max_Fin, Math_min_Fin.
Qed.

(** The first conversion of [computeRisk] is the one of the guard. *)
Lemma computeRisk_throws_guard (inputs : value) :
  Server.computeRisk_throws inputs = false ->
  conversion_throws (getq inputs "recommendedDose") = false.
Proof.
  unfold Server.computeRisk_throws. cbn [existsb]. intros H.
  apply orb_false_elim in H. destruct H as [H _].
  now destruct inputs.
Qed.

Lemma scan_valid (f : Server.File) (fields : list (string * value)) :
  String.prefix "image/" (Server.mimetype f) = true ->
  (Server.toNumber (lookup "recommendedDose" fields) >? Fin 0)%js = true ->
  Server.computeRisk_throws (VObj fields) = false ->
  Server.scan {| Server.file := Some f; Server.body_inputs := VObj fields |}
  = Server.Scanned (Server.computeRisk (VObj fields))
      {| Server.received_crop := lookup "crop" fields;
         Server.received_pesticide := lookup "pesticide" fields;
         Server.received_recommendedDose := lookup "recommendedDose" fields;
         Server.file_mimetype := Server.mimetype f;
         Server.file_size := Server.size f |}.
Proof.
  intros Hm Hd Ht. unfold Server.scan. cbn [Server.file Server.body_inputs].
  rewrite Hm. cbn [negb truthy]. unfold Server.scan_inputs.
  rewrite (computeRisk_throws_guard _ Ht), Ht.
  cbn [getq get]. rewrite Hd. reflexivity.
Qed.

Lemma percentZ_441 : percentZ 0.441 = 44%Z.
Proof.
  unfold percentZ. rewrite clampR_id by lra.
  apply Zfloor_eq. cbn. lra.
Qed.

Lemma computeRisk_fresh :
  Server.riskPercent (Server.computeRisk fresh_inputs) = Fin 44
  /\ Server.level (Server.computeRisk fresh_inputs) = "Medium"%string
  /\ Server.tips (Server.computeRisk fresh_inputs)
     = [Server.tip_moderate; Server.tip_recent; Server.tip_always].
Proof.
  set (out := Server.computeRisk fresh_inputs).
  set (b := Server.breakdown out).
  assert (Hdose : Server.doseScore b = Fin 0.4).
  { change (Server.doseScore b)
      with (Server.clamp01 ((Fin 1 - Fin 1) / Fin 3 + Fin 0.4)%js).
    cbn [nsub nneg nadd ndiv]. rewrite Reqb_false by lra. cbn [nadd].
    rewrite clamp01_Fin. f_equal. rewrite clampR_id; lra. }
  assert (Hres : Server.residueFactor b = Fin 1).
  { change (Server.residueFactor b)
      with (if (Fin 5 >? Fin 0)%js
            then Server.clamp01
                   (Math_exp (- Math_log (Fin 2) * (Fin 0 / Fin 5))%js)
            else Fin 0.6).
    unfold ngt. cbn [nlt]. rewrite Rltb_true by lra.
    rewrite Math_log_2. cbn [nneg ndiv]. rewrite Reqb_false by lra.
    cbn [nmul Math_exp].
    replace (- ln 2 * (0 / 5)) with 0 by field.
    rewrite exp_0, clamp01_Fin. f_equal. apply clampR_id. lra. }
  assert (Hleaf : Server.leafPhScore b = Fin 0.2) by reflexivity.
  assert (Hsoil : Server.soilPhScore b = Fin 0.2) by reflexivity.
  assert (Hmoist : Server.moistureScore b = Fin 0.2) by reflexivity.
  assert (Hweather : Server.weatherScore b = Fin 0.2) by reflexivity.
  assert (Himage : Server.imageStressScore b = Fin 0.25) by reflexivity.
  assert (Hpercent : Server.riskPercent out = Fin 44).
  { change (Server.riskPercent out)
      with (Math_round
              (Server.clamp01
                 (Fin 0.22 * Server.doseScore b
                  + Fin 0.24 * Server.residueFactor b
                  + Fin 0.14 * Server.leafPhScore b
                  + Fin 0.10 * Server.soilPhScore b
                  + Fin 0.10 * Server.moistureScore b
                  + Fin 0.10 * Server.weatherScore b
                  + Fin 0.10 * Server.imageStressScore b) * Fin 100)%js).
    rewrite Hdose, Hres, Hleaf, Hsoil, Hmoist, Hweather, Himage.
    cbn [nmul nadd]. rewrite clamp01_Fin. cbn [nmul Math_round].
    match goal with
    | |- Fin (IZR (Zfloor (clampR 0 1 ?t * 100 + 0.5))) = _ =>
        replace t with 0.441 by lra
    end.
    fold (percentZ 0.441). now rewrite percentZ_441. }
  split; [exact Hpercent |]. split.
  - change (Server.level out)
      with (Server.riskLevelFromPercent (Server.riskPercent out)).
    rewrite Hpercent. unfold Server.riskLevelFromPercent, nge.
    cbn [isFinite negb nle].
    rewrite (Rleb_false 70 44), (Rleb_true 35 44) by lra. reflexivity.
  - change (Server.tips out)
      with (Server.buildTips (Server.riskPercent out) (Server.doseScore b)
              (Server.residueFactor b) (Server.weatherScore b)
              (Server.imageStressScore b)).
    rewrite Hpercent, Hdose, Hres, Hweather, Himage.
    unfold Server.buildTips, nge, ngt. cbn [nle nlt].
    rewrite (Rleb_false 70 44), (Rleb_true 35 44), (Rltb_true 44 70),
      (Rltb_false 44 35), (Rltb_false 0.65 0.4), (Rltb_true 0.65 1),
      (Rltb_false 0.6 0.2), (Rltb_false 0.6 0.25) by lra.
    reflexivity.
Qed.

Lemma calculateRisk_fresh_inputs :
  calculateRisk fresh_inputs = Some (calculateRisk_body fresh_payload).
Proof.
  change (calculateRisk fresh_inputs)
    with (Some (calculateRisk_body fresh_inputs)).
  apply (f_equal Some). apply calculateRisk_body_groups; reflexivity.
Qed.

Lemma calculateRisk_fresh_tips :
  tips (calculateRisk_body fresh_payload) = [tip_recent].
Proof.
  destruct fresh_payload_result as (_ & _ & _ & _ & _ & _ & Hpercent & _).
  set (r := calculateRisk_body fresh_payload) in *.
  change (tips r)
    with (push_if (riskPercent r >=? Fin 61)%js tip_high
          ++ push_if (Fin 0 <? Fin 3)%js tip_recent
          ++ (if (Fin 1 >? Fin 0)%js
              then push_if (Fin 1 / Fin 1 >? Fin 1.05)%js tip_dose else [])
          ++ push_if (Fin 0 >=? Fin 80)%js tip_humidity
          ++ []).
  rewrite Hpercent. unfold nge, ngt. cbn [nle nlt ndiv].
  rewrite Reqb_false by lra. cbn [nlt].
  rewrite (Rleb_false 61 57), (Rltb_true 0 3), (Rltb_true 0 1),
    (Rleb_false 80 0) by lra.
  rewrite (Rltb_false 1.05 (1 / 1)) by lra.
  reflexivity.
Qed.

(** C1, at the request that posts the inputs of the end-to-end scenario:
    the endpoint answers with the output of its own [computeRisk]
    (riskPercent 44, three tips), where [calculateRisk] yields
    riskPercent 57 and one tip for the same inputs. *)
Theorem scan_relays_placeholder :
  exists out meta r,
    Server.scan fresh_request = Server.Scanned out meta
    /\ calculateRisk fresh_inputs = Some r
    /\ Server.riskPercent out = Fin 44
    /\ riskPercent r = Fin 57
    /\ Server.riskPercent out <> riskPercent r
    /\ Server.tips out
       = [Server.tip_moderate; Server.tip_recent; Server.tip_always]
    /\ tips r = [tip_recent]
    /\ Server.tips out <> tips r.
Proof.
  destruct computeRisk_fresh as (Hp & _ & Ht).
  destruct fresh_payload_result as (_ & _ & _ & _ & _ & _ & Hpercent & _).
  exists (Server.computeRisk fresh_inputs). eexists.
  exists (calculateRisk_body fresh_payload).
  split.
  - unfold fresh_request, fresh_inputs.
    apply scan_valid; [reflexivity | | reflexivity].
    unfold ngt. cbn. apply Rltb_true; lra.
  - split; [apply calculateRisk_fresh_inputs |].
    rewrite Hp, Hpercent, Ht, calculateRisk_fresh_tips.
    repeat split; try reflexivity.
    + intros H. injection H as H. lra.
    + discriminate.
Qed.

End EndpointProofs.

(** ** The leaf photo analyzer *)

Section VisionProofs.

Import LeafVision.

Lemma rgbToHsv_gray (c : Z) :
  rgbToHsv (of_Z c) (of_Z c) (of_Z c)
  = {| hsv_h := Fin 0; hsv_s := Fin 0; hsv_v := Fin (IZR c / 255) |}.
Proof.
  unfold rgbToHsv, of_Z. cbn [ndiv]. rewrite Reqb_false by lra.
  rewrite !Math_max_Fin, !Math_min_Fin.
  assert (Hmax : Rmax (Rmax (IZR c / 255) (IZR c / 255)) (IZR c / 255)
                 = IZR c / 255).
  { unfold Rmax. repeat destruct (Rle_dec _ _); lra. }
  assert (Hmin : Rmin (Rmin (IZR c / 255) (IZR c / 255)) (IZR c / 255)
                 = IZR c / 255).
  { unfold Rmin. repeat destruct (Rle_dec _ _); lra. }
  rewrite Hmax, Hmin. cbn [nsub nneg nadd neqb].
  rewrite (Reqb_true (IZR c / 255 + - (IZR c / 255)) 0) by lra.
  cbn [negb]. cbv zeta.
  f_equal.
  destruct (Req_dec_T (IZR c / 255) 0) as [H0 | H0].
  - now rewrite Reqb_true.
  - rewrite Reqb_false by assumption. cbn [ndiv].
    rewrite Reqb_false by assumption. f_equal.
    unfold Rdiv at 1. ring.
Qed.

Lemma colour_index (k : nat) :
  ((k * 4) mod 4 <> 3 /\ (k * 4 + 1) mod 4 <> 3 /\ (k * 4 + 2) mod 4 <> 3)%nat.
Proof.
  assert (H0 : ((k * 4) mod 4 = 0)%nat) by apply Nat.Div0.mod_mul.
  assert (H1 : ((k * 4 + 1) mod 4 = 1)%nat)
    by (rewrite Nat.add_comm, Nat.Div0.mod_add; reflexivity).
  assert (H2 : ((k * 4 + 2) mod 4 = 2)%nat)
    by (rewrite Nat.add_comm, Nat.Div0.mod_add; reflexivity).
  lia.
Qed.

(** A gray pixel is counted as low in saturation and as nothing else. *)
Lemma scan_pixel_gray (data : nat -> Z) (w h : nat) (edgeBand : num)
    (y x : nat) (st : Scan) (c : Z) (n : nat) :
  (forall i : nat, (i mod 4 <> 3)%nat -> data i = c) ->
  n = (y * w + x)%nat ->
  blank_scan (gray_lum c) n st ->
  blank_scan (gray_lum c) (S n) (scan_pixel data w h edgeBand y x st).
Proof.
  intros Hdata Hn (Hl & Hg & Hy & Hb & Hd & He & Hs & Hgray).
  destruct (colour_index (y * w + x)) as (I0 & I1 & I2).
  unfold scan_pixel. rewrite !Hdata by assumption.
  rewrite rgbToHsv_gray. cbn [hsv_h hsv_s hsv_v].
  unfold nge, ngt. cbn [nle nlt].
  rewrite (Rleb_false 55 0), (Rleb_false 70 0), (Rleb_false 35 0),
    (Rleb_false 10 0), (Rleb_true 0 0), (Rltb_true 0 10),
    (Rltb_false 0.16 0), (Rltb_true 0 0.08) by lra.
  cbn [andb orb]. rewrite andb_false_r.
  unfold blank_scan.
  cbn [leafLike green yellow brown darkSpot edgeBrown satLowCount gray
       incr_if].
  repeat split; try assumption; try congruence.
  intros k Hk. unfold store.
  destruct (Nat.eqb_spec k (y * w + x)) as [-> | Hne].
  - unfold of_Z, gray_lum. reflexivity.
  - apply Hgray. lia.
Qed.

(** A row of gray pixels, from column [x0] on. *)
Lemma scan_row_gray (data : nat -> Z) (w h : nat) (edgeBand : num)
    (y : nat) (c : Z) :
  (forall i : nat, (i mod 4 <> 3)%nat -> data i = c) ->
  forall (m x0 : nat) (st : Scan),
    blank_scan (gray_lum c) (y * w + x0) st ->
    blank_scan (gray_lum c) (y * w + x0 + m)
      (fold_left (fun st x => scan_pixel data w h edgeBand y x st)
         (seq x0 m) st).
Proof.
  intros Hdata. induction m as [| m IH]; intros x0 st Hst.
  - cbn. now rewrite Nat.add_0_r.
  - cbn [seq fold_left].
    replace (y * w + x0 + S m)%nat with (y * w + S x0 + m)%nat by lia.
    apply IH. replace (y * w + S x0)%nat with (S (y * w + x0)) by lia.
    now apply scan_pixel_gray.
Qed.

(** The rows from [y0] on. *)
Lemma scan_rows_gray (data : nat -> Z) (w h : nat) (edgeBand : num) (c : Z) :
  (forall i : nat, (i mod 4 <> 3)%nat -> data i = c) ->
  forall (m y0 : nat) (st : Scan),
    blank_scan (gray_lum c) (y0 * w) st ->
    blank_scan (gray_lum c) ((y0 + m) * w)
      (fold_left
         (fun st y =>
            fold_left (fun st x => scan_pixel data w h edgeBand y x st)
              (seq 0 w) st)
         (seq y0 m) st).
Proof.
  intros Hdata. induction m as [| m IH]; intros y0 st Hst.
  - cbn. now rewrite Nat.add_0_r.
  - cbn [seq fold_left].
    replace ((y0 + S m) * w)%nat with ((S y0 + m) * w)%nat by lia.
    apply IH. replace (S y0 * w)%nat with (y0 * w + 0 + w)%nat by lia.
    apply scan_row_gray; [assumption |].
    now rewrite Nat.add_0_r.
Qed.

Lemma scan_pixels_gray (data : nat -> Z) (w h : nat) (edgeBand : num) (c : Z) :
  (forall i : nat, (i mod 4 <> 3)%nat -> data i = c) ->
  blank_scan (gray_lum c) (h * w) (scan_pixels data w h edgeBand).
Proof.
  intros Hdata. unfold scan_pixels.
  apply (scan_rows_gray data w h edgeBand c Hdata h 0).
  unfold blank_scan. cbn. repeat split; try reflexivity.
  intros k Hk. lia.
Qed.

(** *** The Laplacian of a flat buffer *)

Lemma laplacian_step_flat (g : Float32Array) (w h : nat) (lum : R)
    (y x : nat) (acc : LapAcc) :
  (forall k : nat, (k < h * w)%nat -> g k = Fin lum) ->
  (1 <= y)%nat -> (y + 1 < h)%nat -> (1 <= x)%nat -> (x + 1 < w)%nat ->
  flat_acc acc -> flat_acc (laplacian_step g w y x acc).
Proof.
  intros Hg Hy1 Hy2 Hx1 Hx2 [Hs Hq].
  unfold laplacian_step, flat_acc. cbn [sum sumSq].
  rewrite !Hg by nia. rewrite Hs, Hq. cbn [nmul nadd nsub nneg].
  split; f_equal; ring.
Qed.

Lemma laplacian_row_flat (g : Float32Array) (w h : nat) (lum : R) (y : nat) :
  (forall k : nat, (k < h * w)%nat -> g k = Fin lum) ->
  (1 <= y)%nat -> (y + 1 < h)%nat ->
  forall (xs : list nat) (acc : LapAcc),
    Forall (fun x => (1 <= x)%nat /\ (x + 1 < w)%nat) xs ->
    flat_acc acc ->
    flat_acc (fold_left (fun acc x => laplacian_step g w y x acc) xs acc).
Proof.
  intros Hg Hy1 Hy2. induction xs as [| x xs IH]; intros acc Hxs Hacc.
  - exact Hacc.
  - inversion Hxs as [| ? ? [Hx1 Hx2] Hrest]; subst. cbn [fold_left].
    apply IH; [assumption |].
    now apply (laplacian_step_flat g w h lum).
Qed.

Lemma laplacian_rows_flat (g : Float32Array) (w h : nat) (lum : R)
    (xs : list nat) :
  (forall k : nat, (k < h * w)%nat -> g k = Fin lum) ->
  Forall (fun x => (1 <= x)%nat /\ (x + 1 < w)%nat) xs ->
  forall (ys : list nat) (acc : LapAcc),
    Forall (fun y => (1 <= y)%nat /\ (y + 1 < h)%nat) ys ->
    flat_acc acc ->
    flat_acc
      (fold_left
         (fun acc y =>
            fold_left (fun acc x => laplacian_step g w y x acc) xs acc)
         ys acc).
Proof.
  intros Hg Hxs. induction ys as [| y ys IH]; intros acc Hys Hacc.
  - exact Hacc.
  - inversion Hys as [| ? ? [Hy1 Hy2] Hrest]; subst. cbn [fold_left].
    apply IH; [assumption |].
    now apply (laplacian_row_flat g w h lum).
Qed.

Lemma interior_seq (n : nat) :
  Forall (fun i => (1 <= i)%nat /\ (i + 1 < n)%nat) (seq 1 (n - 2)).
Proof.
  apply Forall_forall. intros i Hi. apply in_seq in Hi. lia.
Qed.

Lemma Math_max_1_ne_0 (n : nat) :
  exists m : R, Math_max (Fin 1) (of_nat n) = Fin m /\ 1 <= m.
Proof.
  unfold of_nat. rewrite Math_max_Fin. eexists; split; [reflexivity |].
  apply Rmax_l.
Qed.

(** A buffer that holds one value has no detail. *)
Lemma laplacianVariance_flat (g : Float32Array) (w h : nat) (lum : R) :
  (forall k : nat, (k < h * w)%nat -> g k = Fin lum) ->
  laplacianVariance g w h = Fin 0.
Proof.
  intros Hg. unfold laplacianVariance.
  set (acc := fold_left _ _ _).
  assert (Hacc : flat_acc acc).
  { apply (laplacian_rows_flat g w h lum);
      [assumption | apply interior_seq | apply interior_seq |].
    split; reflexivity. }
  destruct Hacc as [Hs Hq]. cbv zeta. rewrite Hs, Hq.
  destruct (Math_max_1_ne_0 (count acc)) as (m & -> & Hm).
  cbn [ndiv]. rewrite Reqb_false by lra.
  cbn [nmul nsub nneg nadd]. f_equal. unfold Rdiv. ring.
Qed.

(** *** The analysis of a gray image *)

Lemma zero_ratio (m : R) : 1 <= m -> (of_nat 0 / Fin m)%js = Fin 0.
Proof.
  intros Hm. unfold of_nat. cbn [ndiv INR]. rewrite Reqb_false by lra.
  f_equal. unfold Rdiv. ring.
Qed.

Lemma getImageData_size (img : Image) (maxSide : num) :
  (1 <= id_w (getImageData img maxSide))%nat
  /\ (1 <= id_h (getImageData img maxSide))%nat.
Proof. unfold getImageData. cbn [id_w id_h]. lia. Qed.

Lemma toFixed_0 (digits : nat) : toFixed digits (Fin 0) = Fin 0.
Proof.
  unfold toFixed. cbv zeta.
  assert (Hp : 0 < 10 ^ digits) by (apply pow_lt; lra).
  replace (0 * 10 ^ digits) with 0 by ring.
  rewrite Rleb_true by lra.
  replace (Zfloor (0 + 0.5)) with 0%Z
    by (symmetry; apply Zfloor_eq; cbn; lra).
  f_equal. unfold Rdiv. ring.
Qed.

Lemma vclamp_Fin (x lo hi : R) :
  LeafVision.clamp (Fin x) (Fin lo) (Fin hi) = Fin (clampR lo hi x).
Proof.
  unfold LeafVision.clamp, clampR. now rewrite Math_max_Fin, Math_min_Fin.
Qed.

Lemma total_pixels (w h : nat) :
  (1 <= w)%nat -> (1 <= h)%nat ->
  Math_max (Fin 1) (of_nat w * of_nat h)%js = Fin (INR (h * w))
  /\ 1 <= INR (h * w).
Proof.
  intros Hw Hh.
  assert (H1 : 1 <= INR (h * w)).
  { apply (le_INR 1). nia. }
  split; [| exact H1].
  unfold of_nat. cbn [nmul]. rewrite Math_max_Fin. f_equal.
  rewrite mult_INR in *. rewrite Rmax_right; lra.
Qed.

Lemma full_ratio (m : R) : 1 <= m -> (Fin m / Fin m)%js = Fin 1.
Proof.
  intros Hm. cbn [ndiv]. rewrite Reqb_false by lra. f_equal. field. lra.
Qed.

Lemma is_empty_app {A : Type} (l l' : list A) :
  is_empty (l ++ l') = is_empty l && is_empty l'.
Proof. destruct l; reflexivity. Qed.

Lemma app_three {A : Type} (l : list A) (a b c : A) :
  ((l ++ [a]) ++ [b]) ++ [c] = l ++ [a; b; c].
Proof. now rewrite <- !app_assoc. Qed.

Lemma round_8 : Zfloor (0.08 * 100 + 0.5) = 8%Z.
Proof. apply Zfloor_eq. cbn. lra. Qed.

(** The whole answer for a gray image, whatever was noted about the file
    before it was read. *)
Lemma analyze_image_gray (f : File) (reasons0 : list Reason)
    (img : Image) (c : Z) :
  uniform_gray img c ->
  exists (pre : list Reason) (m : Metrics),
    analyze_image f default_opts reasons0 img
    = {| ok := false;
         reasons := pre ++ [LeafNotVisible; TooBlurry; LooksSynthetic];
         metrics := Some m;
         imageStress := Fin 8;
         symptoms := [] |}
    /\ m_leafCoverage m = Fin 0 /\ m_detail m = Fin 0
    /\ m_greenRatio m = Fin 0 /\ m_yellowRatio m = Fin 0
    /\ m_brownRatio m = Fin 0 /\ m_darkSpotRatio m = Fin 0
    /\ m_edgeBurnRatio m = Fin 0.
Proof.
  intros Hu. unfold analyze_image.
  set (idata := getImageData img (Fin 360)).
  destruct (getImageData_size img (Fin 360)) as [Hw Hh].
  fold idata in Hw, Hh.
  cbv zeta.
  set (w := id_w idata) in *. set (h := id_h idata) in *.
  set (st := scan_pixels _ _ _ _).
  assert (Hst : blank_scan (gray_lum c) (h * w) st).
  { apply scan_pixels_gray. intros i Hi. apply (Hu w h i Hi). }
  destruct Hst as (Hl & Hg & Hy & Hb & Hd & He & Hs & Hgray).
  rewrite Hl, Hg, Hy, Hb, Hd, He, Hs.
  rewrite (laplacianVariance_flat (gray st) w h (gray_lum c) Hgray).
  destruct (total_pixels w h Hw Hh) as [-> Htot].
  destruct (Math_max_1_ne_0 (edgeTotal st)) as (me & -> & Hme).
  rewrite !zero_ratio by assumption.
  change (of_nat (h * w)) with (Fin (INR (h * w))).
  rewrite full_ratio by assumption.
  rewrite !toFixed_0.
  cbn [minLeafCoverage minDetail default_opts nmul nadd nsub nneg].
  unfold ngt. cbn [nlt].
  rewrite (Rltb_true 0 0.18), (Rltb_true 0 35), (Rltb_true 0.65 1),
    (Rltb_true 0 (35 * 1.6)) by lra.
  rewrite vclamp_Fin.
  rewrite (clampR_id 0 1 (1.8 * 0 + 2.2 * 0 + 1.6 * 0 + 1.8 * 0 + - (0.8 * 0)))
    by lra.
  cbn [nadd]. rewrite vclamp_Fin.
  replace (1.8 * 0 + 2.2 * 0 + 1.6 * 0 + 1.8 * 0 + - (0.8 * 0) + 0.08)
    with 0.08 by lra.
  rewrite clampR_id by lra.
  cbn [nmul Math_round]. rewrite round_8.
  rewrite (Rltb_false 0.08 0), (Rltb_false 0.05 0), (Rltb_false 0.03 0),
    (Rltb_false 0.20 0) by lra.
  cbn [andb push_if app is_empty].
  eexists. eexists. split.
  - f_equal.
    + rewrite !is_empty_app. cbn [is_empty]. now rewrite !andb_false_r.
    + apply app_three.
  - cbn. repeat split; reflexivity.
Qed.

Section AnalyzerProofs.

Variable decode : File -> option Image.

(** C7. When the image cannot be decoded the analyzer does not raise: it
    answers with [ok = false], the single reason that the image could not
    be read, no symptom, and the neutral stress 50, which is not 0. *)
Theorem unreadable_image_is_neutral (file : option File) (opts : Opts) :
  loadImageFromFile decode file = None ->
  let res := analyzeLeafPhoto decode file opts in
  ok res = false
  /\ reasons res = [Unreadable]
  /\ symptoms res = []
  /\ imageStress res = Fin 50
  /\ imageStress res <> Fin 0.
Proof.
  intros Hload res.
  assert (Hres : res = unreadable).
  { unfold res, analyzeLeafPhoto.
    destruct file as [f |]; [| reflexivity].
    cbn [loadImageFromFile] in Hload |- *. now rewrite Hload. }
  rewrite Hres. cbn. repeat split.
  intros H. injection H as H. lra.
Qed.

(** C8. For a uniform gray image the analyzer finds no detail and no
    leaf (detail variance 0, leaf coverage 0, every colour ratio 0); it
    answers [ok = false] with the no-leaf and the low-detail reasons; no
    symptom is reported, and the stress is 8 = round(0.08 * 100): the raw
    score is 0 and only the low-detail penalty remains. *)
Theorem uniform_gray_rejected (f : File) (img : Image) (c : Z) :
  decode f = Some img ->
  uniform_gray img c ->
  let res := analyzeLeafPhoto decode (Some f) default_opts in
  ok res = false
  /\ In LeafNotVisible (reasons res)
  /\ In TooBlurry (reasons res)
  /\ (exists m, metrics res = Some m
                /\ m_detail m = Fin 0 /\ m_leafCoverage m = Fin 0
                /\ m_yellowRatio m = Fin 0 /\ m_brownRatio m = Fin 0
                /\ m_darkSpotRatio m = Fin 0 /\ m_edgeBurnRatio m = Fin 0
                /\ m_greenRatio m = Fin 0)
  /\ imageStress res = Fin 8
  /\ symptoms res = [].
Proof.
  intros Hdec Hu res.
  unfold res, analyzeLeafPhoto. cbn [loadImageFromFile]. rewrite Hdec.
  match goal with
  | |- context [analyze_image f default_opts ?r0 img] =>
      destruct (analyze_image_gray f r0 img c Hu)
        as (pre & m & -> & Hcov & Hdet & Hgr & Hye & Hbr & Hda & Hed)
  end.
  cbn [ok reasons metrics imageStress symptoms].
  repeat split.
  - apply in_or_app. right. cbn. auto.
  - apply in_or_app. right. cbn. auto.
  - exists m. repeat split; assumption.
Qed.

End AnalyzerProofs.

End VisionProofs.
(** * Further properties of the scoring engine *)

Section RiskExtras.

Context {host : Host}.

Lemma in_range_clamp (n : num) (lo hi : R) :
  lo <= hi -> in_range (clamp n (Fin lo) (Fin hi)) lo hi.
Proof. intros H. now apply clamp_range. Qed.

Lemma in_range_const (c lo hi : R) : lo <= c <= hi -> in_range (Fin c) lo hi.
Proof. intros H. exists c. now split. Qed.

Lemma doseScore_range (applied rec : value) :
  in_range (doseScore applied rec) 0 1.
Proof.
  unfold doseScore. destruct (_ <=? _)%js.
  - apply in_range_const. lra.
  - apply in_range_clamp. lra.
Qed.

Lemma decayScore_range (days halfLife : value) :
  in_range (decayScore days halfLife) 0 1.
Proof.
  unfold decayScore. destruct (_ <=? _)%js; apply in_range_clamp; lra.
Qed.

Lemma phScore_range (leafPh soilPh : value) :
  in_range (phScore leafPh soilPh) 0 1.
Proof.
  unfold phScore. destruct (_ && _).
  - apply in_range_const. lra.
  - apply in_range_clamp. lra.
Qed.

Lemma moistureScore_range (moisture : value) :
  in_range (moistureScore moisture) 0 1.
Proof.
  unfold moistureScore. destruct (negb _).
  - apply in_range_const. lra.
  - apply in_range_clamp. lra.
Qed.

Lemma weatherScore_range (weather : value) :
  in_range (weatherScore weather) 0 1.
Proof. unfold weatherScore. apply in_range_clamp. lra. Qed.

(** X1. Every number of the breakdown is finite and within its
    documented range, whatever the payload holds: the five sub-scores,
    the base and the total in [0,1], the AI contribution in [0, 0.25]. *)
Theorem breakdown_in_range (payload : value) :
  payload <> VNull ->
  exists r, calculateRisk payload = Some r
    /\ in_range (bd_doseScore (breakdown r)) 0 1
    /\ in_range (bd_decayScore (breakdown r)) 0 1
    /\ in_range (bd_weatherScore (breakdown r)) 0 1
    /\ in_range (bd_moistureScore (breakdown r)) 0 1
    /\ in_range (bd_phScore (breakdown r)) 0 1
    /\ in_range (bd_aiContribution (breakdown r)) 0 0.25
    /\ in_range (bd_baseScore (breakdown r)) 0 1
    /\ in_range (bd_totalScore (breakdown r)) 0 1.
Proof.
  intros Hn. eexists. split; [now apply calculateRisk_some |].
  set (p := match payload with VUndef => VObj [] | p => p end).
  repeat split.
  - apply doseScore_range.
  - apply decayScore_range.
  - apply weatherScore_range.
  - apply moistureScore_range.
  - apply phScore_range.
  - apply computeAiContribution_range.
  - unfold calculateRisk_body. cbn [breakdown bd_baseScore].
    apply in_range_clamp. lra.
  - unfold calculateRisk_body. cbn [breakdown bd_totalScore].
    apply in_range_clamp. lra.
Qed.

Lemma Rleb_IZR (a b : Z) : Rleb (IZR a) (IZR b) = (a <=? b)%Z.
Proof.
  destruct (Z.leb_spec a b) as [H | H].
  - apply Rleb_true. now apply IZR_le.
  - apply Rleb_false. now apply IZR_lt.
Qed.

Lemma Rltb_IZR (a b : Z) : Rltb (IZR a) (IZR b) = (a <? b)%Z.
Proof.
  destruct (Z.ltb_spec a b) as [H | H].
  - apply Rltb_true. now apply IZR_lt.
  - apply Rltb_false. now apply IZR_le.
Qed.

Lemma labelFromPercent_IZR (q : Z) :
  labelFromPercent (Fin (IZR q)) = level_of_percent q.
Proof.
  unfold labelFromPercent, level_of_percent, clampNum.
  cbn [Number isFinite nle]. now rewrite !Rleb_IZR.
Qed.

(** X2. The percentage of every result is an integer from 0 to 100, and
    the level is Low exactly up to 30, Medium from 31 to 60 and High from
    61 on. *)
Theorem percent_and_level (payload : value) :
  payload <> VNull ->
  exists (r : RiskAssessment) (q : Z),
    calculateRisk payload = Some r
    /\ riskPercent r = Fin (IZR q)
    /\ (0 <= q <= 100)%Z
    /\ level r = level_of_percent q
    /\ (level r = "Low"%string <-> (q <= 30)%Z)
    /\ (level r = "Medium"%string <-> (31 <= q <= 60)%Z)
    /\ (level r = "High"%string <-> (61 <= q)%Z).
Proof.
  intros Hn.
  set (p := match payload with VUndef => VObj [] | p => p end).
  destruct (riskPercent_shape p) as (t & q & _ & _ & Hq & Hqp & _ & _).
  pose proof (percentZ_range t) as Hp.
  exists (calculateRisk_body p), q.
  split; [now apply calculateRisk_some |].
  assert (Hlevel : level (calculateRisk_body p) = level_of_percent q).
  { change (level (calculateRisk_body p))
      with (labelFromPercent (riskPercent (calculateRisk_body p))).
    rewrite Hq. apply labelFromPercent_IZR. }
  split; [exact Hq |]. split; [lia |]. split; [exact Hlevel |].
  rewrite Hlevel. unfold level_of_percent.
  destruct (Z.leb_spec q 30), (Z.leb_spec q 60);
    repeat split; intros; try lia; try discriminate; try reflexivity.
Qed.

(** X3. The sanity rules only lower: the final percentage never exceeds
    the rounded fused total round(100 * clamp(base + aiContribution)). *)
Theorem sanity_rules_only_lower (payload : value) :
  payload <> VNull ->
  exists r, calculateRisk payload = Some r
    /\ num_le (riskPercent r)
         (pct (clamp (bd_baseScore (breakdown r)
                      + bd_aiContribution (breakdown r))%js (Fin 0) (Fin 1))).
Proof.
  intros Hn. eexists. split; [now apply calculateRisk_some |].
  set (p := match payload with VUndef => VObj [] | p => p end).
  destruct (riskPercent_shape p) as (t & q & Ht & _ & Hq & Hqp & _ & _).
  cbv zeta in Ht, Hq. rewrite Ht, Hq, pct_Fin.
  exists (IZR q), (IZR (percentZ t)). repeat split. apply IZR_le. lia.
Qed.

(** The AI contribution is at most a quarter of the time factor. *)
Lemma computeAiContribution_le_time (stressScore confidence days : value) :
  exists tf : R,
    timeFactor days = Fin tf /\ 0 <= tf <= 1
    /\ in_range (computeAiContribution stressScore confidence days)
         0 (0.25 * tf).
Proof.
  destruct (timeFactor_range days) as (tf & Htf & Hr).
  exists tf. split; [exact Htf |]. split; [exact Hr |].
  unfold computeAiContribution.
  destruct (nullish stressScore); [apply in_range_const; lra |].
  destruct (clamp_range (vdiv stressScore (Fin 100)) 0 1) as (st & -> & Hst);
    [lra |].
  destruct (confFactor_range
              match confidence with VUndef => VNum (Fin 50) | c => c end)
    as (cf & -> & Hcf).
  rewrite Htf, softenedStress_Fin. cbn [nmul]. rewrite Math_min_Fin.
  eexists; split; [reflexivity |].
  pose proof (soften_spec_range st Hst) as Hs.
  assert (0 <= soften_spec st * cf) by (apply Rmult_le_pos; lra).
  assert (soften_spec st * cf <= 1) by nra.
  assert (0 <= soften_spec st * cf * tf) by (apply Rmult_le_pos; lra).
  assert (soften_spec st * cf * tf <= tf) by nra.
  unfold Rmin. destruct (Rle_dec _ _); lra.
Qed.

(** X4. The first sanity rule never changes a percentage: it asks for
    20 days or more since the spray together with an AI contribution
    above 0.15, and from 14 days on the time factor 0.4 keeps the
    contribution at or below 0.10. *)
Theorem sanity1_never_fires (stressScore confidence days : value)
    (riskPercent : num) :
  sanity1 (clampNum days (Fin 0))
    (computeAiContribution stressScore confidence days) riskPercent
  = riskPercent.
Proof.
  unfold sanity1.
  destruct (computeAiContribution_le_time stressScore confidence days)
    as (tf & Htf & _ & a & -> & Ha).
  unfold timeFactor in Htf.
  destruct (clampNum_Fin days 0) as [d Hd]. rewrite Hd in *.
  unfold nge, ngt in *. cbn [nle nlt] in *.
  destruct (Rle_lt_dec 20 d) as [H20 | H20].
  - rewrite (Rleb_true 14 d) in Htf by lra. injection Htf as <-.
    rewrite (Rltb_false 0.15 a) by lra. now rewrite andb_false_r.
  - rewrite Rleb_false by assumption. reflexivity.
Qed.

(** X5. The AI contribution fades with time: it is at most 0.1625 from
    7 days after the spray on, and at most 0.10 from 14 days on,
    whatever the stress and the confidence are. *)
Theorem aiContribution_fades (stressScore confidence : value) (d : R) :
  (7 <= d ->
   in_range
     (computeAiContribution stressScore confidence (VNum (Fin d))) 0 0.1625)
  /\ (14 <= d ->
      in_range
        (computeAiContribution stressScore confidence (VNum (Fin d))) 0 0.10).
Proof.
  destruct (computeAiContribution_le_time stressScore confidence
              (VNum (Fin d))) as (tf & Htf & _ & a & Ha & Hr).
  rewrite timeFactor_num in Htf. injection Htf as <-.
  unfold timeFactor_spec in Hr.
  split; intros Hd; exists a; (split; [exact Ha |]);
    destruct (Rlt_dec d 7), (Rlt_dec d 14); lra.
Qed.

Lemma in_push_if (c : bool) (t x : string) :
  In x (push_if c t) <-> c = true /\ x = t.
Proof.
  destruct c; cbn; split.
  - intros [H | []]. now split.
  - intros [_ ->]. now left.
  - intros [].
  - intros [H _]. discriminate.
Qed.

(** The tips after the first one are never the high-risk tip. *)
Lemma tips_shape (payload : value) :
  exists rest : list string,
    tips (calculateRisk_body payload)
    = push_if (riskPercent (calculateRisk_body payload) >=? Fin 61)%js
        tip_high ++ rest
    /\ ~ In tip_high rest.
Proof.
  eexists. split; [reflexivity |].
  intros H.
  repeat (apply in_app_or in H; destruct H as [H | H]);
    repeat match type of H with
    | In _ (if ?c then _ else _) => destruct c
    end;
    try (apply in_push_if in H; destruct H as [_ E]; discriminate E);
    try contradiction.
Qed.

(** X6. The high-risk tip is given exactly when the level is High. *)
Theorem high_tip_iff_high_level (payload : value) :
  payload <> VNull ->
  exists r, calculateRisk payload = Some r
    /\ (In tip_high (tips r) <-> level r = "High"%string).
Proof.
  intros Hn. eexists. split; [now apply calculateRisk_some |].
  set (p := match payload with VUndef => VObj [] | p => p end).
  destruct (riskPercent_shape p) as (t & q & _ & _ & Hq & _ & _ & _).
  destruct (tips_shape p) as (rest & -> & Hrest).
  change (level (calculateRisk_body p))
    with (labelFromPercent (riskPercent (calculateRisk_body p))).
  cbv zeta in Hq. rewrite Hq, labelFromPercent_IZR.
  unfold nge. cbn [nle]. rewrite (Rleb_IZR 61 q).
  unfold level_of_percent.
  destruct (Z.leb_spec 61 q), (Z.leb_spec q 30), (Z.leb_spec q 60);
    try lia; cbn [push_if app]; split; intros Hin;
    try discriminate; try contradiction; try reflexivity;
    try (now left).
Qed.

(** ** Monotonicity of the sub-scores *)

Lemma num_le_Fin (a b : R) : a <= b -> num_le (Fin a) (Fin b).
Proof. intros H. exists a, b. now repeat split. Qed.

Lemma clampR_monotone (lo hi x y : R) :
  x <= y -> clampR lo hi x <= clampR lo hi y.
Proof.
  intros H. unfold clampR, Rmin, Rmax.
  repeat destruct (Rle_dec _ _); lra.
Qed.

Lemma exp_le (x y : R) : x <= y -> exp x <= exp y.
Proof.
  intros [H | ->]; [left; now apply exp_increasing | right; reflexivity].
Qed.

Lemma tanh_le (x y : R) : x <= y -> tanh x <= tanh y.
Proof.
  intros Hxy. rewrite !tanh_split.
  pose proof (exp_pos x) as HA. pose proof (exp_pos (- x)) as Ha.
  pose proof (exp_pos y) as HB. pose proof (exp_pos (- y)) as Hb.
  assert (HAB : exp x <= exp y) by now apply exp_le.
  assert (Hba : exp (- y) <= exp (- x)) by (apply exp_le; lra).
  set (A := exp x) in *. set (a := exp (- x)) in *.
  set (B := exp y) in *. set (b := exp (- y)) in *.
  assert (Hq : 0 < / (A + a)) by (apply Rinv_0_lt_compat; lra).
  assert (Hp : 0 < / (B + b)) by (apply Rinv_0_lt_compat; lra).
  assert (Hq1 : (A + a) * / (A + a) = 1) by (apply Rinv_r; lra).
  assert (Hp1 : (B + b) * / (B + b) = 1) by (apply Rinv_r; lra).
  set (q := / (A + a)) in *. set (p := / (B + b)) in *.
  assert (Hb' : b * p = (b * A + b * a) * (p * q)).
  { transitivity (b * p * ((A + a) * q)); [rewrite Hq1 | ]; ring. }
  assert (Ha' : a * q = (a * B + a * b) * (p * q)).
  { transitivity (a * q * ((B + b) * p)); [rewrite Hp1 | ]; ring. }
  assert (Hpq : 0 < p * q) by now apply Rmult_lt_0_compat.
  assert (Hcross : b * A <= a * B).
  { apply Rle_trans with (a * A).
    - apply Rmult_le_compat_r; lra.
    - apply Rmult_le_compat_l; lra. }
  assert (b * p <= a * q).
  { rewrite Hb', Ha'. apply Rmult_le_compat_r; lra. }
  lra.
Qed.

(** X7. A larger applied dose never lowers the dose score. *)
Theorem doseScore_monotone (applied1 applied2 rec : R) :
  applied1 <= applied2 ->
  num_le (doseScore (VNum (Fin applied1)) (VNum (Fin rec)))
         (doseScore (VNum (Fin applied2)) (VNum (Fin rec))).
Proof.
  intros Hle.
  destruct (Rle_lt_dec rec 0) as [Hr | Hr].
  - rewrite !doseScore_no_recommendation by assumption.
    apply num_le_Fin. lra.
  - assert (Hi : 0 < / rec) by now apply Rinv_0_lt_compat.
    assert (Hratio : applied1 / rec <= applied2 / rec)
      by (unfold Rdiv; apply Rmult_le_compat_r; lra).
    set (r1 := applied1 / rec) in *. set (r2 := applied2 / rec) in *.
    destruct (Rle_lt_dec r1 0) as [H10 | H10];
      [rewrite (doseScore_zero_ratio applied1 rec) by assumption |
       destruct (Rle_lt_dec r1 1) as [H11 | H11];
       [rewrite (doseScore_low applied1 rec) by (fold r1; lra) |
        rewrite (doseScore_high applied1 rec) by assumption]];
    (destruct (Rle_lt_dec r2 0) as [H20 | H20];
      [rewrite (doseScore_zero_ratio applied2 rec) by assumption |
       destruct (Rle_lt_dec r2 1) as [H21 | H21];
       [rewrite (doseScore_low applied2 rec) by (fold r2; lra) |
        rewrite (doseScore_high applied2 rec) by assumption]]);
    fold r1 r2; apply num_le_Fin; unfold dose_low_spec;
    try pose proof (dose_high_spec_range r1);
    try pose proof (dose_high_spec_range r2);
    try lra.
    unfold dose_high_spec.
    assert (tanh (1.2 * (r1 - 1)) <= tanh (1.2 * (r2 - 1)))
      by (apply tanh_le; lra).
    lra.
Qed.


Lemma moistureScore_num (m : R) :
  moistureScore (VNum (Fin m)) = Fin (0.25 + 0.55 * clampR 0 1 (m / 100)).
Proof.
  unfold moistureScore, clampNum. cbn [Number isFinite negb ndiv].
  rewrite Reqb_false by lra. rewrite clamp_Fin by lra.
  cbn [nmul nadd]. rewrite clamp_Fin by lra. f_equal.
  pose proof (clampR_range 0 1 (m / 100)). apply clampR_id. lra.
Qed.

(** X9. For a numeric moisture the score is 0.25 + 0.55 * clamp(m/100),
    between 0.25 and 0.80, and never falls when the moisture rises. *)
Theorem moistureScore_monotone (m1 m2 : R) :
  moistureScore (VNum (Fin m1)) = Fin (0.25 + 0.55 * clampR 0 1 (m1 / 100))
  /\ in_range (moistureScore (VNum (Fin m1))) 0.25 0.80
  /\ (m1 <= m2 ->
      num_le (moistureScore (VNum (Fin m1))) (moistureScore (VNum (Fin m2)))).
Proof.
  rewrite !moistureScore_num.
  pose proof (clampR_range 0 1 (m1 / 100)).
  split; [reflexivity |]. split.
  - apply in_range_const. lra.
  - intros Hm. apply num_le_Fin.
    assert (clampR 0 1 (m1 / 100) <= clampR 0 1 (m2 / 100))
      by (apply clampR_monotone; lra).
    lra.
Qed.

(** ** The AI contribution *)

Lemma soften_spec_monotone (x y : R) :
  0 <= x -> x <= y -> soften_spec x <= soften_spec y.
Proof.
  intros H0 Hxy. unfold soften_spec.
  repeat destruct (Rlt_dec _ _); lra.
Qed.

Lemma timeFactor_spec_range (d : R) : 0.4 <= timeFactor_spec d <= 1.
Proof.
  unfold timeFactor_spec. repeat destruct (Rlt_dec _ _); lra.
Qed.

(** X10. A higher stress score never lowers the AI contribution, the
    confidence and the days being the same. *)
Theorem aiContribution_monotone (s1 s2 c d : R) :
  s1 <= s2 ->
  num_le (computeAiContribution (VNum (Fin s1)) (VNum (Fin c)) (VNum (Fin d)))
         (computeAiContribution (VNum (Fin s2)) (VNum (Fin c)) (VNum (Fin d))).
Proof.
  intros Hs. rewrite !computeAiContribution_num. apply num_le_Fin.
  unfold aiContribution_spec.
  pose proof (clampR_range 0 1 (s1 / 100)) as H1.
  pose proof (clampR_range 0.3 1 (c / 100)) as Hc.
  pose proof (timeFactor_spec_range d) as Ht.
  assert (Hst : clampR 0 1 (s1 / 100) <= clampR 0 1 (s2 / 100))
    by (apply clampR_monotone; lra).
  assert (Hsoft : soften_spec (clampR 0 1 (s1 / 100))
                  <= soften_spec (clampR 0 1 (s2 / 100)))
    by (apply soften_spec_monotone; lra).
  apply Rle_min_compat_r.
  repeat apply Rmult_le_compat_r; lra.
Qed.

(** X11. The AI is never fully silenced: a stress score of 1 or more
    gives a contribution of at least 0.0002, whatever the confidence and
    the days since the spray are (confidence 0, absent or not a number
    included), among the values that convert without a TypeError. *)
Theorem aiContribution_positive (s : R) (confidence days : value) :
  1 <= s ->
  conversion_throws confidence = false ->
  conversion_throws days = false ->
  exists a : R,
    computeAiContribution (VNum (Fin s)) confidence days = Fin a
    /\ 0.0002 <= a.
Proof.
  intros Hs _ _. unfold computeAiContribution. cbn [nullish].
  rewrite vdiv_num by lra. rewrite clamp_Fin by lra.
  destruct (confFactor_range
              match confidence with VUndef => VNum (Fin 50) | c => c end)
    as (cf & -> & Hcf).
  assert (Htf : exists tf, timeFactor days = Fin tf /\ 0.4 <= tf <= 1).
  { unfold timeFactor. destruct (clampNum_Fin days 0) as [x ->].
    unfold nge. cbn [nle].
    destruct (Rleb 14 x); [exists 0.4; split; [reflexivity | lra] |].
    destruct (Rleb 7 x); [exists 0.65 | exists 1];
      (split; [reflexivity | lra]). }
  destruct Htf as (tf & -> & Htf).
  rewrite softenedStress_Fin. cbn [nmul]. rewrite Math_min_Fin.
  eexists; split; [reflexivity |].
  assert (Hst : 0.01 <= clampR 0 1 (s / 100)).
  { unfold clampR, Rmin, Rmax. repeat destruct (Rle_dec _ _); lra. }
  assert (Hsoft : 0.007 <= soften_spec (clampR 0 1 (s / 100))).
  { unfold soften_spec. repeat destruct (Rlt_dec _ _); lra. }
  assert (0.0021 <= soften_spec (clampR 0 1 (s / 100)) * cf) by nra.
  assert (0.00084 <= soften_spec (clampR 0 1 (s / 100)) * cf * tf) by nra.
  unfold Rmin. destruct (Rle_dec _ _); lra.
Qed.

Lemma percentZ_monotone (x y : R) : x <= y -> (percentZ x <= percentZ y)%Z.
Proof.
  intros H. unfold percentZ. apply Zfloor_le.
  pose proof (clampR_monotone 0 1 x y H). lra.
Qed.



(** ** weatherScore and phScore *)

Lemma get_default (weather : value) (k : string) :
  get match weather with VUndef => VObj [] | w => w end k = get weather k.
Proof. now destruct weather. Qed.

(** X13. When the rainfall is absent or not negative, the weather score
    lies between 0.089 and 0.711, whatever the other fields hold: its
    least value is 0.35 - 0.06 - 0.20 and its greatest one
    0.35 + 0.12 + 0.18 + 0.06, each up to the rounding of the sums.  The
    weather group is one on which no conversion throws. *)
Theorem weatherScore_bounds (weather : value) :
  no_own_toString weather = true ->
  (forall r : R, rainfall_of weather = Fin r -> 0 <= r) ->
  in_range (weatherScore weather) 0.089 0.711.
Proof.
  intros _. unfold rainfall_of, weatherScore. rewrite !get_default. cbv zeta.
  set (t := clampNum (get weather "tempC" ?? _ ?? _) NaN).
  set (hu := clampNum (get weather "humidity" ?? _) NaN).
  set (ra := clampNum (get weather "rainfallMm" ?? _ ?? _) NaN).
  set (wi := clampNum (get weather "windKph" ?? _ ?? _) NaN).
  clearbody t hu ra wi. intros Hrain.
  assert (Hwash : forall rx, ra = Fin rx -> 0 <= Rmin (rx / 20) 1 <= 1).
  { intros rx E. specialize (Hrain rx E).
    unfold Rmin. destruct (Rle_dec _ _); lra. }
  destruct t as [x | | |], hu as [hx | | |], ra as [rx | | |],
    wi as [wx | | |];
    cbn [isFinite];
    try pose proof (Hwash rx eq_refl);
    try pose proof (clampR_range 0 1 (hx / 100));
    try pose proof (clampR_range 0 1 (wx / 35));
    unfold nge, ngt; cbn [nle nlt ndiv];
    rewrite ?(Reqb_false 100 0), ?(Reqb_false 20 0), ?(Reqb_false 35 0)
      by lra;
    cmp; cbn [nadd nsub nneg nmul];
    rewrite ?clamp_Fin by lra; cbn [nadd nsub nneg nmul];
    rewrite ?Math_min_Fin; cbn [nadd nsub nneg nmul];
    rewrite ?clamp_Fin by lra; cbn [nadd nsub nneg nmul];
    rewrite ?clamp_Fin by lra;
    apply in_range_const; rewrite clampR_id; lra.
Qed.

Lemma ph_distance_range (x : R) : 0 <= Rmin (Rabs (x + - (7)) / 3) 1 <= 1.
Proof.
  pose proof (Rabs_pos (x + - (7))).
  unfold Rmin. destruct (Rle_dec _ _); lra.
Qed.

(** X14. The pH score lies between 0.2 and 0.8 for every pair of
    values; it is 0.2 when both are exactly 7, and it is the same for a
    leaf pH of 7 + e as for 7 - e. *)
Theorem phScore_bounds (leafPh soilPh : value) :
  in_range (phScore leafPh soilPh) 0.2 0.8
  /\ phScore (VNum (Fin 7)) (VNum (Fin 7)) = Fin 0.2
  /\ (forall e : R,
        phScore (VNum (Fin (7 + e))) soilPh
        = phScore (VNum (Fin (7 - e))) soilPh).
Proof.
  split; [| split].
  - unfold phScore.
    set (lp := clampNum leafPh NaN). set (sp := clampNum soilPh NaN).
    clearbody lp sp.
    destruct lp as [x | | |], sp as [y | | |];
      cbn [isFinite negb andb];
      try (apply in_range_const; lra);
      try pose proof (ph_distance_range x);
      try pose proof (ph_distance_range y);
      cbn [nsub nneg nadd Math_abs ndiv];
      rewrite ?(Reqb_false 3 0) by lra;
      rewrite ?Math_min_Fin; cbn [nmul nadd];
      rewrite clamp_Fin by lra;
      apply in_range_const; rewrite clampR_id; lra.
  - unfold phScore, clampNum.
    cbn [Number isFinite negb andb nsub nneg nadd Math_abs ndiv].
    rewrite (Reqb_false 3 0) by lra. rewrite Math_min_Fin. cbn [nmul nadd].
    rewrite clamp_Fin by lra. f_equal.
    replace (7 + - (7)) with 0 by ring. rewrite Rabs_R0.
    replace (0 / 3) with 0 by field. rewrite Rmin_left by lra.
    rewrite clampR_id; lra.
  - intros e. unfold phScore, clampNum.
    cbn [Number isFinite negb andb nsub nneg nadd Math_abs].
    replace (7 + e + - (7)) with e by ring.
    replace (7 - e + - (7)) with (- e) by ring.
    now rewrite Rabs_Ropp.
Qed.

(** ** The payload *)

(** X15. A flat payload, one without an [inputs] group, is scored like
    the payload that holds the same fields under [inputs] and the same
    [weather] and [ai] groups. *)
Theorem flat_payload_as_inputs (fields : list (string * value)) :
  truthy (lookup "inputs" fields) = false ->
  calculateRisk (VObj fields)
  = calculateRisk
      (VObj [("inputs"%string, VObj fields);
             ("weather"%string, lookup "weather" fields);
             ("ai"%string, lookup "ai" fields)]).
Proof.
  intros Hin.
  change (Some (calculateRisk_body (VObj fields))
          = Some (calculateRisk_body
                    (VObj [("inputs"%string, VObj fields);
                           ("weather"%string, lookup "weather" fields);
                           ("ai"%string, lookup "ai" fields)]))).
  f_equal. apply calculateRisk_body_groups.
  - unfold inputs_of, or_else. cbn [get lookup String.eqb Ascii.eqb Bool.eqb].
    rewrite Hin. reflexivity.
  - reflexivity.
  - reflexivity.
Qed.

(** X16. Fields that are absent or do not read as a finite number fall
    back: no recommended dose gives dose score 0, no half-life gives decay
    score 0.5, no moisture gives 0.35, no pH on either axis gives 0.25.
    The values are those that convert to a number without a TypeError. *)
Theorem missing_fields_fall_back (v : value) :
  conversion_throws v = false ->
  isFinite (Number v) = false ->
  (forall applied : value,
     conversion_throws applied = false -> doseScore applied v = Fin 0)
  /\ (forall days : value,
        conversion_throws days = false -> decayScore days v = Fin 0.5)
  /\ moistureScore v = Fin 0.35
  /\ phScore v v = Fin 0.25.
Proof.
  intros _ Hv.
  assert (H0 : clampNum v (Fin 0) = Fin 0) by (unfold clampNum; now rewrite Hv).
  assert (Hn : clampNum v NaN = NaN) by (unfold clampNum; now rewrite Hv).
  repeat split.
  - intros applied _. unfold doseScore. rewrite H0. cbn [nle].
    now rewrite Rleb_true by lra.
  - intros days _. unfold decayScore. rewrite H0. cbn [nle].
    rewrite Rleb_true by lra. rewrite clamp_Fin by lra.
    f_equal. apply clampR_id. lra.
  - unfold moistureScore. now rewrite Hn.
  - unfold phScore. now rewrite Hn.
Qed.

End RiskExtras.

(** * Further properties of the scan endpoint *)

Section EndpointExtras.

Context {host : Host}.

(** What a scan result says about its request. *)
Lemma scan_scanned (req : Server.Request) (out : Server.Result)
    (meta : Server.Meta) :
  Server.scan req = Server.Scanned out meta ->
  exists f inputs,
    Server.file req = Some f
    /\ String.prefix "image/" (Server.mimetype f) = true
    /\ truthy (Server.body_inputs req) = true
    /\ parsed_inputs (Server.body_inputs req) = Some inputs
    /\ (Server.toNumber (getq inputs "recommendedDose") >? Fin 0)%js = true
    /\ Server.computeRisk_throws inputs = false
    /\ out = Server.computeRisk inputs.
Proof.
  destruct req as [file body]. unfold Server.scan.
  cbn [Server.file Server.body_inputs].
  intros H.
  destruct file as [f |]; [| discriminate].
  destruct (String.prefix "image/" (Server.mimetype f)) eqn:Hm;
    cbn [negb] in H; [| discriminate].
  destruct (truthy body) eqn:Ht; cbn [negb] in H; [| discriminate].
  assert (Hs : forall inputs,
             Server.scan_inputs f inputs = Server.Scanned out meta ->
             (Server.toNumber (getq inputs "recommendedDose") >? Fin 0)%js
             = true
             /\ Server.computeRisk_throws inputs = false
             /\ out = Server.computeRisk inputs).
  { intros inputs E. unfold Server.scan_inputs in E.
    destruct (conversion_throws _); [discriminate |].
    destruct (_ >? _)%js; cbn [negb] in E; [| discriminate].
    destruct (Server.computeRisk_throws inputs); [discriminate |].
    injection E as <- _. now repeat split. }
  destruct body as [| | b | x | text | fields];
    try (exists f; eexists;
         split; [reflexivity |]; split; [exact Hm |];
         split; [reflexivity |]; split; [reflexivity |]; now apply Hs).
  cbn [parsed_inputs]. destruct (JSON_parse text) as [parsed |];
    [| discriminate].
  exists f, parsed.
  split; [reflexivity |]. split; [exact Hm |].
  split; [reflexivity |]. split; [reflexivity |]. now apply Hs.
Qed.

(** The handler on a request that passes the checks on the file and on
    the presence of the inputs. *)
Lemma scan_parsed (req : Server.Request) (f : Server.File)
    (inputs : value) :
  Server.file req = Some f ->
  String.prefix "image/" (Server.mimetype f) = true ->
  truthy (Server.body_inputs req) = true ->
  parsed_inputs (Server.body_inputs req) = Some inputs ->
  Server.scan req = Server.scan_inputs f inputs.
Proof.
  destruct req as [file body]. unfold Server.scan.
  cbn [Server.file Server.body_inputs].
  intros Hf Hm Ht Hp. subst file.
  rewrite Hm, Ht. cbn [negb].
  destruct body as [| | b | x | text | fields]; cbn [parsed_inputs] in Hp;
    try (injection Hp as <-; reflexivity).
  now rewrite Hp.
Qed.

(** X17. The handler answers with a scan result exactly when a file of
    an image type comes with inputs that are truthy, parse, hold a
    [recommendedDose] reading as a finite number above 0, and hold no
    field whose conversion throws; the result is then [computeRisk] of
    the parsed inputs.  When the other conditions hold and a conversion
    throws, in the guard or in [computeRisk], the answer is the server
    error of the [catch] branch. *)
Theorem scan_accepts_iff (req : Server.Request) :
  (forall out meta,
     Server.scan req = Server.Scanned out meta ->
     exists f inputs,
       Server.file req = Some f
       /\ String.prefix "image/" (Server.mimetype f) = true
       /\ truthy (Server.body_inputs req) = true
       /\ parsed_inputs (Server.body_inputs req) = Some inputs
       /\ (Server.toNumber (getq inputs "recommendedDose") >? Fin 0)%js = true
       /\ Server.computeRisk_throws inputs = false
       /\ out = Server.computeRisk inputs)
  /\ (forall f inputs,
        Server.file req = Some f ->
        String.prefix "image/" (Server.mimetype f) = true ->
        truthy (Server.body_inputs req) = true ->
        parsed_inputs (Server.body_inputs req) = Some inputs ->
        (Server.toNumber (getq inputs "recommendedDose") >? Fin 0)%js = true ->
        Server.computeRisk_throws inputs = false ->
        exists meta,
          Server.scan req = Server.Scanned (Server.computeRisk inputs) meta)
  /\ (forall f inputs,
        Server.file req = Some f ->
        String.prefix "image/" (Server.mimetype f) = true ->
        truthy (Server.body_inputs req) = true ->
        parsed_inputs (Server.body_inputs req) = Some inputs ->
        conversion_throws (getq inputs "recommendedDose") = true
        \/ ((Server.toNumber (getq inputs "recommendedDose") >? Fin 0)%js
            = true
            /\ Server.computeRisk_throws inputs = true) ->
        Server.scan req = Server.ServerError Server.err_server).
Proof.
  split; [| split].
  - intros out meta. apply scan_scanned.
  - intros f inputs Hf Hm Ht Hp Hd Hno.
    rewrite (scan_parsed req f inputs Hf Hm Ht Hp).
    unfold Server.scan_inputs.
    rewrite (computeRisk_throws_guard _ Hno), Hd, Hno. cbn [negb]. eauto.
  - intros f inputs Hf Hm Ht Hp Hthrow.
    rewrite (scan_parsed req f inputs Hf Hm Ht Hp).
    unfold Server.scan_inputs.
    destruct Hthrow as [Hg | [Hd Hc]]; [now rewrite Hg |].
    destruct (conversion_throws _); [reflexivity |].
    now rewrite Hd, Hc.
Qed.

Lemma getq_get (o : value) (k : string) : getq o k = get o k.
Proof. now destruct o. Qed.

Lemma clamp01_in_range (x : R) : in_range (Server.clamp01 (Fin x)) 0 1.
Proof.
  rewrite clamp01_Fin. exists (clampR 0 1 x).
  split; [reflexivity | apply clampR_range; lra].
Qed.

Ltac split_toNumber :=
  repeat match goal with
  | |- context [Server.toNumber ?v] =>
      let x := fresh "x" in
      destruct (Server.toNumber v) as [x | | |]
  end.

Ltac finish_component :=
  unfold ngt; cbn [isFinite andb orb nlt];
  repeat match goal with
  | |- context [Rltb ?a ?b] =>
      let H := fresh "Hc" in
      destruct (Rlt_le_dec a b) as [H | H];
      [rewrite (Rltb_true a b H) | rewrite (Rltb_false a b H)]
  end;
  cbn [isFinite andb orb nsub nneg nadd nmul ndiv Math_abs Math_exp];
  repeat match goal with
  | |- context [Reqb ?a 0] => rewrite (Reqb_false a 0) by lra
  end;
  cbn [isFinite andb orb nsub nneg nadd nmul ndiv Math_abs Math_exp];
  rewrite ?clamp01_Fin; cbn [nadd nmul]; rewrite ?clamp01_Fin;
  apply in_range_const; first [ lra | apply clampR_range; lra ].

(** Under the handler's guard every component of the placeholder score
    is a finite number in [0,1]. *)
Lemma computeRisk_components (inputs : value) (rd : R) :
  Server.toNumber (get inputs "recommendedDose") = Fin rd ->
  let b := Server.breakdown (Server.computeRisk inputs) in
  in_range (Server.doseScore b) 0 1
  /\ in_range (Server.residueFactor b) 0 1
  /\ in_range (Server.leafPhScore b) 0 1
  /\ in_range (Server.soilPhScore b) 0 1
  /\ in_range (Server.moistureScore b) 0 1
  /\ in_range (Server.weatherScore b) 0 1
  /\ in_range (Server.imageStressScore b) 0 1.
Proof.
  intros Hrd b. unfold b, Server.computeRisk. cbv zeta.
  cbn [Server.breakdown Server.doseScore Server.residueFactor
       Server.leafPhScore Server.soilPhScore Server.moistureScore
       Server.weatherScore Server.imageStressScore].
  rewrite Hrd.
  repeat split.
  - finish_component.
  - rewrite Math_log_2. split_toNumber; finish_component.
  - split_toNumber; finish_component.
  - split_toNumber; finish_component.
  - split_toNumber; finish_component.
  - split_toNumber; finish_component.
  - split_toNumber; finish_component.
Qed.

Lemma riskLevelFromPercent_IZR (q : Z) :
  Server.riskLevelFromPercent (Fin (IZR q)) = server_level_of_percent q.
Proof.
  unfold Server.riskLevelFromPercent, server_level_of_percent, nge.
  cbn [isFinite negb nle]. now rewrite !Rleb_IZR.
Qed.

(** The percentage of the placeholder score, under the handler's guard. *)
Lemma computeRisk_percent (inputs : value) :
  (Server.toNumber (getq inputs "recommendedDose") >? Fin 0)%js = true ->
  exists q : Z,
    Server.riskPercent (Server.computeRisk inputs) = Fin (IZR q)
    /\ (0 <= q <= 100)%Z.
Proof.
  intros Hguard. rewrite getq_get in Hguard.
  destruct (Server.toNumber (get inputs "recommendedDose")) as [rd | | |] eqn:Hrd;
    try discriminate Hguard.
  - destruct (computeRisk_components inputs rd Hrd)
      as ((c1 & E1 & R1) & (c2 & E2 & R2) & (c3 & E3 & R3) & (c4 & E4 & R4)
          & (c5 & E5 & R5) & (c6 & E6 & R6) & (c7 & E7 & R7)).
    set (out := Server.computeRisk inputs) in *.
    set (b := Server.breakdown out) in *.
    change (Server.riskPercent out)
      with (Math_round
              (Server.clamp01
                 (Fin 0.22 * Server.doseScore b
                  + Fin 0.24 * Server.residueFactor b
                  + Fin 0.14 * Server.leafPhScore b
                  + Fin 0.10 * Server.soilPhScore b
                  + Fin 0.10 * Server.moistureScore b
                  + Fin 0.10 * Server.weatherScore b
                  + Fin 0.10 * Server.imageStressScore b) * Fin 100)%js).
    rewrite E1, E2, E3, E4, E5, E6, E7. cbn [nmul nadd].
    rewrite clamp01_Fin. cbn [nmul Math_round].
    match goal with
    | |- context [Zfloor (clampR 0 1 ?e * 100 + 0.5)] =>
        exists (percentZ e); split; [reflexivity | apply percentZ_range]
    end.
  - unfold Server.toNumber in Hrd.
    destruct (Number (get inputs "recommendedDose")); discriminate Hrd.
Qed.

(** X18. Every scan result carries an integer percentage from 0 to 100
    and a level that is High from 70 on, Medium from 35 to 69 and Low
    below 35; the placeholder dash is never sent. *)
Theorem scanned_percent_and_level (req : Server.Request)
    (out : Server.Result) (meta : Server.Meta) :
  Server.scan req = Server.Scanned out meta ->
  exists q : Z,
    Server.riskPercent out = Fin (IZR q)
    /\ (0 <= q <= 100)%Z
    /\ Server.level out = server_level_of_percent q
    /\ In (Server.level out) ["High"; "Medium"; "Low"]%string.
Proof.
  intros Hscan.
  destruct (scan_scanned req out meta Hscan)
    as (f & inputs & _ & _ & _ & _ & Hguard & _ & ->).
  destruct (computeRisk_percent inputs Hguard) as (q & Hq & Hr).
  exists q. split; [exact Hq |]. split; [exact Hr |].
  assert (Hl : Server.level (Server.computeRisk inputs)
               = server_level_of_percent q).
  { change (Server.level (Server.computeRisk inputs))
      with (Server.riskLevelFromPercent
              (Server.riskPercent (Server.computeRisk inputs))).
    rewrite Hq. apply riskLevelFromPercent_IZR. }
  split; [exact Hl |]. rewrite Hl. unfold server_level_of_percent.
  destruct (70 <=? q)%Z; [cbn; auto |].
  destruct (35 <=? q)%Z; cbn; auto.
Qed.

(** X19. The tips of a scan result start with the one tip for its
    percentage band, end with the reminder to follow the label, and are
    between two and six: the cut at eight tips never removes any. *)
Theorem scanned_tips (req : Server.Request)
    (out : Server.Result) (meta : Server.Meta) :
  Server.scan req = Server.Scanned out meta ->
  exists q : Z,
    Server.riskPercent out = Fin (IZR q)
    /\ List.hd EmptyString (Server.tips out) = server_risk_tip q
    /\ List.last (Server.tips out) EmptyString = Server.tip_always
    /\ (2 <= List.length (Server.tips out) <= 6)%nat.
Proof.
  intros Hscan.
  destruct (scan_scanned req out meta Hscan)
    as (f & inputs & _ & _ & _ & _ & Hguard & _ & ->).
  destruct (computeRisk_percent inputs Hguard) as (q & Hq & Hr).
  exists q. split; [exact Hq |].
  set (o := Server.computeRisk inputs) in *.
  change (Server.tips o)
    with (Server.buildTips (Server.riskPercent o)
            (Server.doseScore (Server.breakdown o))
            (Server.residueFactor (Server.breakdown o))
            (Server.weatherScore (Server.breakdown o))
            (Server.imageStressScore (Server.breakdown o))).
  rewrite Hq. unfold Server.buildTips, server_risk_tip.
  set (c1 := (Server.doseScore _ >? _)%js).
  set (c2 := (Server.residueFactor _ >? _)%js).
  set (c3 := (Server.weatherScore _ >? _)%js).
  set (c4 := (Server.imageStressScore _ >? _)%js).
  clearbody c1 c2 c3 c4.
  unfold nge. cbn [nle nlt].
  rewrite !Rleb_IZR, !Rltb_IZR.
  destruct (Z.leb_spec 70 q), (Z.leb_spec 35 q), (Z.ltb_spec q 70),
    (Z.ltb_spec q 35); try lia;
    destruct c1, c2, c3, c4;
    cbn [firstn push_if app List.hd List.last List.length andb];
    repeat split; try reflexivity; try lia.
Qed.

(** X20. The placeholder score does not look at the applied dose: the
    same inputs with any [appliedDose] in front give the same result. *)
Theorem computeRisk_ignores_appliedDose (fields : list (string * value))
    (v : value) :
  Server.computeRisk (VObj (("appliedDose"%string, v) :: fields))
  = Server.computeRisk (VObj fields).
Proof. reflexivity. Qed.

(** X21. On an integer percentage the level of the handler and the
    level of the scoring engine are the same exactly up to 30, from 35
    to 60 and from 70 on. *)
Theorem level_mappings_agree (q : Z) :
  Server.riskLevelFromPercent (Fin (IZR q)) = labelFromPercent (Fin (IZR q))
  <-> (q <= 30 \/ 35 <= q <= 60 \/ 70 <= q)%Z.
Proof.
  rewrite riskLevelFromPercent_IZR, labelFromPercent_IZR.
  unfold server_level_of_percent, level_of_percent.
  destruct (Z.leb_spec 70 q), (Z.leb_spec 35 q), (Z.leb_spec q 30),
    (Z.leb_spec q 60); split; intros Hx;
    try lia; try discriminate; try reflexivity.
Qed.

End EndpointExtras.

(** * Further properties of the leaf photo analyzer *)

Section VisionExtras.

Import LeafVision.

(** The scale [getImageData] applies for a longest side of 360. *)
Lemma scale_360 (W H : nat) :
  exists s : R,
    Math_min (Fin 1) (Fin 360 / Math_max (of_nat W) (of_nat H))%js = Fin s
    /\ 0 < s <= 1
    /\ s * Rmax (INR W) (INR H) <= 360
    /\ (0 < Rmax (INR W) (INR H) <= 360 -> s = 1).
Proof.
  unfold of_nat. rewrite Math_max_Fin.
  set (M := Rmax (INR W) (INR H)).
  assert (HM : 0 <= M).
  { unfold M. apply Rle_trans with (INR W); [apply pos_INR | apply Rmax_l]. }
  cbn [ndiv]. destruct (Req_dec_T M 0) as [H0 | H0].
  - rewrite Reqb_true by assumption. unfold signed_inf.
    rewrite Rltb_true by lra. cbn. exists 1.
    split; [reflexivity |]. rewrite H0. repeat split; lra.
  - rewrite Reqb_false by assumption. rewrite Math_min_Fin.
    assert (HMpos : 0 < M) by lra.
    assert (Hi : 0 < / M) by now apply Rinv_0_lt_compat.
    assert (Hq : 0 < 360 / M) by (unfold Rdiv; nra).
    assert (HqM : 360 / M * M = 360) by (field; lra).
    exists (Rmin 1 (360 / M)). split; [reflexivity |].
    unfold Rmin. destruct (Rle_dec 1 (360 / M)) as [Hle | Hle].
    + repeat split; try lra. nra.
    + repeat split; try lra.
      intros [_ HM360]. exfalso. apply Hle.
      apply Rmult_le_reg_r with M; [assumption |]. lra.
Qed.

Lemma round_nat_le (x : R) (n : nat) :
  0 <= x <= INR n -> (round_nat (Fin x) <= n)%nat.
Proof.
  intros [H0 Hx]. unfold round_nat.
  pose proof (Zfloor_bound (x + 0.5)) as [Hlo Hhi].
  rewrite INR_IZR_INZ in Hx.
  assert (Hlt : IZR (Zfloor (x + 0.5)) < IZR (Z.of_nat n + 1)).
  { rewrite plus_IZR. cbn. lra. }
  apply lt_IZR in Hlt. lia.
Qed.

Lemma round_nat_INR (n : nat) : round_nat (Fin (INR n * 1)) = n.
Proof.
  unfold round_nat. rewrite Rmult_1_r, INR_IZR_INZ.
  rewrite (Zfloor_eq (Z.of_nat n)); [apply Nat2Z.id |]. lra.
Qed.

(** X22. The canvas the analyzer scans is never larger than 360 by 360
    and never empty, and an image whose sides are between 1 and 360 is
    scanned at its own size. *)
Theorem getImageData_capped (img : Image) :
  let d := getImageData img (Fin 360) in
  (1 <= id_w d <= 360)%nat
  /\ (1 <= id_h d <= 360)%nat
  /\ ((1 <= width img <= 360)%nat -> (1 <= height img <= 360)%nat ->
      id_w d = width img /\ id_h d = height img).
Proof.
  unfold getImageData. cbv zeta. cbn [id_w id_h].
  destruct (scale_360 (width img) (height img)) as (s & -> & Hs & Hcap & Hone).
  set (W := width img) in *. set (H := height img) in *.
  pose proof (pos_INR W) as HW. pose proof (pos_INR H) as HH.
  pose proof (Rmax_l (INR W) (INR H)) as HWl.
  pose proof (Rmax_r (INR W) (INR H)) as HHr.
  unfold of_nat. cbn [nmul].
  assert (Hw : (round_nat (Fin (INR W * s)) <= 360)%nat).
  { apply round_nat_le. replace (INR 360) with 360
      by (rewrite INR_IZR_INZ; reflexivity).
    split; nra. }
  assert (Hh : (round_nat (Fin (INR H * s)) <= 360)%nat).
  { apply round_nat_le. replace (INR 360) with 360
      by (rewrite INR_IZR_INZ; reflexivity).
    split; nra. }
  split; [lia |]. split; [lia |].
  intros HWr HHr'.
  assert (H1 : s = 1).
  { apply Hone. split.
    - apply Rlt_le_trans with (INR W); [| assumption].
      apply (lt_INR 0). lia.
    - apply Rmax_lub.
      + replace 360 with (INR 360) by (rewrite INR_IZR_INZ; reflexivity).
        apply le_INR. lia.
      + replace 360 with (INR 360) by (rewrite INR_IZR_INZ; reflexivity).
        apply le_INR. lia. }
  subst s. rewrite !round_nat_INR. lia.
Qed.

Lemma Ztrunc_small (x : R) : -1 < x < 1 -> Ztrunc x = 0%Z.
Proof.
  intros [Hlo Hhi]. unfold Ztrunc.
  destruct (Rle_lt_dec 0 x) as [H0 | H0].
  - rewrite Rleb_true by assumption. apply Zfloor_eq. cbn. lra.
  - rewrite Rleb_false by assumption. apply Zceil_eq. cbn. lra.
Qed.

Lemma quotient_bound (a d : R) : 0 < d -> - d <= a <= d -> -1 <= a / d <= 1.
Proof.
  intros Hd [Hlo Hhi].
  assert (Hi : 0 < / d) by now apply Rinv_0_lt_compat.
  assert (H1 : d * / d = 1) by (apply Rinv_r; lra).
  unfold Rdiv. split; nra.
Qed.

Lemma nrem_small (x : R) : -1 <= x <= 1 -> nrem (Fin x) (Fin 6) = Fin x.
Proof.
  intros Hx. unfold nrem. rewrite Reqb_false by lra.
  rewrite Ztrunc_small by lra. f_equal. cbn. ring.
Qed.

(** X23. For colour channels between 0 and 255 the hue is in [0, 360)
    and the saturation and the value are in [0, 1]. *)
Theorem rgbToHsv_range (r g b : R) :
  0 <= r <= 255 -> 0 <= g <= 255 -> 0 <= b <= 255 ->
  exists h s v : R,
    rgbToHsv (Fin r) (Fin g) (Fin b)
    = {| hsv_h := Fin h; hsv_s := Fin s; hsv_v := Fin v |}
    /\ 0 <= h < 360 /\ 0 <= s <= 1 /\ 0 <= v <= 1.
Proof.
  intros Hr Hg Hb. unfold rgbToHsv. cbn [ndiv].
  rewrite Reqb_false by lra. rewrite !Math_max_Fin, !Math_min_Fin.
  set (R := r / 255). set (G := g / 255). set (B := b / 255).
  assert (HR : 0 <= R <= 1) by (unfold R; lra).
  assert (HG : 0 <= G <= 1) by (unfold G; lra).
  assert (HB : 0 <= B <= 1) by (unfold B; lra).
  set (mx := Rmax (Rmax R G) B). set (mn := Rmin (Rmin R G) B).
  assert (Hmx : R <= mx /\ G <= mx /\ B <= mx /\ mx <= 1).
  { unfold mx, Rmax. repeat destruct (Rle_dec _ _); lra. }
  assert (Hmn : mn <= R /\ mn <= G /\ mn <= B /\ 0 <= mn).
  { unfold mn, Rmin. repeat destruct (Rle_dec _ _); lra. }
  clearbody mx mn R G B. clear Hr Hg Hb.
  cbn [nsub nneg nadd neqb].
  destruct (Req_dec_T (mx + - mn) 0) as [Hd | Hd].
  - rewrite (Reqb_true (mx + - mn) 0) by assumption. cbn [negb].
    cbv zeta.
    destruct (Req_dec_T mx 0) as [H0 | H0].
    + rewrite Reqb_true by assumption.
      exists 0, 0, mx. split; [reflexivity |]. lra.
    + rewrite Reqb_false by assumption. cbn [ndiv].
      rewrite Reqb_false by assumption.
      exists 0, ((mx + - mn) / mx), mx. split; [reflexivity |].
      rewrite Hd. unfold Rdiv. rewrite Rmult_0_l. lra.
  - rewrite (Reqb_false (mx + - mn) 0) by assumption. cbn [negb].
    assert (Hdpos : 0 < mx + - mn) by lra.
    assert (Hmxpos : 0 < mx) by lra.
    pose proof (quotient_bound (G + - B) (mx + - mn) Hdpos) as Q1.
    pose proof (quotient_bound (B + - R) (mx + - mn) Hdpos) as Q2.
    pose proof (quotient_bound (R + - G) (mx + - mn) Hdpos) as Q3.
    assert (Hs : 0 <= (mx + - mn) / mx <= 1).
    { assert (Hi : 0 < / mx) by now apply Rinv_0_lt_compat.
      assert (H1 : mx * / mx = 1) by (apply Rinv_r; lra).
      unfold Rdiv. split; nra. }
    cbn [ndiv]. rewrite (Reqb_false (mx + - mn) 0) by assumption.
    rewrite (Reqb_false mx 0) by lra.
    set (q1 := (G + - B) / (mx + - mn)) in *.
    set (q2 := (B + - R) / (mx + - mn)) in *.
    set (q3 := (R + - G) / (mx + - mn)) in *.
    specialize (Q1 ltac:(lra)). specialize (Q2 ltac:(lra)).
    specialize (Q3 ltac:(lra)).
    rewrite (nrem_small q1 Q1).
    destruct (Reqb mx R); [| destruct (Reqb mx G)];
      cbn [nadd nmul nlt];
      match goal with
      | |- context [Rltb ?a 0] =>
          destruct (Rlt_le_dec a 0) as [Hneg | Hneg];
          [rewrite (Rltb_true a 0 Hneg) | rewrite (Rltb_false a 0 Hneg)]
      end;
      cbn [nadd];
      (eexists; eexists; eexists; split; [reflexivity |]; lra).
Qed.

(** How the classes of one pixel exclude and include each other. *)
Lemma classify_facts (hh s v : num) :
  let isLeafLike :=
    ((hh >=? Fin 55)%js && (hh <=? Fin 170)%js)
    && (s >? Fin 0.18)%js && (v >? Fin 0.12)%js in
  let isGreen :=
    ((hh >=? Fin 70)%js && (hh <=? Fin 160)%js)
    && (s >? Fin 0.22)%js && (v >? Fin 0.14)%js in
  let isYellow :=
    ((hh >=? Fin 35)%js && (hh <? Fin 70)%js)
    && (s >? Fin 0.18)%js && (v >? Fin 0.18)%js in
  let isBrown :=
    (((hh >=? Fin 10)%js && (hh <? Fin 35)%js)
     || ((hh >=? Fin 0)%js && (hh <? Fin 10)%js))
    && (s >? Fin 0.16)%js && (v >? Fin 0.10)%js in
  let satLow := (s <? Fin 0.08)%js in
  (isGreen = true -> isLeafLike = true)
  /\ isGreen && isYellow = false
  /\ isGreen && isBrown = false
  /\ isYellow && isBrown = false
  /\ satLow && isLeafLike = false
  /\ satLow && isYellow = false
  /\ satLow && isBrown = false.
Proof.
  cbv zeta. unfold nge, ngt.
  destruct hh as [x | | |], s as [y | | |], v as [z | | |];
    cbn [nle nlt andb orb];
    try (repeat split; (discriminate || reflexivity || (now rewrite ?andb_false_r)));
    cmp; repeat split; (discriminate || reflexivity).
Qed.

Lemma scan_pixel_counts (data : nat -> Z) (w h : nat) (edgeBand : num)
    (y x n : nat) (st : Scan) :
  scan_counts n st ->
  scan_counts (S n) (scan_pixel data w h edgeBand y x st).
Proof.
  intros (H1 & H2 & H3 & H4 & H5 & H6 & H7).
  unfold scan_pixel. cbv zeta.
  destruct (rgbToHsv _ _ _) as [hh s v]. cbn [hsv_h hsv_s hsv_v].
  destruct (classify_facts hh s v) as (F1 & F2 & F3 & F4 & F5 & F6 & F7).
  cbv zeta in F1, F2, F3, F4, F5, F6, F7.
  set (isLeafLike := (_ && (v >? Fin 0.12)%js)) in *.
  set (isGreen := (_ && (v >? Fin 0.14)%js)) in *.
  set (isYellow := (_ && (v >? Fin 0.18)%js)) in *.
  set (isBrown := (_ && (v >? Fin 0.10)%js)) in *.
  set (satLow := (s <? Fin 0.08)%js) in *.
  set (isDark := ((v <? Fin 0.22)%js && _)).
  set (isEdge := (_ || (_ >=? _ - edgeBand)%js)).
  clearbody isLeafLike isGreen isYellow isBrown satLow isDark isEdge.
  unfold scan_counts.
  cbn [leafLike green yellow brown darkSpot satLowCount edgeBrown edgeTotal].
  destruct isLeafLike, isGreen, isYellow, isBrown, satLow, isDark, isEdge;
    cbn [andb] in *; try discriminate;
    try (specialize (F1 eq_refl); discriminate);
    cbn [incr_if andb]; lia.
Qed.

Lemma scan_row_counts (data : nat -> Z) (w h : nat) (edgeBand : num)
    (y : nat) (xs : list nat) :
  forall (n : nat) (st : Scan),
    scan_counts n st ->
    scan_counts (n + List.length xs)
      (fold_left (fun st x => scan_pixel data w h edgeBand y x st) xs st).
Proof.
  induction xs as [| x xs IH]; intros n st Hst.
  - cbn. now rewrite Nat.add_0_r.
  - cbn [fold_left List.length].
    replace (n + S (List.length xs))%nat with (S n + List.length xs)%nat
      by lia.
    apply IH. now apply scan_pixel_counts.
Qed.

Lemma scan_rows_counts (data : nat -> Z) (w h : nat) (edgeBand : num)
    (ys : list nat) :
  forall (n : nat) (st : Scan),
    scan_counts n st ->
    scan_counts (n + List.length ys * w)
      (fold_left
         (fun st y =>
            fold_left (fun st x => scan_pixel data w h edgeBand y x st)
              (seq 0 w) st)
         ys st).
Proof.
  induction ys as [| y ys IH]; intros n st Hst.
  - cbn. now rewrite Nat.add_0_r.
  - cbn [fold_left List.length].
    replace (n + S (List.length ys) * w)%nat
      with (n + w + List.length ys * w)%nat by lia.
    apply IH.
    replace (n + w)%nat with (n + List.length (seq 0 w))%nat
      by now rewrite length_seq.
    now apply scan_row_counts.
Qed.

(** X24. Whatever the pixels are, after the scan of a [w] by [h] canvas:
    the green pixels and the dark spots are among the leaf-like ones;
    green, yellow, brown and low-saturation pixels exclude each other, so
    their counts add up to at most [w * h]; low-saturation and leaf-like
    pixels exclude each other; the brown edge pixels are among the brown
    ones and among the edge ones. *)
Theorem scan_pixels_counts (data : nat -> Z) (w h : nat) (edgeBand : num) :
  scan_counts (h * w) (scan_pixels data w h edgeBand).
Proof.
  unfold scan_pixels.
  replace (h * w)%nat with (0 + List.length (seq 0 h) * w)%nat
    by (rewrite length_seq; lia).
  apply scan_rows_counts.
  unfold scan_counts. cbn. lia.
Qed.

Lemma ratio_Fin (c x : R) :
  (Fin c / Math_max (Fin 1) (Fin x))%js = Fin (c / Rmax 1 x).
Proof.
  rewrite Math_max_Fin. cbn [ndiv].
  pose proof (Rmax_l 1 x). now rewrite Reqb_false by lra.
Qed.

Lemma is_empty_if {A : Type} (c : bool) (x : A) :
  is_empty (if c then [x] else []) = negb c.
Proof. now destruct c. Qed.

Lemma fold_left_invariant {A B : Type} (P : A -> Prop) (f : A -> B -> A)
    (l : list B) :
  (forall a b, P a -> P (f a b)) -> forall a, P a -> P (fold_left f l a).
Proof.
  intros Hf. induction l as [| b l IH]; intros a Ha; [exact Ha |].
  cbn. apply IH. now apply Hf.
Qed.

(** X28. A canvas less than three pixels wide or high has no interior
    pixel, and its detail is 0 whatever the buffer holds; a buffer that
    holds one value all over the canvas has detail 0 too. *)
Theorem laplacianVariance_no_detail (g : Float32Array) (w h : nat) :
  ((w < 3)%nat \/ (h < 3)%nat -> laplacianVariance g w h = Fin 0)
  /\ (forall lum : R,
        (forall k : nat, (k < h * w)%nat -> g k = Fin lum) ->
        laplacianVariance g w h = Fin 0).
Proof.
  split; [| intros lum; apply laplacianVariance_flat].
  intros Hsmall. unfold laplacianVariance.
  set (acc := fold_left _ _ _).
  assert (Hempty : acc = {| sum := Fin 0; sumSq := Fin 0; count := 0 |}).
  { unfold acc. destruct Hsmall as [Hw | Hh].
    - replace (w - 2)%nat with 0%nat by lia. cbn [seq fold_left].
      apply fold_left_invariant; [| reflexivity].
      now intros a _ ->.
    - replace (h - 2)%nat with 0%nat by lia. reflexivity. }
  rewrite Hempty. cbv zeta. cbn [sum sumSq count]. unfold of_nat.
  rewrite !ratio_Fin. cbn [nmul nsub nneg nadd INR]. f_equal.
  unfold Rdiv. ring.
Qed.

Section AnalyzerExtras.

Variable decode : File -> option Image.

(** X25. Whatever the file and the image are, the stress score is an
    integer from 0 to 100. *)
Theorem imageStress_is_percentage (file : option File) (opts : Opts) :
  exists q : Z,
    imageStress (analyzeLeafPhoto decode file opts) = Fin (IZR q)
    /\ (0 <= q <= 100)%Z.
Proof.
  unfold analyzeLeafPhoto.
  destruct file as [f |]; [| exists 50%Z; split; [reflexivity | lia]].
  cbn [loadImageFromFile].
  destruct (decode f) as [img |]; [| exists 50%Z; split; [reflexivity | lia]].
  unfold analyze_image. cbv zeta. cbn [imageStress].
  set (idata := getImageData img (Fin 360)).
  set (st := scan_pixels _ _ _ _).
  unfold of_nat. cbn [nmul]. rewrite !ratio_Fin.
  cbn [nmul nadd nsub nneg]. rewrite vclamp_Fin.
  destruct (_ <? _)%js.
  - cbn [nadd]. rewrite vclamp_Fin. cbn [nmul Math_round].
    match goal with
    | |- context [Zfloor (clampR 0 1 ?e * 100 + 0.5)] =>
        exists (percentZ e); split; [reflexivity | apply percentZ_range]
    end.
  - cbn [nmul Math_round].
    match goal with
    | |- context [Zfloor (clampR 0 1 ?e * 100 + 0.5)] =>
        exists (percentZ e); split; [reflexivity | apply percentZ_range]
    end.
Qed.

(** An accepted photo has passed every check on the file and on the
    size of the image. *)
Lemma accepted_photo_checks (file : option File) (opts : Opts) :
  ok (analyzeLeafPhoto decode file opts) = true ->
  exists (f : File) (img : Image),
    file = Some f /\ decode f = Some img
    /\ String.prefix "image/" (type f) = true
    /\ (size f >? maxFileMB opts * Fin 1024 * Fin 1024)%js = false
    /\ (of_nat (width img) <? minWidth opts)%js = false
    /\ (of_nat (height img) <? minHeight opts)%js = false
    /\ (of_nat (width img) / of_nat (height img) >? maxAspect opts)%js
       = false
    /\ (of_nat (width img) / of_nat (height img)
        <? Fin 1 / maxAspect opts)%js = false.
Proof.
  unfold analyzeLeafPhoto.
  destruct file as [f |]; [| discriminate].
  cbn [loadImageFromFile].
  destruct (decode f) as [img |] eqn:Hdec; [| discriminate].
  unfold analyze_image. cbv zeta. cbn [ok].
  rewrite !is_empty_app, !is_empty_if.
  destruct (String.prefix "image/" (type f)) eqn:E1; [| discriminate].
  destruct (size f >? _)%js eqn:E2; [discriminate |].
  destruct (of_nat (width img) <? _)%js eqn:E3; [discriminate |].
  destruct (of_nat (height img) <? _)%js eqn:E4; [discriminate |].
  destruct (_ / _ >? maxAspect opts)%js eqn:E5; [discriminate |].
  destruct (_ / _ <? _ / maxAspect opts)%js eqn:E6; [discriminate |].
  intros _. exists f, img. repeat split; assumption.
Qed.

(** X26. A failed check on the file or on the size of the image is
    never forgiven: a file that is not of an image type, that is above
    the size limit or that cannot be read, and an image below the least
    width or height or outside the aspect limits, is not accepted,
    whatever its pixels are. *)
Theorem failed_check_rejects (f : File) (opts : Opts) :
  String.prefix "image/" (type f) = false
  \/ (size f >? maxFileMB opts * Fin 1024 * Fin 1024)%js = true
  \/ decode f = None
  \/ (exists img : Image,
        decode f = Some img
        /\ ((of_nat (width img) <? minWidth opts)%js = true
            \/ (of_nat (height img) <? minHeight opts)%js = true
            \/ (of_nat (width img) / of_nat (height img)
                >? maxAspect opts)%js = true
            \/ (of_nat (width img) / of_nat (height img)
                <? Fin 1 / maxAspect opts)%js = true)) ->
  ok (analyzeLeafPhoto decode (Some f) opts) = false.
Proof.
  intros Hbad.
  destruct (ok (analyzeLeafPhoto decode (Some f) opts)) eqn:Hok;
    [exfalso | reflexivity].
  destruct (accepted_photo_checks (Some f) opts Hok)
    as (f' & img & Hf & Hdec & E1 & E2 & E3 & E4 & E5 & E6).
  injection Hf as <-.
  destruct Hbad as [H | [H | [H | (img' & Hdec' & H)]]]; try congruence.
  rewrite Hdec in Hdec'. injection Hdec' as <-.
  destruct H as [H | [H | [H | H]]]; congruence.
Qed.

Lemma healthy_alone (file : option File) (opts : Opts) :
  In symptom_healthy (symptoms (analyzeLeafPhoto decode file opts)) ->
  symptoms (analyzeLeafPhoto decode file opts) = [symptom_healthy].
Proof.
  unfold analyzeLeafPhoto.
  destruct file as [f |]; [| intros []].
  cbn [loadImageFromFile].
  destruct (decode f) as [img |]; [| intros []].
  unfold analyze_image. cbv zeta. cbn [symptoms].
  destruct (_ >? Fin 0.08)%js, (_ >? Fin 0.05)%js, (_ >? Fin 0.08)%js,
    (_ >? Fin 0.03)%js, (_ >? Fin 0.20)%js;
    cbn [push_if app is_empty andb];
    intros Hin; try reflexivity;
    repeat (destruct Hin as [Hin | Hin]; [discriminate Hin |]);
    contradiction.
Qed.

(** X27. "Mostly healthy green" is never reported together with another
    symptom: either it is absent, or it is the only symptom. *)
Theorem healthy_is_exclusive (file : option File) (opts : Opts) :
  ~ In symptom_healthy (symptoms (analyzeLeafPhoto decode file opts))
  \/ symptoms (analyzeLeafPhoto decode file opts) = [symptom_healthy].
Proof.
  destruct (in_dec string_dec symptom_healthy
              (symptoms (analyzeLeafPhoto decode file opts))) as [Hin | Hout].
  - right. now apply healthy_alone.
  - now left.
Qed.

End AnalyzerExtras.

End VisionExtras.

(** * Concrete instances *)

(** [doseScore(0, 10)] is 0, where the curve 0.15 + 0.55 * ratio of the
    range [0, 1] gives 0.15 at ratio 0. *)
Lemma doseScore_zero_applied :
  0 < 10 /\ 0 <= 0 / 10 <= 1
  /\ @doseScore nan_host (VNum (Fin 0)) (VNum (Fin 10)) = Fin 0
  /\ @doseScore nan_host (VNum (Fin 0)) (VNum (Fin 10))
     <> Fin (0.15 + 0.55 * (0 / 10)).
Proof.
  assert (H : @doseScore nan_host (VNum (Fin 0)) (VNum (Fin 10)) = Fin 0)
    by (apply doseScore_zero_ratio; lra).
  repeat split; try lra; try exact H.
  rewrite H. intros E. injection E as E. lra.
Qed.

Lemma doseScore_curve_witness :
  (0 < 10 /\ 0 < 5 / 10 <= 1)
  /\ @doseScore nan_host (VNum (Fin 5)) (VNum (Fin 10))
     = Fin (0.15 + 0.55 * (5 / 10)).
Proof.
  assert (Hr : 0 < 10) by lra.
  assert (Hq : 0 < 5 / 10 <= 1) by lra.
  split; [split; assumption |].
  exact (proj1 (proj2 (proj2 (@doseScore_curve nan_host 5 10))) Hr Hq).
Defined.

Lemma aiContribution_correct_witness :
  (0 <= 80 <= 100 /\ 0 <= 90 <= 100)
  /\ @computeAiContribution nan_host
       (VNum (Fin 80)) (VNum (Fin 90)) (VNum (Fin 3))
     = Fin (aiContribution_spec 80 90 3)
  /\ 0 <= aiContribution_spec 80 90 3 <= 0.25.
Proof.
  assert (Hs : 0 <= 80 <= 100) by lra.
  assert (Hc : 0 <= 90 <= 100) by lra.
  split; [split; assumption |].
  exact (proj1 (@aiContribution_correct nan_host) 80 90 3 Hs Hc).
Defined.

Lemma decayScore_correct_witness :
  0 < 3 /\ @decayScore nan_host (VNum (Fin 3)) (VNum (Fin 3)) = Fin 0.5.
Proof.
  assert (H : 0 < 3) by lra.
  split; [assumption |].
  exact (proj2 (proj2 (proj2 (@decayScore_correct nan_host))) 3 H).
Defined.

Lemma low_dose_strong_decay_cap_witness :
  decayed_payload VUndef VUndef <> VNull
  /\ exists (r : RiskAssessment) (q : Z),
       @calculateRisk nan_host (decayed_payload VUndef VUndef) = Some r
       /\ (bd_doseScore (breakdown r) <? Fin 0.2)%js = true
       /\ (bd_decayScore (breakdown r) <? Fin 0.2)%js = true
       /\ riskPercent r = Fin (IZR q) /\ (0 <= q <= 45)%Z.
Proof.
  assert (Hn : decayed_payload VUndef VUndef <> VNull) by discriminate.
  split; [assumption |].
  destruct (proj1 (@low_dose_strong_decay_cap nan_host) _ Hn)
    as (r & Hr & Hcap).
  assert (Hbody : r = @calculateRisk_body nan_host
                        (decayed_payload VUndef VUndef)).
  { change (@calculateRisk nan_host (decayed_payload VUndef VUndef))
      with (Some (@calculateRisk_body nan_host
                    (decayed_payload VUndef VUndef))) in Hr.
    now injection Hr as <-. }
  destruct (@decayed_payload_scores nan_host VUndef VUndef)
    as [Hdose Hdecay].
  rewrite <- Hbody in Hdose, Hdecay.
  destruct (Hcap Hdose Hdecay) as (q & Hq & Hrange).
  exists r, q. repeat split; try assumption; lia.
Defined.

Lemma unreadable_image_is_neutral_witness :
  LeafVision.loadImageFromFile (fun _ => None) (Some gray_file) = None
  /\ LeafVision.imageStress
       (LeafVision.analyzeLeafPhoto (fun _ => None) (Some gray_file)
          LeafVision.default_opts) = Fin 50.
Proof.
  assert (H : LeafVision.loadImageFromFile (fun _ => None) (Some gray_file)
              = None) by reflexivity.
  split; [assumption |].
  exact (proj1 (proj2 (proj2 (proj2
           (unreadable_image_is_neutral (fun _ => None) (Some gray_file)
              LeafVision.default_opts H))))).
Defined.

Lemma gray_image_uniform : uniform_gray gray_image 128.
Proof. intros w h i _. reflexivity. Defined.

Lemma uniform_gray_rejected_witness :
  uniform_gray gray_image 128
  /\ LeafVision.imageStress
       (LeafVision.analyzeLeafPhoto (fun _ => Some gray_image)
          (Some gray_file) LeafVision.default_opts) = Fin 8.
Proof.
  split; [exact gray_image_uniform |].
  exact (proj1 (proj2 (proj2 (proj2 (proj2
           (uniform_gray_rejected (fun _ => Some gray_image) gray_file
              gray_image 128 eq_refl gray_image_uniform)))))).
Defined.

(** A confidence that is an object with an own [toString] field,
    [{toString: 1}]: its conversion throws, and so does the AI
    contribution, which then has no confidence factor at all. *)
Lemma confidence_conversion_throws :
  conversion_throws (VObj [("toString"%string, VNum (Fin 1))]) = true
  /\ @computeAiContribution_checked nan_host (VNum (Fin 80))
       (VObj [("toString"%string, VNum (Fin 1))]) (VNum (Fin 0)) = None
  /\ ~ (exists conf : R,
         0.3 <= conf <= 1
         /\ @computeAiContribution_checked nan_host (VNum (Fin 80))
              (VObj [("toString"%string, VNum (Fin 1))]) (VNum (Fin 0))
            = Some (Fin (aiContribution_with conf 80 0))).
Proof.
  assert (H : @computeAiContribution_checked nan_host (VNum (Fin 80))
                (VObj [("toString"%string, VNum (Fin 1))]) (VNum (Fin 0))
              = None) by reflexivity.
  split; [reflexivity |]. split; [exact H |].
  intros (conf & _ & E). rewrite H in E. discriminate E.
Qed.

(** The AI contribution of a stress score of 80 with no confidence, on
    the day of the spray: 0.8 * 0.5 * 1 * 0.25. *)
Lemma aiContribution_unsure : aiContribution_with 0.5 80 0 = 0.1.
Proof.
  unfold aiContribution_with.
  replace (80 / 100) with 0.8 by lra.
  rewrite clampR_id by lra.
  unfold soften_spec, timeFactor_spec.
  destruct (Rlt_dec 0.8 0.4); [lra |].
  destruct (Rlt_dec 0.8 0.7); [lra |].
  destruct (Rlt_dec 0 7); [| lra].
  rewrite Rmin_left; lra.
Qed.

Lemma confidence_default_and_floor_witness :
  ((no_own_toString unsure_payload = true
    /\ nullish (get (@ai_of unsure_payload) "confidence") = true)
   /\ bd_aiContribution
        (breakdown (@calculateRisk_body nan_host unsure_payload))
      = Fin 0.1)
  /\ (conversion_throws (VStr "high") = false
      /\ exists conf : R,
           0.3 <= conf <= 1
           /\ @computeAiContribution_checked nan_host (VNum (Fin 80))
                (VStr "high") (VNum (Fin 0))
              = Some (Fin (aiContribution_with conf 80 0))).
Proof.
  assert (Hp : no_own_toString unsure_payload = true) by reflexivity.
  assert (Ha : nullish (get (@ai_of unsure_payload) "confidence") = true)
    by reflexivity.
  assert (Hc : conversion_throws (VStr "high") = false) by reflexivity.
  split.
  - split; [split; assumption |].
    rewrite <- aiContribution_unsure.
    exact (proj2 (proj2 (proj1 (@confidence_default_and_floor nan_host)
                           unsure_payload Hp Ha))
             80 0 eq_refl eq_refl).
  - split; [exact Hc |].
    destruct (proj2 (proj2 (@confidence_default_and_floor nan_host))
                (VStr "high") Hc) as (conf & Hr & Hf).
    exists conf. split; [exact Hr | exact (Hf 80 0)].
Defined.

Lemma totalScore_follows_percent_witness :
  doubtful_payload <> VNull
  /\ exists (r : RiskAssessment) (t : R),
       @calculateRisk nan_host doubtful_payload = Some r
       /\ (riskPercent r
           <? @pct (@clamp (bd_baseScore (breakdown r)
                            + bd_aiContribution (breakdown r))%js
                      (Fin 0) (Fin 1)))%js = true
       /\ @clamp (bd_baseScore (breakdown r)
                  + bd_aiContribution (breakdown r))%js (Fin 0) (Fin 1)
          = Fin t
       /\ exists q : Z,
            bd_totalScore (breakdown r) = Fin (IZR q / 100)
            /\ IZR q / 100 < t.
Proof.
  assert (Hn : doubtful_payload <> VNull) by discriminate.
  split; [assumption |].
  destruct (@totalScore_follows_percent nan_host _ Hn) as (r & Hr & Hshape).
  cbv zeta in Hshape.
  destruct Hshape as (q & t & Hq & Htot & Hrange & Hfused & Hlower).
  assert (Hbody : r = @calculateRisk_body nan_host doubtful_payload).
  { change (@calculateRisk nan_host doubtful_payload)
      with (Some (@calculateRisk_body nan_host doubtful_payload)) in Hr.
    now injection Hr as <-. }
  destruct (@doubtful_payload_result nan_host) as (_ & _ & Hpercent & Hpct).
  cbv zeta in Hpercent, Hpct. rewrite <- Hbody in Hpercent, Hpct.
  assert (Hlt : (riskPercent r
                 <? @pct (@clamp (bd_baseScore (breakdown r)
                                  + bd_aiContribution (breakdown r))%js
                            (Fin 0) (Fin 1)))%js = true).
  { rewrite Hpercent, Hpct. cbn [nlt]. apply Rltb_true. lra. }
  exists r, t. repeat split; try assumption.
  exists q. split; [assumption | exact (Hlower Hlt)].
Defined.

(** ** Instances of the further properties *)

Lemma fresh_payload_not_null : fresh_payload <> VNull.
Proof. discriminate. Defined.

Lemma breakdown_in_range_witness :
  fresh_payload <> VNull
  /\ exists r, @calculateRisk nan_host fresh_payload = Some r
       /\ in_range (bd_doseScore (breakdown r)) 0 1.
Proof.
  split; [exact fresh_payload_not_null |].
  destruct (@breakdown_in_range nan_host fresh_payload fresh_payload_not_null)
    as (r & Hr & Hd & _).
  exists r. now split.
Defined.

Lemma percent_and_level_witness :
  fresh_payload <> VNull
  /\ exists (r : RiskAssessment) (q : Z),
       @calculateRisk nan_host fresh_payload = Some r
       /\ riskPercent r = Fin (IZR q) /\ (0 <= q <= 100)%Z
       /\ level r = level_of_percent q.
Proof.
  split; [exact fresh_payload_not_null |].
  destruct (@percent_and_level nan_host fresh_payload fresh_payload_not_null)
    as (r & q & Hr & Hq & Hrange & Hl & _).
  exists r, q. repeat split; try assumption; lia.
Defined.

Lemma sanity_rules_only_lower_witness :
  doubtful_payload <> VNull
  /\ exists r, @calculateRisk nan_host doubtful_payload = Some r
       /\ num_le (riskPercent r)
            (@pct (@clamp (bd_baseScore (breakdown r)
                           + bd_aiContribution (breakdown r))%js
                     (Fin 0) (Fin 1))).
Proof.
  assert (Hn : doubtful_payload <> VNull) by discriminate.
  split; [exact Hn |].
  exact (@sanity_rules_only_lower nan_host doubtful_payload Hn).
Defined.

Lemma aiContribution_fades_witness :
  14 <= 30
  /\ in_range
       (@computeAiContribution nan_host (VNum (Fin 100)) (VNum (Fin 100))
          (VNum (Fin 30))) 0 0.10.
Proof.
  assert (H : 14 <= 30) by lra.
  split; [exact H |].
  exact (proj2 (@aiContribution_fades nan_host (VNum (Fin 100))
                  (VNum (Fin 100)) 30) H).
Defined.

Lemma high_tip_iff_high_level_witness :
  fresh_payload <> VNull
  /\ exists r, @calculateRisk nan_host fresh_payload = Some r
       /\ (In tip_high (tips r) <-> level r = "High"%string).
Proof.
  split; [exact fresh_payload_not_null |].
  exact (@high_tip_iff_high_level nan_host fresh_payload
           fresh_payload_not_null).
Defined.

Lemma doseScore_monotone_witness :
  5 <= 20
  /\ num_le (@doseScore nan_host (VNum (Fin 5)) (VNum (Fin 10)))
            (@doseScore nan_host (VNum (Fin 20)) (VNum (Fin 10))).
Proof.
  assert (H : 5 <= 20) by lra.
  split; [exact H |].
  exact (@doseScore_monotone nan_host 5 20 10 H).
Defined.


Lemma moistureScore_monotone_witness :
  20 <= 70
  /\ num_le (@moistureScore nan_host (VNum (Fin 20)))
            (@moistureScore nan_host (VNum (Fin 70))).
Proof.
  assert (H : 20 <= 70) by lra.
  split; [exact H |].
  exact (proj2 (proj2 (@moistureScore_monotone nan_host 20 70)) H).
Defined.

Lemma aiContribution_monotone_witness :
  30 <= 80
  /\ num_le
       (@computeAiContribution nan_host (VNum (Fin 30)) (VNum (Fin 90))
          (VNum (Fin 3)))
       (@computeAiContribution nan_host (VNum (Fin 80)) (VNum (Fin 90))
          (VNum (Fin 3))).
Proof.
  assert (H : 30 <= 80) by lra.
  split; [exact H |].
  exact (@aiContribution_monotone nan_host 30 80 90 3 H).
Defined.

Lemma aiContribution_positive_witness :
  1 <= 1
  /\ exists a : R,
       @computeAiContribution nan_host (VNum (Fin 1)) (VNum (Fin 0))
         (VNum (Fin 90)) = Fin a /\ 0.0002 <= a.
Proof.
  assert (H : 1 <= 1) by lra.
  split; [exact H |].
  exact (@aiContribution_positive nan_host 1 (VNum (Fin 0)) (VNum (Fin 90)) H
           eq_refl eq_refl).
Defined.


Lemma rainy_weather_rainfall :
  forall r : R, @rainfall_of nan_host rainy_weather = Fin r -> 0 <= r.
Proof.
  intros r E.
  change (@rainfall_of nan_host rainy_weather) with (Fin 5) in E.
  injection E as <-. lra.
Defined.

Lemma weatherScore_bounds_witness :
  (no_own_toString rainy_weather = true
   /\ forall r : R, @rainfall_of nan_host rainy_weather = Fin r -> 0 <= r)
  /\ in_range (@weatherScore nan_host rainy_weather) 0.089 0.711.
Proof.
  assert (Hp : no_own_toString rainy_weather = true) by reflexivity.
  split; [split; [exact Hp | exact rainy_weather_rainfall] |].
  exact (@weatherScore_bounds nan_host rainy_weather Hp
           rainy_weather_rainfall).
Defined.

Lemma flat_payload_as_inputs_witness :
  truthy (lookup "inputs" fresh_fields) = false
  /\ @calculateRisk nan_host (VObj fresh_fields)
     = @calculateRisk nan_host
         (VObj [("inputs"%string, VObj fresh_fields);
                ("weather"%string, lookup "weather" fresh_fields);
                ("ai"%string, lookup "ai" fresh_fields)]).
Proof.
  assert (H : truthy (lookup "inputs" fresh_fields) = false) by reflexivity.
  split; [exact H |].
  exact (@flat_payload_as_inputs nan_host fresh_fields H).
Defined.

Lemma missing_fields_fall_back_witness :
  (conversion_throws (VStr "n/a") = false
   /\ isFinite (@Number nan_host (VStr "n/a")) = false)
  /\ @moistureScore nan_host (VStr "n/a") = Fin 0.35
  /\ @doseScore nan_host (VNum (Fin 2)) (VStr "n/a") = Fin 0.
Proof.
  assert (Hc : conversion_throws (VStr "n/a") = false) by reflexivity.
  assert (H : isFinite (@Number nan_host (VStr "n/a")) = false)
    by reflexivity.
  split; [split; assumption |].
  destruct (@missing_fields_fall_back nan_host (VStr "n/a") Hc H)
    as (Hdose & _ & Hmoist & _).
  split; [exact Hmoist | exact (Hdose (VNum (Fin 2)) eq_refl)].
Defined.

Lemma fresh_request_guard :
  (@Server.toNumber nan_host (getq fresh_inputs "recommendedDose")
   >? Fin 0)%js = true.
Proof.
  change ((Fin 1 >? Fin 0)%js = true). unfold ngt. cbn [nlt].
  apply Rltb_true. lra.
Defined.

Lemma throwing_request_guard :
  (@Server.toNumber nan_host (getq throwing_inputs "recommendedDose")
   >? Fin 0)%js = true.
Proof.
  change ((Fin 1 >? Fin 0)%js = true). unfold ngt. cbn [nlt].
  apply Rltb_true. lra.
Defined.

Lemma scan_accepts_iff_witness :
  ((@Server.toNumber nan_host (getq fresh_inputs "recommendedDose")
    >? Fin 0)%js = true
   /\ Server.computeRisk_throws fresh_inputs = false
   /\ (@Server.toNumber nan_host (getq throwing_inputs "recommendedDose")
       >? Fin 0)%js = true
   /\ Server.computeRisk_throws throwing_inputs = true)
  /\ (exists meta,
        @Server.scan nan_host fresh_request
        = Server.Scanned (@Server.computeRisk nan_host fresh_inputs) meta)
  /\ @Server.scan nan_host throwing_request
     = Server.ServerError Server.err_server.
Proof.
  assert (Hf : Server.computeRisk_throws fresh_inputs = false) by reflexivity.
  assert (Ht : Server.computeRisk_throws throwing_inputs = true)
    by reflexivity.
  split; [| split].
  - split; [exact fresh_request_guard |]. split; [exact Hf |].
    split; [exact throwing_request_guard | exact Ht].
  - exact (proj1 (proj2 (@scan_accepts_iff nan_host fresh_request))
             {| Server.mimetype := "image/png"; Server.size := Fin 204800 |}
             fresh_inputs eq_refl eq_refl eq_refl eq_refl fresh_request_guard
             Hf).
  - exact (proj2 (proj2 (@scan_accepts_iff nan_host throwing_request))
             {| Server.mimetype := "image/png"; Server.size := Fin 204800 |}
             throwing_inputs eq_refl eq_refl eq_refl eq_refl
             (or_intror (conj throwing_request_guard Ht))).
Defined.

Lemma fresh_request_scanned :
  exists meta,
    @Server.scan nan_host fresh_request
    = Server.Scanned (@Server.computeRisk nan_host fresh_inputs) meta.
Proof.
  eexists. unfold fresh_request, fresh_inputs.
  apply scan_valid; [reflexivity | exact fresh_request_guard | reflexivity].
Defined.

Lemma scanned_percent_and_level_witness :
  exists (meta : Server.Meta) (q : Z),
    @Server.scan nan_host fresh_request
    = Server.Scanned (@Server.computeRisk nan_host fresh_inputs) meta
    /\ Server.riskPercent (@Server.computeRisk nan_host fresh_inputs)
       = Fin (IZR q)
    /\ (0 <= q <= 100)%Z.
Proof.
  destruct fresh_request_scanned as (meta & Hscan).
  destruct (@scanned_percent_and_level nan_host fresh_request _ meta Hscan)
    as (q & Hq & Hr & _).
  exists meta, q. repeat split; try assumption; lia.
Defined.

Lemma scanned_tips_witness :
  exists (meta : Server.Meta) (q : Z),
    @Server.scan nan_host fresh_request
    = Server.Scanned (@Server.computeRisk nan_host fresh_inputs) meta
    /\ Server.riskPercent (@Server.computeRisk nan_host fresh_inputs)
       = Fin (IZR q)
    /\ List.last (Server.tips (@Server.computeRisk nan_host fresh_inputs))
         EmptyString = Server.tip_always.
Proof.
  destruct fresh_request_scanned as (meta & Hscan).
  destruct (@scanned_tips nan_host fresh_request _ meta Hscan)
    as (q & Hq & _ & Hlast & _).
  exists meta, q. repeat split; assumption.
Defined.

Lemma getImageData_capped_witness :
  ((1 <= LeafVision.width small_image <= 360)%nat
   /\ (1 <= LeafVision.height small_image <= 360)%nat)
  /\ LeafVision.id_w (LeafVision.getImageData small_image (Fin 360)) = 200%nat
  /\ LeafVision.id_h (LeafVision.getImageData small_image (Fin 360)) = 100%nat.
Proof.
  assert (Hw : (1 <= LeafVision.width small_image <= 360)%nat) by (cbn; lia).
  assert (Hh : (1 <= LeafVision.height small_image <= 360)%nat) by (cbn; lia).
  split; [split; assumption |].
  exact (proj2 (proj2 (getImageData_capped small_image)) Hw Hh).
Defined.

Lemma rgbToHsv_range_witness :
  (0 <= 200 <= 255 /\ 0 <= 100 <= 255 /\ 0 <= 50 <= 255)
  /\ exists h s v : R,
       LeafVision.rgbToHsv (Fin 200) (Fin 100) (Fin 50)
       = {| LeafVision.hsv_h := Fin h; LeafVision.hsv_s := Fin s;
            LeafVision.hsv_v := Fin v |}
       /\ 0 <= h < 360 /\ 0 <= s <= 1 /\ 0 <= v <= 1.
Proof.
  assert (Hr : 0 <= 200 <= 255) by lra.
  assert (Hg : 0 <= 100 <= 255) by lra.
  assert (Hb : 0 <= 50 <= 255) by lra.
  split; [repeat split; lra |].
  exact (rgbToHsv_range 200 100 50 Hr Hg Hb).
Defined.

Lemma failed_check_rejects_witness :
  String.prefix "image/" (LeafVision.type text_file) = false
  /\ LeafVision.ok
       (LeafVision.analyzeLeafPhoto (fun _ => Some gray_image)
          (Some text_file) LeafVision.default_opts) = false.
Proof.
  assert (H : String.prefix "image/" (LeafVision.type text_file) = false)
    by reflexivity.
  split; [exact H |].
  exact (failed_check_rejects (fun _ => Some gray_image) text_file
           LeafVision.default_opts (or_introl H)).
Defined.

Lemma laplacianVariance_no_detail_witness :
  ((2 < 3)%nat \/ (5 < 3)%nat)
  /\ LeafVision.laplacianVariance ramp_buffer 2 5 = Fin 0.
Proof.
  assert (H : (2 < 3)%nat \/ (5 < 3)%nat) by (left; lia).
  split; [exact H |].
  exact (proj1 (laplacianVariance_no_detail ramp_buffer 2 5) H).
Defined.
